(** * Inflation-expectations dashboard: data preparation and curve extraction

    A shallow embedding of [streamlit_app.py]: the dataset loader, the
    synthetic dataset generator, the quarter label, the global value range,
    curve extraction, the overview, comparison and evolution charts, the
    comparison and evolution tabs and the download links, with the
    properties of the specification and further properties of the code
    stated over them.

    Conventions of the embedding.
    - A Python float is modelled by the rational number it denotes ([Q]);
      the rounding error of individual float operations is not modelled.
      The missing float [nan] is the separate cell [NaN].
    - A pandas [Timestamp] is a calendar date (year, month, day); the missing
      timestamp is the cell [NaT].
    - A [DataFrame] is the ordered list of its column labels together with
      its rows in index order; selecting by label takes the first column that
      carries the label (labels are pairwise distinct in an Observation
      Table).
    - A Python exception is a value of [exn]; a call that may raise returns
      a [result]. *)

From Stdlib Require Import ZArith QArith Qround List String Ascii Bool Lia.
From Stdlib Require Import DecimalString Sorting.Sorted Permutation.
From Stdlib Require DecimalPos.
From Stdlib Require Import Lqa.
Import ListNotations.

Local Open Scope string_scope.
Local Open Scope Z_scope.

(** ** Exceptions and results *)

Inductive exn : Type :=
| KeyError
| IndexError
| ValueError
| AttributeError
| TypeError
| ZeroDivisionError
| FileNotFoundError.

Inductive result (A : Type) : Type :=
| Ok (a : A)
| Raise (e : exn).

Arguments Ok {A} a.
Arguments Raise {A} e.

Definition bind {A B : Type} (r : result A) (k : A -> result B) : result B :=
  match r with
  | Ok a => k a
  | Raise e => Raise e
  end.

Notation "x <- r ;; k" := (bind r (fun x => k))
  (at level 61, r at next level, right associativity).

(** A comprehension [[f(x) for x in xs]] whose body may raise: the first
    exception, in iteration order, ends it. *)
Fixpoint for_each {A B : Type} (f : A -> result B) (xs : list A) : result (list B) :=
  match xs with
  | [] => Ok []
  | x :: xs' =>
      y <- f x ;;
      ys <- for_each f xs' ;;
      Ok (y :: ys)
  end.

(** ** Cells, timestamps, tables *)

Record Timestamp : Type := mkTimestamp { year : Z; month : Z; day : Z }.

Inductive cell : Type :=
| Num (q : Q)
| NaN
| Stamp (t : Timestamp)
| NaT
| Str (s : string).

Record DataFrame : Type := mkDataFrame {
  columns : list string;
  rows : list (list cell)
}.

(** ** Python text helpers *)

(** [str(n)] and [f"{n}"] for an integer. *)
Definition str_of_int (n : Z) : string := NilZero.string_of_int (Z.to_int n).

(** [f"{n:02d}"]: zero-padded to two characters. *)
Definition str_of_int_02d (n : Z) : string :=
  let s := str_of_int n in
  if (String.length s <? 2)%nat then "0" ++ s else s.

(** [str.startswith]. *)
Definition startswith (p s : string) : bool := String.prefix p s.

(** [s.split(sep)] for a separator of one character. *)
Fixpoint split (sep : ascii) (s : string) : list string :=
  match s with
  | EmptyString => [EmptyString]
  | String c s' =>
      if Ascii.eqb c sep then EmptyString :: split sep s'
      else match split sep s' with
           | [] => [String c EmptyString]
           | w :: ws => String c w :: ws
           end
  end.

(** [s[:-1]]: all but the last character; the empty string stays empty. *)
Fixpoint drop_last (s : string) : string :=
  match s with
  | EmptyString => EmptyString
  | String c EmptyString => EmptyString
  | String c s' => String c (drop_last s')
  end.

(** [s.replace(' ', '')]. *)
Fixpoint remove_spaces (s : string) : string :=
  match s with
  | EmptyString => EmptyString
  | String c s' =>
      if Ascii.eqb c " "%char then remove_spaces s' else String c (remove_spaces s')
  end.

(** [xs[i]] on a list. *)
Definition getitem {A : Type} (xs : list A) (i : nat) : result A :=
  match nth_error xs i with
  | Some x => Ok x
  | None => Raise IndexError
  end.

(** The characters [int()] strips from both ends of its argument. *)
Definition is_space (c : ascii) : bool :=
  let n := nat_of_ascii c in
  (n =? 32)%nat || ((9 <=? n) && (n <=? 13))%nat || ((28 <=? n) && (n <=? 31))%nat.

Fixpoint lstrip (s : string) : string :=
  match s with
  | EmptyString => EmptyString
  | String c s' => if is_space c then lstrip s' else s
  end.

Fixpoint rstrip (s : string) : string :=
  match s with
  | EmptyString => EmptyString
  | String c s' =>
      match rstrip s' with
      | EmptyString => if is_space c then EmptyString else String c EmptyString
      | t => String c t
      end
  end.

Definition digit_value (c : ascii) : option Z :=
  let n := nat_of_ascii c in
  if ((48 <=? n) && (n <=? 57))%nat then Some (Z.of_nat n - 48) else None.

(** The value of a string of decimal digits read after [acc]; [None] when a
    character is not a digit. *)
Fixpoint digits_value (acc : Z) (s : string) : option Z :=
  match s with
  | EmptyString => Some acc
  | String c s' =>
      match digit_value c with
      | Some d => digits_value (10 * acc + d) s'
      | None => None
      end
  end.

Definition unsigned_value (s : string) : result Z :=
  match s with
  | EmptyString => Raise ValueError
  | _ => match digits_value 0 s with
         | Some n => Ok n
         | None => Raise ValueError
         end
  end.

(** [int(s)] on ASCII text: surrounding white space is dropped, one sign is
    allowed, then at least one decimal digit.  (The digit separator [_] of
    Python literals cannot reach this function: its argument is a piece of
    [split('_')].) *)
Definition int (s : string) : result Z :=
  match lstrip (rstrip s) with
  | String "+"%char t => unsigned_value t
  | String "-"%char t => n <- unsigned_value t ;; Ok (- n)
  | t => unsigned_value t
  end.

(** ** Countries *)

Definition COUNTRIES : list (string * string) :=
  [("Deutschland", "de"); ("Spanien", "es"); ("Eurozone", "ez");
   ("Frankreich", "fr"); ("Italien", "it"); ("Niederlande", "nl")].

(** ** [format_quarter] *)

Definition format_quarter (date : Timestamp) : string :=
  let year := year date in
  let month := month date in
  let quarter :=
    if existsb (Z.eqb month) [1; 2; 3] then 1
    else if existsb (Z.eqb month) [4; 5; 6] then 2
    else if existsb (Z.eqb month) [7; 8; 9] then 3
    else 4 in
  str_of_int year ++ "Q" ++ str_of_int quarter.

(** The quarter of a month in the words of the specification: months 1-3 are
    Q1, 4-6 are Q2, 7-9 are Q3 and 10-12 are Q4. *)
Definition calendar_quarter (m : Z) : string :=
  if (1 <=? m) && (m <=? 3) then "1"
  else if (4 <=? m) && (m <=? 6) then "2"
  else if (7 <=? m) && (m <=? 9) then "3"
  else "4".

(** ** Table access *)

(** Position of the first column labelled [label]. *)
Fixpoint index_of (label : string) (cols : list string) : option nat :=
  match cols with
  | [] => None
  | c :: cs =>
      if String.eqb c label then Some 0%nat
      else option_map S (index_of label cs)
  end.

(** [row[col]] for a row of a table with column labels [cols]. *)
Definition row_get (cols : list string) (row : list cell) (col : string) : result cell :=
  match index_of col cols with
  | Some j => Ok (nth j row NaN)
  | None => Raise KeyError
  end.

(** [df[col]]: the cells of a column, in row order. *)
Definition column (df : DataFrame) (col : string) : result (list cell) :=
  match index_of col (columns df) with
  | Some j => Ok (map (fun row => nth j row NaN) (rows df))
  | None => Raise KeyError
  end.

(** [[col for col in df.columns if col.startswith('pi_')]]. *)
Definition horizon_columns (df : DataFrame) : list string :=
  filter (startswith "pi_") (columns df).

(** [int(col.split('_')[1][:-1])]. *)
Definition horizon_value (col : string) : result Z :=
  part <- getitem (split "_"%char col) 1 ;;
  int (drop_last part).

(** [format_quarter] applied to a cell of a table: a timestamp has [year]
    and [month]; [NaT.year] and [NaT.month] are [nan], which is in none of the
    month lists; any other value has no attribute [year]. *)
Definition format_quarter_cell (date : cell) : result string :=
  match date with
  | Stamp t => Ok (format_quarter t)
  | NaT => Ok "nanQ4"
  | _ => Raise AttributeError
  end.

(** ** [get_global_y_range] *)

(** [Series.dropna]. *)
Definition is_missing (c : cell) : bool :=
  match c with
  | NaN | NaT => true
  | _ => false
  end.

Definition dropna (cs : list cell) : list cell :=
  filter (fun c => negb (is_missing c)) cs.

(** The values collected by the loop over the horizon columns. *)
Definition all_values (df : DataFrame) : result (list cell) :=
  chunks <- for_each (fun col => s <- column df col ;; Ok (dropna s))
                     (horizon_columns df) ;;
  Ok (List.concat chunks).

(** A collected value that is not a float makes [min], [max] or the
    subtraction of [0.2] raise [TypeError]. *)
Definition as_float (c : cell) : result Q :=
  match c with
  | Num q => Ok q
  | _ => Raise TypeError
  end.

(** [min(xs)] and [max(xs)] on a non-empty list [x :: xs] of floats: the
    first smallest, the first largest. *)
Definition py_min (x : Q) (xs : list Q) : Q :=
  fold_left (fun m v => if Qlt_le_dec v m then v else m) xs x.

Definition py_max (x : Q) (xs : list Q) : Q :=
  fold_left (fun m v => if Qlt_le_dec m v then v else m) xs x.

Definition get_global_y_range (df : DataFrame) : result (list Q) :=
  all_values <- all_values df ;;
  match all_values with
  | v :: vs =>
      x <- as_float v ;;
      xs <- for_each as_float vs ;;
      let global_min := py_min x xs in
      let global_max := py_max x xs in
      Ok [global_min - (2 # 10); global_max + (2 # 10)]%Q
  | [] => Ok [0; 5]%Q
  end.

(** ** [prepare_curve_data] *)

Record CurveRecord : Type := mkCurveRecord {
  date : cell;
  quarter_label : string;
  horizons : list Z;
  values : list cell
}.

Definition prepare_curve_data (df : DataFrame) : result (list CurveRecord) :=
  let horizons := horizon_columns df in
  horizon_values <- for_each horizon_value horizons ;;
  for_each
    (fun row =>
       date <- row_get (columns df) row "Time" ;;
       quarter_label <- format_quarter_cell date ;;
       values <- for_each (row_get (columns df) row) horizons ;;
       Ok (mkCurveRecord date quarter_label horizon_values values))
    (rows df).

(** ** [create_comparison_chart] *)

Record Scatter : Type := mkScatter {
  x : list Z;
  y : list cell;
  mode : string;
  name : string;
  line_color : string;
  line_width : Z;
  marker_size : Z
}.

Record Layout : Type := mkLayout {
  title : string;
  xaxis_title : string;
  yaxis_title : string;
  hovermode : string;
  height : Z;
  yaxis_range : option (list Q)
}.

(** A [go.Figure]: the traces in the order they were added, and the layout
    set by [update_layout]. *)
Record Figure : Type := mkFigure {
  data : list Scatter;
  layout : Layout
}.

(** [a == b] between a cell of the [Time] column and a selected date:
    a missing value equals nothing, itself included. *)
Definition cell_eqb (a b : cell) : bool :=
  match a, b with
  | Stamp s, Stamp t =>
      (year s =? year t) && (month s =? month t) && (day s =? day t)
  | Num p, Num q => Qeq_bool p q
  | Str s, Str t => String.eqb s t
  | _, _ => false
  end.

(** [df[mask]]: the rows whose entry of the mask holds. *)
Definition select_rows (df : DataFrame) (mask : list bool) : DataFrame :=
  mkDataFrame (columns df)
    (map snd (filter fst (combine mask (rows df)))).

(** [df.iloc[0]]. *)
Definition iloc0 (df : DataFrame) : result (list cell) := getitem (rows df) 0.

(** [[f(i, x) for i, x in enumerate(xs)]], counting from [i]. *)
Fixpoint for_each_indexed {A B : Type} (f : nat -> A -> result B) (i : nat)
    (xs : list A) : result (list B) :=
  match xs with
  | [] => Ok []
  | x :: xs' =>
      y <- f i x ;;
      ys <- for_each_indexed f (S i) xs' ;;
      Ok (y :: ys)
  end.

(** [colors[i % len(colors)]]. *)
Definition cycle_color (colors : list string) (i : nat) : result string :=
  match colors with
  | [] => Raise ZeroDivisionError
  | _ => getitem colors (i mod List.length colors)
  end.

Section Charts.

(** [px.colors.qualitative.Set1], the palette of the charting library. *)
Variable colors : list string.

Definition create_comparison_chart (df : DataFrame) (selected_dates : list cell)
    (use_fixed_scale : bool) : result Figure :=
  let horizons := horizon_columns df in
  horizon_values <- for_each horizon_value horizons ;;
  traces <-
    for_each_indexed
      (fun i date =>
         time <- column df "Time" ;;
         let mask := map (fun c => cell_eqb c date) time in
         row <- iloc0 (select_rows df mask) ;;
         values <- for_each (row_get (columns df) row) horizons ;;
         quarter_label <- format_quarter_cell date ;;
         color <- cycle_color colors i ;;
         Ok (mkScatter horizon_values values "lines+markers" quarter_label
               color 2 6))
      0%nat selected_dates ;;
  let layout_kwargs :=
    mkLayout "Vergleich der Inflationserwartungen-Strukturkurven"
      "Horizont (Quartale)" "Inflationserwartungen (% p.a.)" "x unified" 500 in
  if use_fixed_scale then
    range <- get_global_y_range df ;;
    Ok (mkFigure traces (layout_kwargs (Some range)))
  else
    Ok (mkFigure traces (layout_kwargs None)).

(** The comparison tab of [main]: the quarter options of the table, the
    dates of the selected labels (the first row carrying each label), and
    the chart, which is built only when the selection is not empty. *)
Definition comparison_tab (df : DataFrame) (selected_quarter_labels : list string)
    (use_fixed_y_axis : bool) : result (option Figure) :=
  quarter_options <-
    for_each
      (fun row =>
         time <- row_get (columns df) row "Time" ;;
         label <- format_quarter_cell time ;;
         Ok (time, label))
      (rows df) ;;
  match selected_quarter_labels with
  | [] => Ok None
  | _ =>
      let selected_dates :=
        flat_map
          (fun label =>
             match find (fun opt => String.eqb (snd opt) label) quarter_options with
             | Some (date, _) => [date]
             | None => []
             end)
          selected_quarter_labels in
      fig1 <- create_comparison_chart df selected_dates use_fixed_y_axis ;;
      Ok (Some fig1)
  end.

End Charts.

(** ** Building and updating tables *)

(** [pd.DataFrame(data)] for a dict of equally long columns, in key order. *)
Definition from_columns (data : list (string * list cell)) : result DataFrame :=
  match data with
  | [] => Ok (mkDataFrame [] [])
  | (_, first) :: _ =>
      let n := List.length first in
      if forallb (fun kv => (List.length (snd kv) =? n)%nat) data then
        Ok (mkDataFrame (map fst data)
              (map (fun i => map (fun kv => nth i (snd kv) NaN) data) (seq 0 n)))
      else Raise ValueError
  end.

(** [xs] with position [j] replaced by [v]. *)
Fixpoint replace_nth {A : Type} (j : nat) (v : A) (xs : list A) : list A :=
  match xs, j with
  | [], _ => []
  | _ :: xs', O => v :: xs'
  | a :: xs', S j' => a :: replace_nth j' v xs'
  end.

(** [df[col] = vals] for an existing column: the lengths must agree. *)
Definition set_column (df : DataFrame) (col : string) (vals : list cell) : result DataFrame :=
  match index_of col (columns df) with
  | None => Raise KeyError
  | Some j =>
      if (List.length vals =? List.length (rows df))%nat then
        Ok (mkDataFrame (columns df)
              (map (fun rv => replace_nth j (snd rv) (fst rv)) (combine (rows df) vals)))
      else Raise ValueError
  end.

(** [df.rename(columns={old: new})]. *)
Definition rename (df : DataFrame) (old new : string) : DataFrame :=
  mkDataFrame (map (fun c => if String.eqb c old then new else c) (columns df)) (rows df).

(** ** Rounding of the numeric columns *)

(** Nearest integer, ties to the even one ([np.rint]). *)
Definition rint (q : Q) : Z :=
  let f := Qfloor q in
  match (q - inject_Z f ?= 1 # 2)%Q with
  | Lt => f
  | Gt => f + 1
  | Eq => if Z.even f then f else f + 1
  end.

(** [round(decimals)] on a float. *)
Definition round_decimals (decimals : Z) (q : Q) : Q :=
  (inject_Z (rint (q * inject_Z (10 ^ decimals))) / inject_Z (10 ^ decimals))%Q.

Definition round_cell (decimals : Z) (c : cell) : cell :=
  match c with
  | Num q => Num (round_decimals decimals q)
  | _ => c
  end.

Definition is_number (c : cell) : bool :=
  match c with
  | Num _ | NaN => true
  | _ => false
  end.

(** [df.select_dtypes(include=[np.number])]: per column position, whether the
    column holds floats only. *)
Definition numeric_cols (df : DataFrame) : list bool :=
  map (fun j => forallb (fun row => is_number (nth j row NaN)) (rows df))
      (seq 0 (List.length (columns df))).

(** [df[numeric_cols] = df[numeric_cols].round(decimals)]. *)
Definition round_numeric (decimals : Z) (df : DataFrame) : DataFrame :=
  let numeric := numeric_cols df in
  mkDataFrame (columns df)
    (map (fun row =>
            map (fun nc : bool * cell => if fst nc then round_cell decimals (snd nc) else snd nc)
                (combine numeric row))
         (rows df)).

(** ** Sorting by a datetime column *)

Definition timestamp_leb (s t : Timestamp) : bool :=
  (year s <? year t)
  || ((year s =? year t)
      && ((month s <? month t)
          || ((month s =? month t) && (day s <=? day t)))).

(** Order of the sort keys: ascending timestamps, then the missing ones
    ([na_position='last']). *)
Definition key_leb (a b : option Timestamp) : bool :=
  match a, b with
  | Some s, Some t => timestamp_leb s t
  | _, None => true
  | None, Some _ => false
  end.

(** The sort key of a cell of a datetime column.  [load_data] sorts after it
    has parsed the column, so no other cell reaches the sort. *)
Definition time_key (c : cell) : result (option Timestamp) :=
  match c with
  | Stamp t => Ok (Some t)
  | NaT => Ok None
  | _ => Raise TypeError
  end.

Definition cell_of_time (k : option Timestamp) : cell :=
  match k with
  | Some t => Stamp t
  | None => NaT
  end.

Fixpoint insert_by_key {A : Type} (r : option Timestamp * A)
    (sorted : list (option Timestamp * A)) : list (option Timestamp * A) :=
  match sorted with
  | [] => [r]
  | r' :: rest =>
      if key_leb (fst r) (fst r') then r :: r' :: rest
      else r' :: insert_by_key r rest
  end.

(** Insertion sort on the keys.  Rows with equal keys keep their order
    here; pandas leaves their order to the sorting algorithm. *)
Definition sort_by_key {A : Type} (rs : list (option Timestamp * A)) :
    list (option Timestamp * A) :=
  fold_right insert_by_key [] rs.

(** [df.sort_values(by).reset_index(drop=True)] for a datetime column. *)
Definition sort_values (df : DataFrame) (by_ : string) : result DataFrame :=
  match index_of by_ (columns df) with
  | None => Raise KeyError
  | Some j =>
      keyed <- for_each (fun row => k <- time_key (nth j row NaN) ;; Ok (k, row))
                        (rows df) ;;
      Ok (mkDataFrame (columns df) (map snd (sort_by_key keyed)))
  end.

(** ** [load_sample_data] *)

(** [range(a, b)]. *)
Definition range (a b : Z) : list Z :=
  map (fun i => a + Z.of_nat i) (seq 0 (Z.to_nat (b - a))).

Definition sample_date_str (year quarter : Z) : string :=
  let month := if negb (quarter =? 12) then quarter else 12 in
  let day := if quarter =? 12 then 31 else 30 in
  let day :=
    if quarter =? 6 then 30
    else if quarter =? 3 then 31
    else if quarter =? 9 then 30
    else day in
  str_of_int_02d day ++ "." ++ str_of_int_02d month ++ "." ++ str_of_int year.

Definition sample_quarters : list string :=
  flat_map
    (fun year =>
       flat_map
         (fun quarter =>
            if (year =? 1989) && (quarter <? 12) then []
            else [sample_date_str year quarter])
         [3; 6; 9; 12])
    (range 1989 2026).

Definition is_leap (y : Z) : bool :=
  (y mod 4 =? 0) && (negb (y mod 100 =? 0) || (y mod 400 =? 0)).

Definition days_in_month (y m : Z) : Z :=
  if existsb (Z.eqb m) [4; 6; 9; 11] then 30
  else if m =? 2 then (if is_leap y then 29 else 28)
  else 31.

(** Parsing with the format ['%d.%m.%Y']: day and month of one or two
    digits, a year of four, and a date of the calendar. *)
Definition strptime_dmY (s : string) : result Timestamp :=
  match split "."%char s with
  | [d; m; y] =>
      let short t := ((1 <=? String.length t) && (String.length t <=? 2))%nat in
      if short d && short m && (String.length y =? 4)%nat then
        match digits_value 0 d, digits_value 0 m, digits_value 0 y with
        | Some d, Some m, Some y =>
            if (1 <=? m) && (m <=? 12) && (1 <=? d) && (d <=? days_in_month y m)
            then Ok (mkTimestamp y m d)
            else Raise ValueError
        | _, _, _ => Raise ValueError
        end
      else Raise ValueError
  | _ => Raise ValueError
  end.

(** [pd.to_datetime(..., format='%d.%m.%Y')] on one cell.  The generator
    applies it to the date strings it has just built. *)
Definition to_datetime_dmY (c : cell) : result cell :=
  match c with
  | Str s => t <- strptime_dmY s ;; Ok (Stamp t)
  | Stamp t => Ok (Stamp t)
  | NaN | NaT => Ok NaT
  | Num _ => Raise ValueError
  end.

(** The float [np.pi]. *)
Definition np_pi : Q := 884279719003555 # 281474976710656.

(** [np.linspace(start, stop, num)]. *)
Definition linspace (start stop : Q) (num : nat) : list Q :=
  let step := ((stop - start) / inject_Z (Z.of_nat num - 1))%Q in
  map (fun i => (inject_Z (Z.of_nat i) * step + start)%Q) (seq 0 num).

(** [np.maximum(a, b)] on floats. *)
Definition maximum (a b : Q) : Q := if Qlt_le_dec a b then b else a.

Section Loader.

(** The global random generator of numpy: its state, [np.random.seed] and
    one draw of [np.random.normal(loc, scale)]. *)
Variable rng_state : Type.
Variable seed : Z -> rng_state.
Variable normal : Q -> Q -> rng_state -> Q * rng_state.

(** [np.sin] on a float. *)
Variable sin : Q -> Q.

(** [np.random.normal(loc, scale, n)]: [n] draws, one after the other. *)
Fixpoint normal_n (loc scale : Q) (n : nat) (st : rng_state) : list Q * rng_state :=
  match n with
  | O => ([], st)
  | S n' =>
      let (v, st1) := normal loc scale st in
      let (vs, st2) := normal_n loc scale n' st1 in
      (v :: vs, st2)
  end.

(** The loop [for q in ...] of the generator: the columns it adds to
    [data], and the generator state it leaves. *)
Fixpoint horizon_series (n_quarters : nat) (qs : list Z) (st : rng_state) :
    list (string * list cell) * rng_state :=
  match qs with
  | [] => ([], st)
  | q :: qs' =>
      let base_trend :=
        map (fun t => (2 + (5 # 10) * sin t)%Q)
            (linspace 0 (4 * np_pi) n_quarters) in
      let horizon_adjustment := (inject_Z (q - 1) * (1 # 100))%Q in
      let (noise, st1) := normal_n 0 (2 # 10) n_quarters st in
      let values :=
        map (fun bn : Q * Q => (fst bn + horizon_adjustment + snd bn)%Q)
            (combine base_trend noise) in
      let values := map (fun v => maximum v (5 # 10)) values in
      let (rest, st2) := horizon_series n_quarters qs' st1 in
      (("pi_" ++ str_of_int q ++ "q", map Num values) :: rest, st2)
  end.

(** [load_sample_data()], started in generator state [st]: the table and
    the state the call leaves behind. *)
Definition load_sample_data (st : rng_state) : result DataFrame * rng_state :=
  let quarters := sample_quarters in
  let st := seed 42 in
  let n_quarters := List.length quarters in
  let (series, st) := horizon_series n_quarters (range 1 41) st in
  let data := ("Time", map Str quarters) :: series in
  (df <- from_columns data ;;
   time <- column df "Time" ;;
   parsed <- for_each to_datetime_dmY time ;;
   set_column df "Time" parsed,
   st).

(** The spreadsheet reader: the table at a path, or the exception raised
    ([FileNotFoundError] for an absent file). *)
Variable read_excel : string -> result DataFrame.

(** [pd.to_datetime] on a column without a format: the parsed timestamps
    ([None] for a missing one), or an exception. *)
Variable to_datetime : list cell -> result (list (option Timestamp)).

(** [df['Time'] = pd.to_datetime(df['Time'])]. *)
Definition parse_time (df : DataFrame) : result DataFrame :=
  time <- column df "Time" ;;
  parsed <- to_datetime time ;;
  set_column df "Time" (map cell_of_time parsed).

(** [load_data(country_code)], started in generator state [st].  The
    diagnostics shown on the fallback paths are not part of the result. *)
Definition load_data (country_code : string) (st : rng_state) :
    result DataFrame * rng_state :=
  let file_path := "data/" ++ country_code ++ "/FittedTermStructure.xlsx" in
  let attempt :=
    df <- read_excel file_path ;;
    let df := mkDataFrame (map remove_spaces (columns df)) (rows df) in
    let df := round_numeric 3 df in
    df <- (if existsb (String.eqb "Time") (columns df) then parse_time df
           else
             first <- getitem (columns df) 0 ;;
             if negb (existsb (String.eqb first) ["pi_1q"; "pi_2q"]) then
               parse_time (rename df first "Time")
             else Ok df) ;;
    sort_values df "Time" in
  match attempt with
  | Ok df => (Ok df, st)
  | Raise FileNotFoundError => load_sample_data st
  | Raise _ => load_sample_data st
  end.

End Loader.

Arguments normal_n {rng_state} normal loc scale n st.
Arguments horizon_series {rng_state} normal sin n_quarters qs st.
Arguments load_sample_data {rng_state} seed normal sin st.
Arguments load_data {rng_state} seed normal sin read_excel to_datetime country_code st.

(** ** The Observation Table of the specification *)

Fixpoint nodupb (xs : list string) : bool :=
  match xs with
  | [] => true
  | a :: xs' => negb (existsb (String.eqb a) xs') && nodupb xs'
  end.

Definition is_ok {A : Type} (r : result A) : bool :=
  match r with
  | Ok _ => true
  | Raise _ => false
  end.

(** What a column may hold: the [Time] column dates, a horizon column
    floats or the missing marker, any other column anything. *)
Definition cell_fits (col : string) (c : cell) : bool :=
  if String.eqb col "Time" then
    match c with Stamp _ => true | _ => false end
  else if startswith "pi_" col then is_number c
  else true.

(** A table is an Observation Table when its labels are pairwise distinct,
    one of them is [Time], every horizon label reads [pi_<N>q], and every row
    has one fitting cell per column. *)
Definition observation_table (df : DataFrame) : bool :=
  nodupb (columns df)
  && existsb (String.eqb "Time") (columns df)
  && forallb (fun col => is_ok (horizon_value col)) (horizon_columns df)
  && forallb
       (fun row =>
          (List.length row =? List.length (columns df))%nat
          && forallb (fun lc => cell_fits (fst lc) (snd lc)) (combine (columns df) row))
       (rows df).

(** Sort keys in ascending order: each one is at most every later one. *)
Definition keys_ascending (keys : list (option Timestamp)) : Prop :=
  StronglySorted (fun a b => key_leb a b = true) keys.

(** The [Time] cells of a table are in ascending order, missing ones last. *)
Definition ascending_by_time (df : DataFrame) : Prop :=
  exists keys : list (option Timestamp),
    column df "Time" = Ok (map cell_of_time keys) /\ keys_ascending keys.

(** Sort keys in strictly ascending order: each one is at most every later
    one and differs from it. *)
Definition keys_strictly_ascending (keys : list (option Timestamp)) : Prop :=
  StronglySorted (fun a b => key_leb a b = true /\ a <> b) keys.

(** The same, strictly: no two rows share a date. *)
Definition strictly_ascending_by_time (df : DataFrame) : Prop :=
  exists keys : list (option Timestamp),
    column df "Time" = Ok (map cell_of_time keys) /\ keys_strictly_ascending keys.

(** A decision procedure for strictly ascending keys. *)
Definition key_ltb (a b : option Timestamp) : bool :=
  key_leb a b && negb (key_leb b a).

Fixpoint strictly_ascendingb (keys : list (option Timestamp)) : bool :=
  match keys with
  | [] => true
  | k :: ks => forallb (key_ltb k) ks && strictly_ascendingb ks
  end.

(** The dates of the synthetic table: the date strings of the generator,
    parsed. *)
Definition sample_dates : list Timestamp :=
  Eval vm_compute in
    match for_each strptime_dmY sample_quarters with
    | Ok ts => ts
    | Raise _ => []
    end.

(** The column labels of the synthetic table. *)
Definition sample_columns : list string :=
  "Time" :: map (fun q => "pi_" ++ str_of_int q ++ "q") (range 1 41).

(** [v] is a non-missing horizon value of the table: the float in some row
    under some horizon column. *)
Definition horizon_value_in (df : DataFrame) (v : Q) : Prop :=
  exists col row,
    In col (horizon_columns df) /\ In row (rows df)
    /\ row_get (columns df) row col = Ok (Num v).

(** The cells a column lookup reads, as a total function of the label. *)
Definition cells_of (df : DataFrame) (col : string) : list cell :=
  match index_of col (columns df) with
  | Some j => map (fun row => nth j row NaN) (rows df)
  | None => []
  end.

(** What the record built from a row holds, given the parsed horizons [hv]
    of the table. *)
Definition curve_of_row (df : DataFrame) (hv : list Z) (row : list cell)
    (rec : CurveRecord) : Prop :=
  row_get (columns df) row "Time" = Ok (date rec)
  /\ format_quarter_cell (date rec) = Ok (quarter_label rec)
  /\ horizons rec = hv
  /\ Forall2 (fun col v => row_get (columns df) row col = Ok v)
             (horizon_columns df) (values rec).

(** ** Tables used as concrete inputs *)

(** A spreadsheet in which two rows carry the date 1999-06-30. *)
Definition repeated_date_sheet : DataFrame :=
  mkDataFrame ["Time"; "pi_1q"]
    [[Stamp (mkTimestamp 1999 6 30); Num (18 # 10)];
     [Stamp (mkTimestamp 1999 3 31); Num (21 # 10)];
     [Stamp (mkTimestamp 1999 6 30); Num (17 # 10)]].

(** A date parser for cells that are timestamps already. *)
Definition keep_timestamps (cells : list cell) : result (list (option Timestamp)) :=
  for_each time_key cells.

(** Two quarters, horizons 1, 2 and 4; the second row lacks the value of
    [pi_4q]. *)
Definition two_quarter_table : DataFrame :=
  mkDataFrame ["Time"; "pi_1q"; "pi_2q"; "pi_4q"]
    [[Stamp (mkTimestamp 1999 3 31); Num (21 # 10); Num (19 # 10); Num (2 # 1)];
     [Stamp (mkTimestamp 1999 6 30); Num (18 # 10); Num (25 # 10); NaN]].

(** The same quarters with the horizon columns stored longest first. *)
Definition descending_columns_table : DataFrame :=
  mkDataFrame ["Time"; "pi_2q"; "pi_1q"]
    [[Stamp (mkTimestamp 1999 3 31); Num (19 # 10); Num (21 # 10)];
     [Stamp (mkTimestamp 1999 6 30); Num (25 # 10); Num (18 # 10)]].

(** A table whose only horizon column is entirely missing. *)
Definition missing_horizon_table : DataFrame :=
  mkDataFrame ["Time"; "pi_1q"]
    [[Stamp (mkTimestamp 1999 3 31); NaN];
     [Stamp (mkTimestamp 1999 6 30); NaN]].

(** The characters of a decimal numeral: digits, which are neither white
    space nor a sign nor the separator of the labels. *)
Definition plain (c : ascii) : Prop :=
  is_space c = false /\ c <> "_"%char /\ c <> "+"%char /\ c <> "-"%char.

(** ** Notions used to state the behaviour of the charts *)

(** The first row of the table that carries the date [t]. *)
Definition first_row_dated (df : DataFrame) (t : Timestamp) : option (list cell) :=
  find (fun row =>
          match row_get (columns df) row "Time" with
          | Ok c => cell_eqb c (Stamp t)
          | Raise _ => false
          end)
       (rows df).

(** The quarter labels of the rows of a table, in row order. *)
Definition quarter_labels (df : DataFrame) : list string :=
  flat_map (fun row =>
              match row_get (columns df) row "Time" with
              | Ok (Stamp t) => [format_quarter t]
              | _ => []
              end)
           (rows df).


(** A cell that holds a float of at least one half. *)
Definition floored (c : cell) : Prop :=
  exists q : Q, c = Num q /\ (5 # 10 <= q)%Q.


(** The path of the spreadsheet of a country. *)
Definition sheet_path (country_code : string) : string :=
  "data/" ++ country_code ++ "/FittedTermStructure.xlsx".


(** A sheet without a time column that starts with the first horizon. *)
Definition horizons_only_sheet : DataFrame :=
  mkDataFrame ["pi_1q"; "pi_2q"] [[Num (21 # 10); Num (19 # 10)]].






(** ** [create_timeseries_overview_chart] *)

(** A line of the overview: the dates on the x axis, the cells of one
    horizon column on the y axis. *)
Record TimeSeries : Type := mkTimeSeries {
  ts_x : list cell;
  ts_y : list cell;
  ts_mode : string;
  ts_name : string;
  ts_line_color : string;
  ts_line_width : Z;
  ts_hovertemplate : string
}.

Definition selected_horizons : list (string * string * string) :=
  [("pi_1q", "1 Quartal", "#000080");
   ("pi_2q", "2 Quartale", "#0000FF");
   ("pi_3q", "3 Quartale", "#0080FF");
   ("pi_4q", "4 Quartale", "#00FFFF");
   ("pi_6q", "6 Quartale", "#00FF80");
   ("pi_8q", "8 Quartale", "#00FF00");
   ("pi_12q", "12 Quartale", "#80FF00");
   ("pi_16q", "16 Quartale", "#FFFF00");
   ("pi_20q", "20 Quartale", "#FF8000");
   ("pi_30q", "30 Quartale", "#FF4000");
   ("pi_40q", "40 Quartale", "#FF0000")].

(** The traces of the figure, in the order they are added; the layout is
    left as the charting library creates it.  The global range is computed
    and not used. *)
Definition create_timeseries_overview_chart (df : DataFrame) : result (list TimeSeries) :=
  y_range <- get_global_y_range df ;;
  let available_cols := horizon_columns df in
  traces <-
    for_each
      (fun h : string * string * string =>
         let '(horizon_col, label, color) := h in
         if existsb (String.eqb horizon_col) available_cols then
           x <- column df "Time" ;;
           y <- column df horizon_col ;;
           Ok [mkTimeSeries x y "lines" label color 2
                 ("%{x}<br>" ++ label ++ ": %{y:.3f}%<extra></extra>")]
         else Ok [])
      selected_horizons ;;
  Ok (List.concat traces).

(** ** [create_evolution_chart] and the evolution tab of [main] *)

Record EvolutionTrace : Type := mkEvolutionTrace {
  ev_x : list Z;
  ev_y : list cell;
  ev_mode : string;
  ev_name : string;
  ev_line_color : string;
  ev_line_width : Z;
  ev_marker_size : Z;
  ev_marker_color : string
}.

Record EvolutionFigure : Type := mkEvolutionFigure {
  ev_data : list EvolutionTrace;
  ev_layout : Layout
}.

(** [xs[i]] for a Python integer: a negative index counts from the end. *)
Definition py_getitem {A : Type} (xs : list A) (i : Z) : result A :=
  let n := Z.of_nat (List.length xs) in
  let i := if i <? 0 then i + n else i in
  if (i <? 0) || (n <=? i) then Raise IndexError
  else getitem xs (Z.to_nat i).

(** [xs.index(v)]: the first position of [v]. *)
Fixpoint list_index (xs : list string) (v : string) : result Z :=
  match xs with
  | [] => Raise ValueError
  | a :: xs' =>
      if String.eqb a v then Ok 0
      else i <- list_index xs' v ;; Ok (i + 1)
  end.

Definition create_evolution_chart (curves_data : list CurveRecord) (selected_idx : Z)
    (df : DataFrame) (use_fixed_scale : bool) : result EvolutionFigure :=
  current_curve <- py_getitem curves_data selected_idx ;;
  let trace :=
    mkEvolutionTrace (horizons current_curve) (values current_curve)
      "lines+markers" ("Strukturkurve " ++ quarter_label current_curve)
      "darkblue" 3 8 "darkblue" in
  let layout_kwargs :=
    mkLayout ("Strukturkurve - " ++ quarter_label current_curve)
      "Horizont (Quartale)" "Inflationserwartungen (% p.a.)" "x" 500 in
  if use_fixed_scale then
    range <- get_global_y_range df ;;
    Ok (mkEvolutionFigure [trace] (layout_kwargs (Some range)))
  else
    Ok (mkEvolutionFigure [trace] (layout_kwargs None)).

(** The evolution tab of [main], for the label the slider returns: the
    chart, and the three cells the metrics show (short, medium and long
    term); the text formatting of the metrics is not modelled. *)
Definition evolution_tab (curves_data : list CurveRecord) (df : DataFrame)
    (selected_quarter_label : string) (use_fixed_y_axis_evolution : bool) :
    result (EvolutionFigure * (cell * cell * cell)) :=
  quarter_labels_dropdown <-
    for_each (fun i => curve <- py_getitem curves_data i ;; Ok (quarter_label curve))
             (range 0 (Z.of_nat (List.length curves_data))) ;;
  default <- py_getitem quarter_labels_dropdown (-1) ;;
  selected_quarter_idx <- list_index quarter_labels_dropdown selected_quarter_label ;;
  fig2 <- create_evolution_chart curves_data selected_quarter_idx df
            use_fixed_y_axis_evolution ;;
  current_curve <- py_getitem curves_data selected_quarter_idx ;;
  let values := values current_curve in
  short <- py_getitem values 0 ;;
  medium <- (if (7 <? List.length values)%nat then py_getitem values 7
             else py_getitem values (-1)) ;;
  long <- (if (19 <? List.length values)%nat then py_getitem values 19
           else py_getitem values (-1)) ;;
  Ok (fig2, (short, medium, long)).

(** A table with horizons 1, 2 and 5, of which the overview draws two. *)
Definition uncurated_table : DataFrame :=
  mkDataFrame ["Time"; "pi_2q"; "pi_5q"; "pi_1q"]
    [[Stamp (mkTimestamp 1999 3 31); Num (19 # 10); Num (2 # 1); Num (21 # 10)];
     [Stamp (mkTimestamp 1999 6 30); Num (25 # 10); Num (22 # 10); Num (18 # 10)]].

(** Two dates of one quarter. *)
Definition same_quarter_table : DataFrame :=
  mkDataFrame ["Time"; "pi_1q"]
    [[Stamp (mkTimestamp 1999 4 30); Num (21 # 10)];
     [Stamp (mkTimestamp 1999 6 30); Num (18 # 10)]].

(** The trace the overview draws for a curated horizon. *)
Definition overview_trace (df : DataFrame) (h : string * string * string) : TimeSeries :=
  mkTimeSeries (cells_of df "Time") (cells_of df (fst (fst h))) "lines"
    (snd (fst h)) (snd h) 2
    ("%{x}<br>" ++ snd (fst h) ++ ": %{y:.3f}%<extra></extra>").

(** The curated horizons that are columns of the table, in curated order. *)
Definition curated_present (df : DataFrame) : list (string * string * string) :=
  filter (fun h => existsb (String.eqb (fst (fst h))) (columns df)) selected_horizons.

(** ** Downloads *)

(** A Python [str] is modelled by its UTF-8 bytes, so [encode()] and
    [decode()] leave the text as it is. *)

(** The double quote, and the floppy-disk sign of the link texts. *)
Definition dquote : ascii := Ascii false true false false false true false false.

Definition floppy : string :=
  String (ascii_of_nat 240) (String (ascii_of_nat 159)
    (String (ascii_of_nat 146) (String (ascii_of_nat 190) EmptyString))).

Definition b64_alphabet : string :=
  "ABCDEFGHIJKLMNOPQRSTUVWXYZabcdefghijklmnopqrstuvwxyz0123456789+/".

(** The character of six bits, the most significant first. *)
Definition sextet_char (b5 b4 b3 b2 b1 b0 : bool) : ascii :=
  let n := (Nat.b2n b5 * 32 + Nat.b2n b4 * 16 + Nat.b2n b3 * 8
            + Nat.b2n b2 * 4 + Nat.b2n b1 * 2 + Nat.b2n b0)%nat in
  match String.get n b64_alphabet with
  | Some c => c
  | None => "="%char
  end.

(** [base64.b64encode]: three bytes give four characters; a rest of one or
    two bytes is filled with zero bits and padded with [=]. *)
Fixpoint b64encode (s : string) : string :=
  match s with
  | EmptyString => EmptyString
  | String (Ascii a0 a1 a2 a3 a4 a5 a6 a7) EmptyString =>
      String (sextet_char a7 a6 a5 a4 a3 a2)
        (String (sextet_char a1 a0 false false false false) "==")
  | String (Ascii a0 a1 a2 a3 a4 a5 a6 a7)
      (String (Ascii b0 b1 b2 b3 b4 b5 b6 b7) EmptyString) =>
      String (sextet_char a7 a6 a5 a4 a3 a2)
        (String (sextet_char a1 a0 b7 b6 b5 b4)
           (String (sextet_char b3 b2 b1 b0 false false) "="))
  | String (Ascii a0 a1 a2 a3 a4 a5 a6 a7)
      (String (Ascii b0 b1 b2 b3 b4 b5 b6 b7)
         (String (Ascii c0 c1 c2 c3 c4 c5 c6 c7) rest)) =>
      String (sextet_char a7 a6 a5 a4 a3 a2)
        (String (sextet_char a1 a0 b7 b6 b5 b4)
           (String (sextet_char b3 b2 b1 b0 c7 c6)
              (String (sextet_char c5 c4 c3 c2 c1 c0) (b64encode rest))))
  end.

(** [Series.isin]: membership, where a missing value is a member when a
    missing value of its kind is listed. *)
Definition cell_isin (c : cell) (values : list cell) : bool :=
  existsb (fun v =>
             match c, v with
             | NaT, NaT => true
             | NaN, NaN => true
             | _, _ => cell_eqb c v
             end)
          values.

Section Download.

(** [df.to_csv(index=False)], the CSV writer of pandas. *)
Variable to_csv : DataFrame -> string.

Definition download_data_as_csv (df : DataFrame) : string :=
  let csv := to_csv df in
  let b64 := b64encode csv in
  let href :=
    "<a href=" ++ String dquote "data:file/csv;base64," ++ b64
    ++ String dquote " download=" ++ String dquote "inflationserwartungen.csv"
    ++ String dquote ">" ++ floppy ++ " Daten als CSV herunterladen</a>" in
  href.

Definition download_selected_data_as_csv (df : DataFrame) (selected_dates : list cell) :
    result string :=
  time <- column df "Time" ;;
  let filtered_df := select_rows df (map (fun c => cell_isin c selected_dates) time) in
  let csv := to_csv filtered_df in
  let b64 := b64encode csv in
  let href :=
    "<a href=" ++ String dquote "data:file/csv;base64," ++ b64
    ++ String dquote " download=" ++ String dquote "ausgewaehlte_quartale.csv"
    ++ String dquote ">" ++ floppy ++ " Chart-Daten als CSV herunterladen</a>" in
  Ok href.

End Download.

(** ** Reading a download link *)

Definition all_sextets : list (bool * bool * bool * bool * bool * bool) :=
  let bits := [false; true] in
  flat_map (fun b5 => flat_map (fun b4 => flat_map (fun b3 =>
    flat_map (fun b2 => flat_map (fun b1 => map (fun b0 =>
      (b5, b4, b3, b2, b1, b0)) bits) bits) bits) bits) bits) bits.

(** The six bits of a character of the base64 alphabet. *)
Definition char_sextet (c : ascii) : option (bool * bool * bool * bool * bool * bool) :=
  find (fun s : bool * bool * bool * bool * bool * bool =>
          let '(b5, b4, b3, b2, b1, b0) := s in
          Ascii.eqb (sextet_char b5 b4 b3 b2 b1 b0) c)
       all_sextets.

(** Decoding of base64 text: four characters give three bytes, and the
    padded last group one or two. *)
Fixpoint b64decode (s : string) : option string :=
  match s with
  | EmptyString => Some EmptyString
  | String k1 (String k2 (String k3 (String k4 rest))) =>
      match char_sextet k1, char_sextet k2 with
      | Some (a7, a6, a5, a4, a3, a2), Some (a1, a0, b7, b6, b5, b4) =>
          let byte1 := Ascii a0 a1 a2 a3 a4 a5 a6 a7 in
          if Ascii.eqb k3 "=" then
            if Ascii.eqb k4 "=" then
              match rest with
              | EmptyString => Some (String byte1 EmptyString)
              | _ => None
              end
            else None
          else
            match char_sextet k3 with
            | Some (b3, b2, b1, b0, c7, c6) =>
                let byte2 := Ascii b0 b1 b2 b3 b4 b5 b6 b7 in
                if Ascii.eqb k4 "=" then
                  match rest with
                  | EmptyString => Some (String byte1 (String byte2 EmptyString))
                  | _ => None
                  end
                else
                  match char_sextet k4 with
                  | Some (c5, c4, c3, c2, c1, c0) =>
                      let byte3 := Ascii c0 c1 c2 c3 c4 c5 c6 c7 in
                      option_map
                        (fun t => String byte1 (String byte2 (String byte3 t)))
                        (b64decode rest)
                  | None => None
                  end
            | None => None
            end
      | _, _ => None
      end
  | _ => None
  end.

(** The text of a link up to its first double quote, and the payload of a
    download link: what stands between the data prefix and the quote that
    closes the address. *)
Fixpoint take_until (stop : ascii) (s : string) : string :=
  match s with
  | EmptyString => EmptyString
  | String c s' => if Ascii.eqb c stop then EmptyString else String c (take_until stop s')
  end.

Fixpoint string_drop (n : nat) (s : string) : string :=
  match n, s with
  | O, _ => s
  | S n', String _ s' => string_drop n' s'
  | S _, EmptyString => EmptyString
  end.

Definition href_prefix : string := "<a href=" ++ String dquote "data:file/csv;base64,".

Definition href_payload (href : string) : string :=
  take_until dquote (string_drop (String.length href_prefix) href).

(** The rows of a table whose date is among the selected ones, in table
    order. *)
Definition rows_dated (df : DataFrame) (selected_dates : list cell) : list (list cell) :=
  filter (fun row =>
            match row_get (columns df) row "Time" with
            | Ok c => cell_isin c selected_dates
            | Raise _ => false
            end)
         (rows df).

(** A table in which one row has no date. *)
Definition missing_date_table : DataFrame :=
  mkDataFrame ["Time"; "pi_1q"]
    [[Stamp (mkTimestamp 1999 3 31); Num (21 # 10)];
     [NaT; Num (18 # 10)]].

(** * Properties *)

(** ** Comprehensions *)

Lemma for_each_Forall2 {A B : Type} (f : A -> result B) (xs : list A) (ys : list B) :
  for_each f xs = Ok ys <-> Forall2 (fun a b => f a = Ok b) xs ys.
Proof.
  revert ys; induction xs as [| a xs IH]; intros ys; simpl.
  - split.
    + intros H; injection H as <-; constructor.
    + intros H; inversion H; reflexivity.
  - split.
    + destruct (f a) as [b | e] eqn:Hb; simpl; [| discriminate].
      destruct (for_each f xs) as [bs | e] eqn:Hbs; simpl; [| discriminate].
      intros H; injection H as <-.
      constructor; [assumption | apply IH; reflexivity].
    + intros H; inversion H as [| a' b xs' bs Hab Hrest]; subst.
      rewrite Hab; simpl.
      apply IH in Hrest; rewrite Hrest; reflexivity.
Qed.

Lemma for_each_total {A B : Type} (f : A -> result B) (xs : list A) :
  (forall a, In a xs -> exists b, f a = Ok b) ->
  exists ys, for_each f xs = Ok ys.
Proof.
  induction xs as [| a xs IH]; intros Hall; simpl.
  - eexists; reflexivity.
  - destruct (Hall a (or_introl eq_refl)) as [b ->].
    destruct IH as [bs ->]; [intros; apply Hall; right; assumption |].
    eexists; reflexivity.
Qed.

Lemma for_each_length {A B : Type} (f : A -> result B) (xs : list A) (ys : list B) :
  for_each f xs = Ok ys -> List.length ys = List.length xs.
Proof.
  intros H; apply for_each_Forall2 in H.
  symmetry; eapply Forall2_length; eassumption.
Qed.

Lemma Forall2_nth_error_l {A B : Type} (R : A -> B -> Prop) (xs : list A) (ys : list B) :
  Forall2 R xs ys ->
  forall i a, nth_error xs i = Some a -> exists b, nth_error ys i = Some b /\ R a b.
Proof.
  induction 1 as [| a0 b0 xs ys Hab Hrest IH]; intros i a Hi.
  - destruct i; discriminate.
  - destruct i as [| i]; simpl in *.
    + injection Hi as <-; eauto.
    + eauto.
Qed.

(** ** The quarter label *)

Lemma format_quarter_month (y m d : Z) :
  1 <= m <= 12 ->
  format_quarter (mkTimestamp y m d) = str_of_int y ++ "Q" ++ calendar_quarter m.
Proof.
  intros Hm.
  assert (Hc : m = 1 \/ m = 2 \/ m = 3 \/ m = 4 \/ m = 5 \/ m = 6 \/ m = 7 \/
               m = 8 \/ m = 9 \/ m = 10 \/ m = 11 \/ m = 12) by lia.
  unfold format_quarter; cbn [year month].
  repeat (destruct Hc as [-> | Hc]; [reflexivity |]).
  subst m; reflexivity.
Qed.

Lemma forallb_range (P : Z -> bool) (a b : Z) :
  forallb P (range a b) = true -> forall z, a <= z < b -> P z = true.
Proof.
  intros H z Hz.
  rewrite forallb_forall in H; apply H.
  unfold range; apply in_map_iff.
  exists (Z.to_nat (z - a)); split; [lia |].
  apply in_seq; lia.
Qed.

Lemma four_digit_year (y : Z) :
  1000 <= y <= 9999 -> String.length (str_of_int y) = 4%nat.
Proof.
  intros Hy.
  assert (H : forallb (fun z => (String.length (str_of_int z) =? 4)%nat)
                      (range 1000 10000) = true) by (vm_compute; reflexivity).
  apply Nat.eqb_eq.
  apply (forallb_range _ _ _ H); lia.
Qed.

Lemma length_append (s t : string) :
  String.length (s ++ t) = (String.length s + String.length t)%nat.
Proof.
  induction s as [| c s IH]; simpl; [reflexivity | rewrite IH; reflexivity].
Qed.

(** C7: the quarter label of a date is the decimal year, the letter Q and
    the calendar quarter of the month (1 for months 1-3, 2 for 4-6, 3 for 7-9,
    4 for 10-12), six characters for a four-digit year; 1999-03-31 gives
    1999Q1 and 2020-12-31 gives 2020Q4.  The label depends on the date
    alone: equal dates have equal labels. *)
Theorem format_quarter_label (d : Timestamp) (Hmonth : 1 <= month d <= 12) :
  format_quarter d = str_of_int (year d) ++ "Q" ++ calendar_quarter (month d)
  /\ (1 <= month d <= 3 -> format_quarter d = str_of_int (year d) ++ "Q1")
  /\ (4 <= month d <= 6 -> format_quarter d = str_of_int (year d) ++ "Q2")
  /\ (7 <= month d <= 9 -> format_quarter d = str_of_int (year d) ++ "Q3")
  /\ (10 <= month d <= 12 -> format_quarter d = str_of_int (year d) ++ "Q4")
  /\ (1000 <= year d <= 9999 -> String.length (format_quarter d) = 6%nat)
  /\ format_quarter (mkTimestamp 1999 3 31) = "1999Q1"
  /\ format_quarter (mkTimestamp 2020 12 31) = "2020Q4"
  /\ (forall d', d' = d -> format_quarter d' = format_quarter d).
Proof.
  destruct d as [y m dd]; cbn [year month] in *.
  pose proof (format_quarter_month y m dd Hmonth) as Hfq.
  assert (Hq : forall a b q, a <= m <= b ->
             calendar_quarter m = q -> 
             format_quarter (mkTimestamp y m dd) = str_of_int y ++ "Q" ++ q).
  { intros a b q _ <-; exact Hfq. }
  repeat split.
  - exact Hfq.
  - intros H; apply (Hq 1 3 "1" H).
    unfold calendar_quarter.
    replace (1 <=? m) with true by (symmetry; apply Z.leb_le; lia).
    replace (m <=? 3) with true by (symmetry; apply Z.leb_le; lia).
    reflexivity.
  - intros H; apply (Hq 4 6 "2" H).
    unfold calendar_quarter.
    replace (m <=? 3) with false by (symmetry; apply Z.leb_gt; lia).
    replace (4 <=? m) with true by (symmetry; apply Z.leb_le; lia).
    replace (m <=? 6) with true by (symmetry; apply Z.leb_le; lia).
    rewrite Bool.andb_false_r; reflexivity.
  - intros H; apply (Hq 7 9 "3" H).
    unfold calendar_quarter.
    replace (m <=? 3) with false by (symmetry; apply Z.leb_gt; lia).
    replace (m <=? 6) with false by (symmetry; apply Z.leb_gt; lia).
    replace (7 <=? m) with true by (symmetry; apply Z.leb_le; lia).
    replace (m <=? 9) with true by (symmetry; apply Z.leb_le; lia).
    rewrite !Bool.andb_false_r; reflexivity.
  - intros H; apply (Hq 10 12 "4" H).
    unfold calendar_quarter.
    replace (m <=? 3) with false by (symmetry; apply Z.leb_gt; lia).
    replace (m <=? 6) with false by (symmetry; apply Z.leb_gt; lia).
    replace (m <=? 9) with false by (symmetry; apply Z.leb_gt; lia).
    rewrite !Bool.andb_false_r; reflexivity.
  - intros Hy; rewrite Hfq, length_append, (four_digit_year y Hy).
    unfold calendar_quarter.
    destruct ((1 <=? m) && (m <=? 3)); [reflexivity |].
    destruct ((4 <=? m) && (m <=? 6)); [reflexivity |].
    destruct ((7 <=? m) && (m <=? 9)); reflexivity.
  - intros d' ->; reflexivity.
Qed.

Lemma format_quarter_label_witness :
  1 <= month (mkTimestamp 2008 9 30) <= 12
  /\ format_quarter (mkTimestamp 2008 9 30) = "2008Q3".
Proof.
  split; [cbn; lia |].
  exact (proj1 (format_quarter_label (mkTimestamp 2008 9 30) ltac:(cbn; lia))).
Defined.

(** ** Table access *)

Lemma index_of_nth_error (label : string) (cols : list string) (j : nat) :
  index_of label cols = Some j -> nth_error cols j = Some label.
Proof.
  revert j; induction cols as [| c cs IH]; intros j; simpl; [discriminate |].
  destruct (String.eqb_spec c label) as [-> | Hne].
  - intros H; injection H as <-; reflexivity.
  - destruct (index_of label cs) as [k |]; simpl; [| discriminate].
    intros H; injection H as <-; simpl; apply IH; reflexivity.
Qed.

Lemma index_of_In (label : string) (cols : list string) :
  In label cols -> exists j, index_of label cols = Some j.
Proof.
  induction cols as [| c cs IH]; simpl; [intros [] |].
  intros Hin.
  destruct (String.eqb_spec c label) as [-> | Hne]; [eauto |].
  destruct Hin as [Heq | Hin]; [contradiction |].
  destruct (IH Hin) as [j ->]; simpl; eauto.
Qed.

Lemma horizon_columns_In (df : DataFrame) (col : string) :
  In col (horizon_columns df) <->
  In col (columns df) /\ startswith "pi_" col = true.
Proof. unfold horizon_columns; apply filter_In. Qed.

Lemma column_cells_of (df : DataFrame) (col : string) :
  In col (columns df) -> column df col = Ok (cells_of df col).
Proof.
  intros Hin; unfold column, cells_of.
  destruct (index_of_In _ _ Hin) as [j ->]; reflexivity.
Qed.

Lemma cells_of_In (df : DataFrame) (col : string) (c : cell) :
  In col (columns df) ->
  (In c (cells_of df col) <->
   exists row, In row (rows df) /\ row_get (columns df) row col = Ok c).
Proof.
  intros Hin; unfold cells_of, row_get.
  destruct (index_of_In _ _ Hin) as [j ->].
  rewrite in_map_iff; split.
  - intros [row [<- Hrow]]; eauto.
  - intros [row [Hrow Heq]]; injection Heq as <-; eauto.
Qed.

Lemma for_each_map_in {A B : Type} (f : A -> result B) (g : A -> B) (xs : list A) :
  (forall a, In a xs -> f a = Ok (g a)) -> for_each f xs = Ok (map g xs).
Proof.
  induction xs as [| a xs IH]; intros Hall; simpl; [reflexivity |].
  rewrite (Hall a (or_introl eq_refl)); simpl.
  rewrite IH by (intros; apply Hall; right; assumption).
  reflexivity.
Qed.

Lemma all_values_eq (df : DataFrame) :
  all_values df =
  Ok (List.concat (map (fun col => dropna (cells_of df col)) (horizon_columns df))).
Proof.
  unfold all_values.
  rewrite (for_each_map_in _ (fun col => dropna (cells_of df col))); [reflexivity |].
  intros col Hcol; apply horizon_columns_In in Hcol as [Hin _].
  rewrite (column_cells_of _ _ Hin); reflexivity.
Qed.

Lemma all_values_In (df : DataFrame) (c : cell) :
  In c (List.concat (map (fun col => dropna (cells_of df col)) (horizon_columns df)))
  <->
  exists col row,
    In col (horizon_columns df) /\ In row (rows df)
    /\ row_get (columns df) row col = Ok c /\ is_missing c = false.
Proof.
  rewrite in_concat; split.
  - intros [chunk [Hchunk Hc]].
    apply in_map_iff in Hchunk as [col [<- Hcol]].
    unfold dropna in Hc; apply filter_In in Hc as [Hc Hmiss].
    pose proof Hcol as Hcol'.
    apply horizon_columns_In in Hcol' as [Hin _].
    apply (cells_of_In _ _ _ Hin) in Hc as [row [Hrow Hget]].
    exists col, row; repeat split; try assumption.
    destruct (is_missing c); [discriminate | reflexivity].
  - intros [col [row [Hcol [Hrow [Hget Hmiss]]]]].
    exists (dropna (cells_of df col)); split.
    + apply in_map_iff; eauto.
    + unfold dropna; apply filter_In; split.
      * apply horizon_columns_In in Hcol as [Hin _].
        apply (cells_of_In _ _ _ Hin); eauto.
      * rewrite Hmiss; reflexivity.
Qed.

(** ** Observation Tables *)

Lemma combine_nth_error_In {A B : Type} (xs : list A) (ys : list B) (j : nat) (a : A) (b : B) :
  nth_error xs j = Some a -> nth_error ys j = Some b -> In (a, b) (combine xs ys).
Proof.
  revert ys j; induction xs as [| a0 xs IH]; intros ys j Ha Hb.
  - destruct j; discriminate.
  - destruct ys as [| b0 ys]; [destruct j; discriminate |].
    destruct j as [| j]; simpl in *.
    + injection Ha as ->; injection Hb as ->; left; reflexivity.
    + right; eapply IH; eassumption.
Qed.

Lemma existsb_eqb_In (label : string) (cols : list string) :
  existsb (String.eqb label) cols = true <-> In label cols.
Proof.
  rewrite existsb_exists; split.
  - intros [c [Hin Heq]]; apply String.eqb_eq in Heq; subst; assumption.
  - intros Hin; exists label; split; [assumption | apply String.eqb_refl].
Qed.

Lemma observation_table_time (df : DataFrame) :
  observation_table df = true -> In "Time" (columns df).
Proof.
  unfold observation_table; rewrite !andb_true_iff.
  intros [[[_ Htime] _] _]; apply existsb_eqb_In; assumption.
Qed.

Lemma observation_table_horizons (df : DataFrame) (col : string) :
  observation_table df = true -> In col (horizon_columns df) ->
  exists n, horizon_value col = Ok n.
Proof.
  unfold observation_table; rewrite !andb_true_iff.
  intros [[_ Hhor] _] Hcol.
  rewrite forallb_forall in Hhor; specialize (Hhor col Hcol).
  destruct (horizon_value col) as [n | e]; [eauto | discriminate].
Qed.

Lemma observation_table_cell (df : DataFrame) (row : list cell) (col : string) :
  observation_table df = true -> In row (rows df) -> In col (columns df) ->
  exists c, row_get (columns df) row col = Ok c /\ cell_fits col c = true.
Proof.
  unfold observation_table; rewrite !andb_true_iff.
  intros [_ Hrows] Hrow Hcol.
  rewrite forallb_forall in Hrows; specialize (Hrows row Hrow).
  apply andb_true_iff in Hrows as [Hlen Hfits].
  apply Nat.eqb_eq in Hlen.
  destruct (index_of_In _ _ Hcol) as [j Hj].
  unfold row_get; rewrite Hj.
  exists (nth j row NaN); split; [reflexivity |].
  pose proof (index_of_nth_error _ _ _ Hj) as Hnth.
  assert (Hlt : (j < List.length row)%nat).
  { rewrite Hlen; apply nth_error_Some; rewrite Hnth; discriminate. }
  rewrite forallb_forall in Hfits.
  apply (Hfits (col, nth j row NaN)).
  eapply combine_nth_error_In; [eassumption |].
  apply nth_error_nth'; assumption.
Qed.

Lemma observation_table_time_cell (df : DataFrame) (row : list cell) :
  observation_table df = true -> In row (rows df) ->
  exists t, row_get (columns df) row "Time" = Ok (Stamp t).
Proof.
  intros Hobs Hrow.
  destruct (observation_table_cell df row "Time" Hobs Hrow
              (observation_table_time df Hobs)) as [c [Hget Hfit]].
  unfold cell_fits in Hfit; simpl in Hfit.
  destruct c; try discriminate; eauto.
Qed.

Lemma observation_table_horizon_cell (df : DataFrame) (row : list cell) (col : string) :
  observation_table df = true -> In row (rows df) -> In col (horizon_columns df) ->
  exists c, row_get (columns df) row col = Ok c /\ is_number c = true.
Proof.
  intros Hobs Hrow Hcol.
  apply horizon_columns_In in Hcol as [Hin Hpre].
  destruct (observation_table_cell df row col Hobs Hrow Hin) as [c [Hget Hfit]].
  exists c; split; [assumption |].
  unfold cell_fits in Hfit.
  destruct (String.eqb_spec col "Time") as [-> | _]; [discriminate Hpre |].
  rewrite Hpre in Hfit; assumption.
Qed.

(** ** The global value range *)

Lemma py_min_spec (x : Q) (xs : list Q) :
  In (py_min x xs) (x :: xs) /\ forall v, In v (x :: xs) -> (py_min x xs <= v)%Q.
Proof.
  unfold py_min; revert x; induction xs as [| a xs IH]; intros x; simpl.
  - split; [left; reflexivity |].
    intros v [<- | []]; apply Qle_refl.
  - destruct (Qlt_le_dec a x) as [Hlt | Hle].
    + destruct (IH a) as [Hin Hmin]; split.
      * destruct Hin as [Heq | Hin]; [right; left; assumption | right; right; assumption].
      * intros v [<- | [<- | Hv]].
        -- eapply Qle_trans; [apply Hmin; left; reflexivity | apply Qlt_le_weak; assumption].
        -- apply Hmin; left; reflexivity.
        -- apply Hmin; right; assumption.
    + destruct (IH x) as [Hin Hmin]; split.
      * destruct Hin as [Heq | Hin]; [left; assumption | right; right; assumption].
      * intros v [<- | [<- | Hv]].
        -- apply Hmin; left; reflexivity.
        -- eapply Qle_trans; [apply Hmin; left; reflexivity | assumption].
        -- apply Hmin; right; assumption.
Qed.


(** In an Observation Table the collected values are floats. *)
Lemma all_values_floats (df : DataFrame) :
  observation_table df = true ->
  exists qs : list Q,
    all_values df = Ok (map Num qs)
    /\ forall v, In v qs <-> horizon_value_in df v.
Proof.
  intros Hobs; rewrite all_values_eq.
  set (cells := List.concat _).
  assert (Hnum : forall c, In c cells -> exists q, c = Num q).
  { intros c Hc; apply all_values_In in Hc as [col [row [Hcol [Hrow [Hget Hmiss]]]]].
    destruct (observation_table_horizon_cell df row col Hobs Hrow Hcol)
      as [c' [Hget' Hnum]].
    rewrite Hget in Hget'; injection Hget' as <-.
    destruct c; try discriminate; eauto. }
  assert (Hqs : exists qs, cells = map Num qs).
  { clear -Hnum; induction cells as [| c cells IH].
    - exists []; reflexivity.
    - destruct (Hnum c (or_introl eq_refl)) as [q ->].
      destruct IH as [qs ->]; [intros; apply Hnum; right; assumption |].
      exists (q :: qs); reflexivity. }
  destruct Hqs as [qs Hqs]; exists qs; split; [rewrite Hqs; reflexivity |].
  intros v; split.
  - intros Hv.
    assert (Hc : In (Num v) cells) by (rewrite Hqs; apply in_map; assumption).
    apply all_values_In in Hc as [col [row [Hcol [Hrow [Hget _]]]]].
    exists col, row; auto.
  - intros [col [row [Hcol [Hrow Hget]]]].
    assert (Hc : In (Num v) cells).
    { apply all_values_In; exists col, row; auto. }
    rewrite Hqs in Hc; apply in_map_iff in Hc as [q [Heq Hq]].
    injection Heq as ->; assumption.
Qed.

Lemma as_float_nums (qs : list Q) : for_each as_float (map Num qs) = Ok qs.
Proof.
  induction qs as [| q qs IH]; simpl; [reflexivity | rewrite IH; reflexivity].
Qed.

Lemma get_global_y_range_floats (df : DataFrame) (qs : list Q) :
  all_values df = Ok (map Num qs) ->
  get_global_y_range df =
  match qs with
  | q :: qs' => Ok [py_min q qs' - (2 # 10); py_max q qs' + (2 # 10)]%Q
  | [] => Ok [0; 5]%Q
  end.
Proof.
  intros Hall; unfold get_global_y_range; rewrite Hall; simpl.
  destruct qs as [| q qs']; simpl; [reflexivity |].
  rewrite as_float_nums; reflexivity.
Qed.



(** C10: a table with pairwise distinct labels in which no horizon column
    holds a value (there is no column with the prefix pi_, or every cell of
    every such column is missing) has the default range [0, 5]. *)
Theorem global_y_range_default (df : DataFrame)
    (Hdistinct : nodupb (columns df) = true)
    (Hnone : forall col row c,
        In col (horizon_columns df) -> In row (rows df) ->
        row_get (columns df) row col = Ok c -> is_missing c = true) :
  get_global_y_range df = Ok [0; 5]%Q.
Proof.
  unfold get_global_y_range; rewrite all_values_eq; simpl.
  set (cells := List.concat _).
  assert (Hnil : cells = []).
  { destruct cells as [| c cells'] eqn:Hcells; [reflexivity |].
    assert (Hc : In c cells) by (rewrite Hcells; left; reflexivity).
    apply all_values_In in Hc as [col [row [Hcol [Hrow [Hget Hmiss]]]]].
    rewrite (Hnone col row c Hcol Hrow Hget) in Hmiss; discriminate. }
  rewrite Hnil; reflexivity.
Qed.

Lemma global_y_range_default_witness :
  get_global_y_range missing_horizon_table = Ok [0; 5]%Q
  /\ get_global_y_range (mkDataFrame ["Time"] [[Stamp (mkTimestamp 1999 3 31)]])
     = Ok [0; 5]%Q.
Proof.
  split.
  - apply (global_y_range_default missing_horizon_table); [reflexivity |].
    intros col row c Hcol Hrow Hget.
    simpl in Hcol; destruct Hcol as [<- | []].
    simpl in Hrow; destruct Hrow as [<- | [<- | []]];
      vm_compute in Hget; injection Hget as <-; reflexivity.
  - apply global_y_range_default; [reflexivity |].
    intros col row c Hcol; simpl in Hcol; destruct Hcol.
Defined.

(** ** Curve extraction *)

Lemma prepare_curve_data_rows (df : DataFrame) :
  observation_table df = true ->
  exists (hv : list Z) (recs : list CurveRecord),
    Forall2 (fun col n => horizon_value col = Ok n) (horizon_columns df) hv
    /\ prepare_curve_data df = Ok recs
    /\ Forall2 (curve_of_row df hv) (rows df) recs.
Proof.
  intros Hobs; unfold prepare_curve_data.
  destruct (for_each_total horizon_value (horizon_columns df)) as [hv Hhv].
  { intros col Hcol; apply (observation_table_horizons df col Hobs Hcol). }
  rewrite Hhv; simpl.
  exists hv.
  match goal with |- context [for_each ?f (rows df)] => set (body := f) end.
  assert (Hbody : forall row, In row (rows df) ->
            exists rec, body row = Ok rec /\ curve_of_row df hv row rec).
  { intros row Hrow; unfold body.
    destruct (observation_table_time_cell df row Hobs Hrow) as [t Ht].
    rewrite Ht; simpl.
    destruct (for_each_total (row_get (columns df) row) (horizon_columns df))
      as [vs Hvs].
    { intros col Hcol.
      destruct (observation_table_horizon_cell df row col Hobs Hrow Hcol)
        as [c [Hc _]]; eauto. }
    rewrite Hvs; simpl.
    eexists; split; [reflexivity |].
    unfold curve_of_row; simpl; repeat split; try assumption.
    apply for_each_Forall2; assumption. }
  clearbody body.
  induction (rows df) as [| row rest IH].
  - exists []; repeat split; [apply for_each_Forall2; assumption | constructor].
  - destruct (Hbody row (or_introl eq_refl)) as [rec [Hrec Hcurve]].
    destruct IH as [recs [_ [Hrecs Hall]]];
      [intros; apply Hbody; right; assumption |].
    exists (rec :: recs); repeat split.
    + apply for_each_Forall2; assumption.
    + simpl; rewrite Hrec, Hrecs; reflexivity.
    + constructor; assumption.
Qed.

Lemma Forall2_nth_error_r {A B : Type} (R : A -> B -> Prop) (xs : list A) (ys : list B) :
  Forall2 R xs ys ->
  forall i b, nth_error ys i = Some b -> exists a, nth_error xs i = Some a /\ R a b.
Proof.
  induction 1 as [| a0 b0 xs ys Hab Hrest IH]; intros i b Hi.
  - destruct i; discriminate.
  - destruct i as [| i]; simpl in *.
    + injection Hi as <-; eauto.
    + eauto.
Qed.

(** C1: curve extraction on an Observation Table returns one record per
    row, in row order: the record at a position holds the date of the row at
    that position and its quarter label.  In every record the horizons list
    is the list of horizon lengths read from the horizon columns in the
    column order of the table, and the values list has the same length and
    holds, position by position, the cell of the row under the same
    column. *)
Theorem curve_record_per_row (df : DataFrame)
    (Hobs : observation_table df = true) :
  exists (hv : list Z) (recs : list CurveRecord),
    prepare_curve_data df = Ok recs
    /\ List.length recs = List.length (rows df)
    /\ Forall2 (fun col n => horizon_value col = Ok n) (horizon_columns df) hv
    /\ Forall2
         (fun row rec =>
            row_get (columns df) row "Time" = Ok (date rec)
            /\ format_quarter_cell (date rec) = Ok (quarter_label rec)
            /\ horizons rec = hv
            /\ List.length (values rec) = List.length (horizons rec)
            /\ Forall2 (fun col v => row_get (columns df) row col = Ok v)
                       (horizon_columns df) (values rec))
         (rows df) recs.
Proof.
  destruct (prepare_curve_data_rows df Hobs) as [hv [recs [Hhv [Hrecs Hall]]]].
  exists hv, recs; repeat split; try assumption.
  - symmetry; eapply Forall2_length; eassumption.
  - eapply Forall2_impl; [| exact Hall].
    intros row rec [Hdate [Hlabel [Hhor Hvals]]].
    repeat split; try assumption.
    rewrite Hhor.
    rewrite <- (Forall2_length Hvals); apply (Forall2_length Hhv).
Qed.

Lemma curve_record_per_row_witness :
  exists (hv : list Z) (recs : list CurveRecord),
    prepare_curve_data two_quarter_table = Ok recs
    /\ List.length recs = List.length (rows two_quarter_table)
    /\ Forall2 (fun col n => horizon_value col = Ok n)
               (horizon_columns two_quarter_table) hv
    /\ Forall2
         (fun row rec =>
            row_get (columns two_quarter_table) row "Time" = Ok (date rec)
            /\ format_quarter_cell (date rec) = Ok (quarter_label rec)
            /\ horizons rec = hv
            /\ List.length (values rec) = List.length (horizons rec)
            /\ Forall2 (fun col v => row_get (columns two_quarter_table) row col = Ok v)
                       (horizon_columns two_quarter_table) (values rec))
         (rows two_quarter_table) recs.
Proof.
  apply (curve_record_per_row two_quarter_table); reflexivity.
Defined.

(** C1 as stated fails: with the horizon columns stored longest first, the
    table is an Observation Table and no result of curve extraction has its
    horizons lists in ascending order. *)
Lemma curve_horizons_follow_columns :
  observation_table descending_columns_table = true
  /\ ~ (exists recs : list CurveRecord,
          prepare_curve_data descending_columns_table = Ok recs
          /\ List.length recs = List.length (rows descending_columns_table)
          /\ Forall (fun rec => Sorted Z.le (horizons rec)
                                /\ List.length (values rec) = List.length (horizons rec))
                    recs).
Proof.
  split; [reflexivity |].
  intros [recs [Hrecs [_ Hall]]].
  vm_compute in Hrecs; injection Hrecs as <-.
  inversion Hall as [| rec recs' [Hsorted _] _]; subst.
  cbn [horizons] in Hsorted.
  inversion Hsorted as [| a l Hrest Hhd]; subst.
  inversion Hhd as [| b l' Hle]; subst.
  apply Hle; reflexivity.
Qed.

(** C6: when a row of an Observation Table has the missing marker under a
    horizon column, curve extraction still returns one record per row, and
    the record of that row has the missing marker in its values list at the
    position of that column, next to the horizon length of the column. *)
Theorem missing_value_kept (df : DataFrame) (i : nat) (row : list cell)
    (col : string)
    (Hobs : observation_table df = true)
    (Hrow : nth_error (rows df) i = Some row)
    (Hcol : In col (horizon_columns df))
    (Hmissing : row_get (columns df) row col = Ok NaN) :
  exists (recs : list CurveRecord) (rec : CurveRecord) (j : nat) (n : Z),
    prepare_curve_data df = Ok recs
    /\ List.length recs = List.length (rows df)
    /\ nth_error recs i = Some rec
    /\ row_get (columns df) row "Time" = Ok (date rec)
    /\ nth_error (horizon_columns df) j = Some col
    /\ horizon_value col = Ok n
    /\ nth_error (horizons rec) j = Some n
    /\ nth_error (values rec) j = Some NaN.
Proof.
  destruct (prepare_curve_data_rows df Hobs) as [hv [recs [Hhv [Hrecs Hall]]]].
  destruct (Forall2_nth_error_l _ _ _ Hall i row Hrow)
    as [rec [Hrec [Hdate [_ [Hhor Hvals]]]]].
  destruct (In_nth_error _ _ Hcol) as [j Hj].
  destruct (Forall2_nth_error_l _ _ _ Hhv j col Hj) as [n [Hn Hparse]].
  destruct (Forall2_nth_error_l _ _ _ Hvals j col Hj) as [v [Hv Hget]].
  rewrite Hmissing in Hget; injection Hget as <-.
  exists recs, rec, j, n; repeat split; try assumption.
  - symmetry; eapply Forall2_length; eassumption.
  - rewrite Hhor; assumption.
Qed.

Lemma missing_value_kept_witness :
  exists (recs : list CurveRecord) (rec : CurveRecord) (j : nat) (n : Z),
    prepare_curve_data two_quarter_table = Ok recs
    /\ List.length recs = List.length (rows two_quarter_table)
    /\ nth_error recs 1 = Some rec
    /\ row_get (columns two_quarter_table)
         [Stamp (mkTimestamp 1999 6 30); Num (18 # 10); Num (25 # 10); NaN] "Time"
       = Ok (date rec)
    /\ nth_error (horizon_columns two_quarter_table) j = Some "pi_4q"
    /\ horizon_value "pi_4q" = Ok n
    /\ nth_error (horizons rec) j = Some n
    /\ nth_error (values rec) j = Some NaN.
Proof.
  apply (missing_value_kept two_quarter_table 1
           [Stamp (mkTimestamp 1999 6 30); Num (18 # 10); Num (25 # 10); NaN] "pi_4q").
  - reflexivity.
  - reflexivity.
  - simpl; auto.
  - reflexivity.
Defined.

(** ** The comparison chart *)

Lemma cell_eqb_stamp (c : cell) (t : Timestamp) :
  cell_eqb c (Stamp t) = true -> c = Stamp t.
Proof.
  destruct c as [q | | s | | s]; simpl; try discriminate.
  destruct s as [ys ms ds], t as [yt mt dt]; simpl.
  rewrite !andb_true_iff, !Z.eqb_eq.
  intros [[-> ->] ->]; reflexivity.
Qed.

Lemma filter_fst_none {A : Type} (mask : list bool) (xs : list A) :
  Forall (fun b => b = false) mask -> filter fst (combine mask xs) = [].
Proof.
  intros Hmask; revert xs; induction Hmask as [| b mask Hb _ IH]; intros xs.
  - reflexivity.
  - destruct xs as [| a xs]; [reflexivity |].
    simpl; rewrite Hb; apply IH.
Qed.

(** The step of the loop over the selected dates raises [IndexError] at a
    date that no row carries, whenever the [Time] column can be read. *)
Lemma unmatched_date_step (df : DataFrame) (t : Timestamp) :
  (forall row, In row (rows df) -> row_get (columns df) row "Time" <> Ok (Stamp t)) ->
  forall time, column df "Time" = Ok time ->
  iloc0 (select_rows df (map (fun c => cell_eqb c (Stamp t)) time)) = Raise IndexError.
Proof.
  intros Hno time Htime.
  unfold iloc0, select_rows; cbn [rows].
  rewrite filter_fst_none; [reflexivity |].
  apply Forall_forall; intros b Hb.
  apply in_map_iff in Hb as [c [<- Hc]].
  destruct (cell_eqb c (Stamp t)) eqn:Heq; [exfalso | reflexivity].
  apply cell_eqb_stamp in Heq; subst c.
  unfold column in Htime.
  destruct (index_of "Time" (columns df)) as [j |] eqn:Hj; [| discriminate].
  injection Htime as <-.
  apply in_map_iff in Hc as [row [Hcell Hrow]].
  apply (Hno row Hrow); unfold row_get; rewrite Hj, Hcell; reflexivity.
Qed.

Lemma for_each_indexed_raises {A B : Type} (f : nat -> A -> result B) (xs : list A) (a : A) :
  In a xs -> (forall i, exists e, f i a = Raise e) ->
  forall i, exists e, for_each_indexed f i xs = Raise e.
Proof.
  intros Hin Hraise; induction xs as [| a0 xs IH]; intros i; [destruct Hin |].
  simpl; destruct Hin as [-> | Hin].
  - destruct (Hraise i) as [e ->]; simpl; eauto.
  - destruct (f i a0) as [b | e]; simpl; [| eauto].
    destruct (IH Hin (S i)) as [e ->]; simpl; eauto.
Qed.

Lemma for_each_indexed_raises_only {A B : Type} (f : nat -> A -> result B)
    (xs : list A) (a : A) (e0 : exn) :
  In a xs -> (forall i, f i a = Raise e0) ->
  (forall i x, In x xs -> (exists b, f i x = Ok b) \/ f i x = Raise e0) ->
  forall i, for_each_indexed f i xs = Raise e0.
Proof.
  intros Hin Hraise; induction xs as [| a0 xs IH]; intros Hsteps i; [destruct Hin |].
  simpl; destruct (Hsteps i a0 (or_introl eq_refl)) as [[b Hb] | Hb].
  - rewrite Hb; simpl.
    destruct Hin as [-> | Hin]; [rewrite Hraise in Hb; discriminate |].
    rewrite IH; [reflexivity | assumption |].
    intros j x Hx; apply Hsteps; right; assumption.
  - rewrite Hb; reflexivity.
Qed.

Lemma iloc0_select_rows_In (df : DataFrame) (mask : list bool) (row : list cell) :
  iloc0 (select_rows df mask) = Ok row -> In row (rows df).
Proof.
  unfold iloc0, select_rows, getitem; cbn [rows].
  destruct (map snd (filter fst (combine mask (rows df)))) as [| r rs] eqn:Hsel;
    simpl; [discriminate |].
  intros H; injection H as <-.
  assert (Hin : In r (map snd (filter fst (combine mask (rows df)))))
    by (rewrite Hsel; left; reflexivity).
  apply in_map_iff in Hin as [[b r'] [Heq Hin]]; simpl in Heq; subst r'.
  apply filter_In in Hin as [Hin _].
  eapply in_combine_r; eassumption.
Qed.

Lemma cycle_color_ok (colors : list string) (i : nat) :
  colors <> [] -> exists color, cycle_color colors i = Ok color.
Proof.
  intros Hne; unfold cycle_color, getitem.
  destruct colors as [| c cs]; [contradiction |].
  destruct (nth_error (c :: cs) (i mod List.length (c :: cs))) as [color |] eqn:Hnth;
    [eauto |].
  apply nth_error_None in Hnth.
  pose proof (Nat.mod_upper_bound i (List.length (c :: cs))) as Hlt.
  simpl in *; lia.
Qed.

(** C4: when one of the selected dates is the date of no row of the
    Observation Table, building the comparison chart raises an exception
    and returns no chart.  When the palette is not empty and every selected
    entry is a date, the exception is the IndexError of the row lookup. *)
Theorem comparison_unmatched_date_raises (colors : list string) (df : DataFrame)
    (selected_dates : list cell) (use_fixed_scale : bool) (t : Timestamp)
    (Hobs : observation_table df = true)
    (Hselected : In (Stamp t) selected_dates)
    (Hunmatched : forall row, In row (rows df) ->
        row_get (columns df) row "Time" <> Ok (Stamp t)) :
  (exists e,
     create_comparison_chart colors df selected_dates use_fixed_scale = Raise e)
  /\ (colors <> [] ->
      (forall d, In d selected_dates -> exists t', d = Stamp t') ->
      create_comparison_chart colors df selected_dates use_fixed_scale
      = Raise IndexError).
Proof.
  split.
  - unfold create_comparison_chart.
    destruct (for_each horizon_value (horizon_columns df)) as [hv | e]; simpl; [| eauto].
    match goal with |- context [for_each_indexed ?f _ _] => set (step := f) end.
    destruct (for_each_indexed_raises step selected_dates (Stamp t) Hselected)
      with (i := 0%nat) as [e He].
    + intros i; unfold step.
      destruct (column df "Time") as [time | e] eqn:Htime; simpl; [| eauto].
      rewrite (unmatched_date_step df t Hunmatched time Htime); simpl; eauto.
    + rewrite He; simpl; eauto.
  - intros Hcolors Hdates.
    unfold create_comparison_chart.
    destruct (for_each_total horizon_value (horizon_columns df)) as [hv ->].
    { intros col Hcol; apply (observation_table_horizons df col Hobs Hcol). }
    simpl.
    match goal with |- context [for_each_indexed ?f _ _] => set (step := f) end.
    rewrite (for_each_indexed_raises_only step selected_dates (Stamp t) IndexError);
      [reflexivity | assumption | |].
    + intros i; unfold step.
      rewrite (column_cells_of df "Time" (observation_table_time df Hobs)); simpl.
      rewrite (unmatched_date_step df t Hunmatched _
                 (column_cells_of df "Time" (observation_table_time df Hobs))).
      reflexivity.
    + intros i d Hd; unfold step.
      destruct (Hdates d Hd) as [t' ->].
      rewrite (column_cells_of df "Time" (observation_table_time df Hobs)); simpl.
      destruct (iloc0 _) as [row | e] eqn:Hrow; simpl.
      * left.
        apply iloc0_select_rows_In in Hrow.
        destruct (for_each_total (row_get (columns df) row) (horizon_columns df))
          as [vs ->].
        { intros col Hcol.
          destruct (observation_table_horizon_cell df row col Hobs Hrow Hcol)
            as [c [Hc _]]; eauto. }
        simpl.
        destruct (cycle_color_ok colors i Hcolors) as [color ->]; simpl; eauto.
      * right.
        unfold iloc0, getitem in Hrow.
        destruct (nth_error _ 0); [discriminate |].
        injection Hrow as <-; reflexivity.
Qed.

Lemma comparison_unmatched_date_raises_witness :
  create_comparison_chart ["red"; "blue"] two_quarter_table
    [Stamp (mkTimestamp 1999 3 31); Stamp (mkTimestamp 1999 9 30)] true
  = Raise IndexError.
Proof.
  apply (comparison_unmatched_date_raises ["red"; "blue"] two_quarter_table
           [Stamp (mkTimestamp 1999 3 31); Stamp (mkTimestamp 1999 9 30)] true
           (mkTimestamp 1999 9 30)).
  - reflexivity.
  - simpl; auto.
  - intros row Hrow; simpl in Hrow.
    destruct Hrow as [<- | [<- | []]]; vm_compute; discriminate.
  - discriminate.
  - intros d [<- | [<- | []]]; eauto.
Defined.

Lemma get_global_y_range_ok (df : DataFrame) :
  observation_table df = true -> exists range, get_global_y_range df = Ok range.
Proof.
  intros Hobs.
  destruct (all_values_floats df Hobs) as [qs [Hall _]].
  rewrite (get_global_y_range_floats df qs Hall).
  destruct qs; eauto.
Qed.

(** C5: with an empty list of selected dates, building the comparison
    chart for an Observation Table raises nothing and returns a chart without
    a series; the comparison tab, given an empty selection, builds no chart
    at all. *)
Theorem comparison_empty_selection (colors : list string) (df : DataFrame)
    (use_fixed_scale : bool)
    (Hobs : observation_table df = true) :
  (exists fig, create_comparison_chart colors df [] use_fixed_scale = Ok fig
               /\ data fig = [])
  /\ comparison_tab colors df [] use_fixed_scale = Ok None.
Proof.
  split.
  - unfold create_comparison_chart.
    destruct (for_each_total horizon_value (horizon_columns df)) as [hv ->].
    { intros col Hcol; apply (observation_table_horizons df col Hobs Hcol). }
    simpl.
    destruct use_fixed_scale.
    + destruct (get_global_y_range_ok df Hobs) as [range ->]; simpl.
      eexists; split; reflexivity.
    + eexists; split; reflexivity.
  - unfold comparison_tab.
    match goal with |- context [for_each ?f (rows df)] =>
      destruct (for_each_total f (rows df)) as [opts ->] end.
    { intros row Hrow.
      destruct (observation_table_time_cell df row Hobs Hrow) as [t ->]; simpl; eauto. }
    reflexivity.
Qed.

Lemma comparison_empty_selection_witness :
  (exists fig, create_comparison_chart ["red"; "blue"] two_quarter_table [] true = Ok fig
               /\ data fig = [])
  /\ comparison_tab ["red"; "blue"] two_quarter_table [] true = Ok None.
Proof.
  apply (comparison_empty_selection ["red"; "blue"] two_quarter_table true).
  reflexivity.
Defined.

(** ** Sorting by date *)

Lemma timestamp_leb_iff (s t : Timestamp) :
  timestamp_leb s t = true <->
  year s < year t
  \/ (year s = year t
      /\ (month s < month t \/ (month s = month t /\ day s <= day t))).
Proof.
  unfold timestamp_leb.
  rewrite orb_true_iff, andb_true_iff, orb_true_iff, andb_true_iff.
  rewrite !Z.ltb_lt, !Z.eqb_eq, Z.leb_le.
  reflexivity.
Qed.

Lemma key_leb_total (a b : option Timestamp) :
  key_leb a b = false -> key_leb b a = true.
Proof.
  destruct a as [s |], b as [t |]; simpl; try reflexivity; try discriminate.
  intros Hst.
  apply timestamp_leb_iff.
  assert (Hn : ~ timestamp_leb s t = true) by (rewrite Hst; discriminate).
  rewrite timestamp_leb_iff in Hn; lia.
Qed.

Lemma key_leb_trans (a b c : option Timestamp) :
  key_leb a b = true -> key_leb b c = true -> key_leb a c = true.
Proof.
  destruct a as [s |], b as [t |], c as [u |]; simpl;
    try reflexivity; try discriminate.
  rewrite !timestamp_leb_iff; lia.
Qed.

Section SortByKey.

Context {A : Type}.

Lemma insert_by_key_In (r x : option Timestamp * A) (l : list (option Timestamp * A)) :
  In x (insert_by_key r l) <-> x = r \/ In x l.
Proof.
  induction l as [| r' rest IH]; simpl.
  - split; [intros [<- | []]; auto | intros [-> | []]; auto].
  - destruct (key_leb (fst r) (fst r')); simpl.
    + split; [intros [<- | H]; auto | intros [-> | H]; auto].
    + rewrite IH; split.
      * intros [H | [H | H]]; auto.
      * intros [H | [H | H]]; auto.
Qed.

Lemma insert_by_key_sorted (r : option Timestamp * A) (l : list (option Timestamp * A)) :
  keys_ascending (map fst l) -> keys_ascending (map fst (insert_by_key r l)).
Proof.
  unfold keys_ascending.
  induction l as [| r' rest IH]; intros Hsorted; simpl.
  - repeat constructor.
  - inversion Hsorted as [| k ks Hrest Hall]; subst.
    destruct (key_leb (fst r) (fst r')) eqn:Hle; simpl.
    + constructor; [assumption |].
      constructor; [assumption |].
      eapply Forall_impl; [| exact Hall].
      intros k Hk; eapply key_leb_trans; eassumption.
    + constructor; [apply IH; assumption |].
      apply Forall_forall; intros k Hk.
      apply in_map_iff in Hk as [x [<- Hx]].
      apply insert_by_key_In in Hx as [-> | Hx].
      * apply key_leb_total; assumption.
      * rewrite Forall_forall in Hall; apply Hall; apply in_map; assumption.
Qed.

Lemma sort_by_key_sorted (l : list (option Timestamp * A)) :
  keys_ascending (map fst (sort_by_key l)).
Proof.
  induction l as [| r l IH]; simpl.
  - constructor.
  - apply insert_by_key_sorted; assumption.
Qed.

Lemma sort_by_key_In (x : option Timestamp * A) (l : list (option Timestamp * A)) :
  In x (sort_by_key l) <-> In x l.
Proof.
  induction l as [| r l IH]; simpl; [reflexivity |].
  rewrite insert_by_key_In, IH; split; intros [H | H]; auto.
Qed.

Lemma sort_by_key_permutation (l : list (option Timestamp * A)) :
  Permutation (sort_by_key l) l.
Proof.
  induction l as [| r l IH]; simpl; [constructor |].
  transitivity (r :: sort_by_key l); [| constructor; assumption].
  generalize (sort_by_key l); clear; intros s.
  induction s as [| r' rest IHs]; simpl; [reflexivity |].
  destruct (key_leb (fst r) (fst r')); [reflexivity |].
  transitivity (r' :: r :: rest); [constructor; assumption | constructor].
Qed.

End SortByKey.

Lemma time_key_cell (c : cell) (k : option Timestamp) :
  time_key c = Ok k -> c = cell_of_time k.
Proof.
  destruct c; simpl; intros H; try discriminate; injection H as <-; reflexivity.
Qed.

(** Whatever table it is given, a successful [sort_values] by [Time] returns
    the same columns with the rows in ascending order of date. *)
Lemma sort_values_ascending (df df' : DataFrame) :
  sort_values df "Time" = Ok df' ->
  ascending_by_time df' /\ columns df' = columns df
  /\ Permutation (rows df') (rows df).
Proof.
  unfold sort_values, ascending_by_time, column.
  destruct (index_of "Time" (columns df)) as [j |] eqn:Hj; [| discriminate].
  match goal with |- context [for_each ?f (rows df)] => set (key := f) end.
  destruct (for_each key (rows df)) as [keyed |] eqn:Hkeyed; simpl; [| discriminate].
  intros H; injection H as <-; cbn [columns rows].
  rewrite Hj.
  apply for_each_Forall2 in Hkeyed.
  assert (Hpair : forall kr, In kr keyed -> time_key (nth j (snd kr) NaN) = Ok (fst kr)).
  { intros kr Hkr.
    destruct (In_nth_error _ _ Hkr) as [i Hi].
    destruct (Forall2_nth_error_r _ _ _ Hkeyed i kr Hi) as [row [_ Hrow]].
    unfold key in Hrow.
    destruct (time_key (nth j row NaN)) as [k |] eqn:Hk; simpl in Hrow; [| discriminate].
    injection Hrow as <-; assumption. }
  assert (Hsnd : map snd keyed = rows df).
  { clear -Hkeyed; induction Hkeyed as [| row kr rs krs Hrow _ IH]; [reflexivity |].
    simpl; rewrite IH; f_equal.
    unfold key in Hrow.
    destruct (time_key _); simpl in Hrow; [| discriminate].
    injection Hrow as <-; reflexivity. }
  repeat split.
  - exists (map fst (sort_by_key keyed)); split; [| apply sort_by_key_sorted].
    f_equal; rewrite !map_map.
    apply map_ext_in; intros kr Hkr.
    apply time_key_cell, Hpair, sort_by_key_In; assumption.
  - rewrite <- Hsnd; apply Permutation_map, sort_by_key_permutation.
Qed.

(** ** The synthetic table *)

Lemma map_nth_seq {A : Type} (l : list A) (d : A) :
  map (fun i => nth i l d) (seq 0 (List.length l)) = l.
Proof.
  induction l as [| a l IH]; [reflexivity |].
  simpl; f_equal.
  rewrite <- seq_shift, map_map; exact IH.
Qed.

Lemma from_columns_ok (label : string) (first : list cell)
    (rest : list (string * list cell)) :
  Forall (fun kv => List.length (snd kv) = List.length first) rest ->
  from_columns ((label, first) :: rest) =
  Ok (mkDataFrame (label :: map fst rest)
        (map (fun i => nth i first NaN :: map (fun kv => nth i (snd kv) NaN) rest)
             (seq 0 (List.length first)))).
Proof.
  intros Hrest; unfold from_columns; cbn [snd fst forallb map].
  rewrite Nat.eqb_refl; cbn [andb].
  replace (forallb _ rest) with true; [reflexivity |].
  symmetry; apply forallb_forall; intros kv Hkv.
  rewrite Forall_forall in Hrest; apply Nat.eqb_eq, Hrest; assumption.
Qed.

Lemma nth_replace_nth {A : Type} (j : nat) (v d : A) (xs : list A) :
  (j < List.length xs)%nat -> nth j (replace_nth j v xs) d = v.
Proof.
  revert j; induction xs as [| a xs IH]; intros j Hj; simpl in Hj; [lia |].
  destruct j as [| j]; simpl; [reflexivity | apply IH; lia].
Qed.

Lemma column_set_column (df : DataFrame) (col : string) (vals : list cell) (j : nat) :
  index_of col (columns df) = Some j ->
  List.length vals = List.length (rows df) ->
  Forall (fun row => (j < List.length row)%nat) (rows df) ->
  exists df',
    set_column df col vals = Ok df'
    /\ column df' col = Ok vals
    /\ columns df' = columns df
    /\ List.length (rows df') = List.length (rows df).
Proof.
  intros Hj Hlen Hwide; unfold set_column; rewrite Hj.
  apply Nat.eqb_eq in Hlen as Hlenb; rewrite Hlenb.
  eexists; split; [reflexivity |].
  unfold column; cbn [columns rows]; rewrite Hj.
  repeat split.
  - f_equal; rewrite map_map.
    clear Hlenb; revert vals Hlen.
    induction Hwide as [| row rest Hrow _ IH]; intros vals Hlen;
      destruct vals as [| v vals]; simpl in Hlen; try discriminate; [reflexivity |].
    simpl; rewrite (nth_replace_nth j v NaN row Hrow); f_equal.
    apply IH; lia.
  - rewrite length_map, length_combine; lia.
Qed.

Lemma for_each_to_datetime_dmY (strs : list string) (ts : list Timestamp) :
  for_each strptime_dmY strs = Ok ts ->
  for_each to_datetime_dmY (map Str strs) = Ok (map Stamp ts).
Proof.
  rewrite !for_each_Forall2; intros H.
  induction H as [| s t strs ts Hst _ IH]; simpl; constructor; try assumption.
  simpl; rewrite Hst; reflexivity.
Qed.

Lemma sample_dates_parsed : for_each strptime_dmY sample_quarters = Ok sample_dates.
Proof. vm_compute; reflexivity. Qed.

Lemma key_ltb_lt (a b : option Timestamp) :
  key_ltb a b = true -> key_leb a b = true /\ a <> b.
Proof.
  unfold key_ltb; rewrite andb_true_iff, negb_true_iff.
  intros [Hle Hnge]; split; [assumption |].
  intros ->; rewrite Hle in Hnge; discriminate.
Qed.

Lemma strictly_ascendingb_sound (keys : list (option Timestamp)) :
  strictly_ascendingb keys = true -> keys_strictly_ascending keys.
Proof.
  unfold keys_strictly_ascending.
  induction keys as [| k ks IH]; simpl; [constructor |].
  rewrite andb_true_iff; intros [Hk Hks].
  constructor; [apply IH; assumption |].
  apply Forall_forall; intros k' Hk'.
  rewrite forallb_forall in Hk; apply key_ltb_lt, Hk; assumption.
Qed.

Lemma keys_strictly_ascending_weaken (keys : list (option Timestamp)) :
  keys_strictly_ascending keys -> keys_ascending keys.
Proof.
  unfold keys_strictly_ascending, keys_ascending.
  induction 1 as [| k ks _ IH Hall]; constructor; [assumption |].
  eapply Forall_impl; [| exact Hall].
  intros k' [Hle _]; assumption.
Qed.

Lemma sample_dates_strictly_ascending :
  keys_strictly_ascending (map Some sample_dates).
Proof. apply strictly_ascendingb_sound; vm_compute; reflexivity. Qed.

Section Sample.

Variable rng_state : Type.
Variable seed : Z -> rng_state.
Variable normal : Q -> Q -> rng_state -> Q * rng_state.
Variable sin : Q -> Q.

Lemma normal_n_length (loc scale : Q) (n : nat) (st : rng_state) :
  List.length (fst (normal_n normal loc scale n st)) = n.
Proof.
  revert st; induction n as [| n IH]; intros st; simpl; [reflexivity |].
  destruct (normal loc scale st) as [v st1].
  specialize (IH st1).
  destruct (normal_n normal loc scale n st1) as [vs st2].
  simpl in *; rewrite IH; reflexivity.
Qed.

Lemma linspace_length (start stop : Q) (num : nat) :
  List.length (linspace start stop num) = num.
Proof. unfold linspace; rewrite length_map, length_seq; reflexivity. Qed.

Lemma horizon_series_shape (n : nat) (qs : list Z) (st : rng_state) :
  Forall (fun kv => List.length (snd kv) = n) (fst (horizon_series normal sin n qs st))
  /\ map fst (fst (horizon_series normal sin n qs st))
     = map (fun q => "pi_" ++ str_of_int q ++ "q") qs.
Proof.
  revert st; induction qs as [| q qs IH]; intros st; simpl.
  - split; [constructor | reflexivity].
  - pose proof (normal_n_length 0 (2 # 10) n st) as Hnoise.
    destruct (normal_n normal 0 (2 # 10) n st) as [noise st1].
    specialize (IH st1).
    destruct (horizon_series normal sin n qs st1) as [rest st2].
    simpl in *; destruct IH as [IHlen IHlab]; split.
    + constructor; [| assumption].
      simpl; rewrite !length_map, length_combine, length_map, linspace_length, Hnoise.
      apply Nat.min_id.
    + rewrite IHlab; reflexivity.
Qed.

(** The generator returns a table: the parsed dates in the [Time] column,
    in strictly ascending order, one row per date, and the forty horizon
    columns after it. *)
Lemma load_sample_data_table (st : rng_state) :
  exists df,
    fst (load_sample_data seed normal sin st) = Ok df
    /\ column df "Time" = Ok (map cell_of_time (map Some sample_dates))
    /\ columns df = sample_columns
    /\ List.length (rows df) = List.length sample_dates.
Proof.
  unfold load_sample_data.
  destruct (horizon_series_shape (List.length sample_quarters) (range 1 41) (seed 42))
    as [Hlen Hlab].
  destruct (horizon_series normal sin (List.length sample_quarters) (range 1 41) (seed 42))
    as [series st'].
  cbn [fst snd] in *.
  rewrite from_columns_ok
    by (eapply Forall_impl; [| exact Hlen]; intros kv ->; symmetry; apply length_map).
  cbn [bind].
  set (df0 := mkDataFrame _ _).
  assert (Htime : column df0 "Time" = Ok (map Str sample_quarters)).
  { unfold column, df0; cbn [columns rows index_of String.eqb Ascii.eqb Bool.eqb].
    rewrite map_map; cbn [nth].
    rewrite map_nth_seq; reflexivity. }
  rewrite Htime; cbn [bind].
  rewrite (for_each_to_datetime_dmY _ _ sample_dates_parsed); cbn [bind].
  destruct (column_set_column df0 "Time" (map Stamp sample_dates) 0) as [df [Hset [Hcol [Hcols Hrows]]]].
  - reflexivity.
  - unfold df0; cbn [rows]; rewrite !length_map, length_seq.
    pose proof (for_each_length _ _ _ sample_dates_parsed) as Hl; exact Hl.
  - unfold df0; cbn [rows].
    apply Forall_forall; intros row Hrow.
    apply in_map_iff in Hrow as [i [<- _]]; simpl; lia.
  - exists df; rewrite Hset; repeat split.
    + rewrite Hcol, map_map; reflexivity.
    + rewrite Hcols; unfold df0, sample_columns; cbn [columns]; rewrite Hlab; reflexivity.
    + rewrite Hrows; unfold df0; cbn [rows]; rewrite !length_map, length_seq.
      symmetry; apply (for_each_length _ _ _ sample_dates_parsed).
Qed.

End Sample.

(** ** The dataset loader *)

Lemma bind_ok {A B : Type} (r : result A) (k : A -> result B) (b : B) :
  bind r k = Ok b -> exists a, r = Ok a /\ k a = Ok b.
Proof. destruct r as [a | e]; simpl; [eauto | discriminate]. Qed.

Lemma keys_ascending_distinct (keys : list (option Timestamp)) :
  keys_ascending keys -> (NoDup keys <-> keys_strictly_ascending keys).
Proof.
  unfold keys_ascending, keys_strictly_ascending.
  induction 1 as [| k ks _ IH Hall]; split; intros H; try constructor.
  - inversion H as [| k' ks' Hnotin Hnodup]; subst; apply IH; assumption.
  - inversion H as [| k' ks' Hnotin Hnodup]; subst.
    rewrite Forall_forall in *; intros k' Hk'; split; [apply Hall; assumption |].
    intros ->; contradiction.
  - inversion H as [| k' ks' _ Hstrict]; subst.
    rewrite Forall_forall in Hstrict; intros Hk.
    destruct (Hstrict k Hk) as [_ Hneq]; apply Hneq; reflexivity.
  - inversion H as [| k' ks' Hsorted _]; subst; apply IH; assumption.
Qed.

(** C2: whatever the spreadsheet reader and the date parser return, for
    every country code, the loader returns a table whose Time column is in
    ascending order of date, missing dates last; the order is strict exactly
    when no two rows of the returned table share a date. *)
Theorem load_data_ascending (rng_state : Type) (seed : Z -> rng_state)
    (normal : Q -> Q -> rng_state -> Q * rng_state) (sin : Q -> Q)
    (read_excel : string -> result DataFrame)
    (to_datetime : list cell -> result (list (option Timestamp)))
    (country_code : string) (st : rng_state) :
  exists (df : DataFrame) (keys : list (option Timestamp)),
    fst (load_data seed normal sin read_excel to_datetime country_code st) = Ok df
    /\ column df "Time" = Ok (map cell_of_time keys)
    /\ keys_ascending keys
    /\ ascending_by_time df
    /\ (NoDup keys <-> strictly_ascending_by_time df).
Proof.
  assert (Hstrict : forall df keys,
            column df "Time" = Ok (map cell_of_time keys) -> keys_ascending keys ->
            (NoDup keys <-> strictly_ascending_by_time df)).
  { intros df keys Hcol Hasc.
    rewrite (keys_ascending_distinct keys Hasc); split.
    - intros Hs; exists keys; split; assumption.
    - intros [keys' [Hcol' Hs]].
      rewrite Hcol in Hcol'; injection Hcol' as Heq.
      assert (Hinj : forall a b, cell_of_time a = cell_of_time b -> a = b).
      { intros [a |] [b |]; simpl; intros E; try discriminate; try reflexivity.
        injection E as ->; reflexivity. }
      assert (Hkeys : keys = keys').
      { clear -Heq Hinj; revert keys' Heq.
        induction keys as [| k ks IH]; intros [| k' ks'] Heq; simpl in Heq;
          try discriminate; [reflexivity |].
        injection Heq as Hk Hks.
        rewrite (Hinj _ _ Hk), (IH _ Hks); reflexivity. }
      rewrite Hkeys; assumption. }
  assert (Hsample : exists df keys,
            fst (load_sample_data seed normal sin st) = Ok df
            /\ column df "Time" = Ok (map cell_of_time keys)
            /\ keys_ascending keys).
  { destruct (load_sample_data_table rng_state seed normal sin st)
      as [df [Hdf [Hcol _]]].
    exists df, (map Some sample_dates); repeat split; try assumption.
    apply keys_strictly_ascending_weaken, sample_dates_strictly_ascending. }
  assert (Hgoal : exists df keys,
            fst (load_data seed normal sin read_excel to_datetime country_code st) = Ok df
            /\ column df "Time" = Ok (map cell_of_time keys)
            /\ keys_ascending keys).
  { unfold load_data.
    match goal with |- context [match ?a with Ok _ => _ | Raise _ => _ end] =>
      destruct a as [df | e] eqn:Hattempt end.
    - apply bind_ok in Hattempt as [raw [_ Hattempt]].
      apply bind_ok in Hattempt as [parsed [_ Hsort]].
      destruct (sort_values_ascending parsed df Hsort) as [[keys [Hcol Hasc]] _].
      exists df, keys; repeat split; assumption.
    - destruct e; exact Hsample. }
  destruct Hgoal as [df [keys [Hdf [Hcol Hasc]]]].
  exists df, keys; repeat split; try assumption.
  - exists keys; split; assumption.
  - apply (Hstrict df keys Hcol Hasc).
  - apply (Hstrict df keys Hcol Hasc).
Qed.

(** C2 as stated fails: for the country code of the Eurozone and a
    spreadsheet in which two rows carry the same date, the loader returns a
    table that has both rows, so its dates are not strictly ascending. *)
Lemma load_data_repeated_date :
  In "ez" (map snd COUNTRIES)
  /\ exists df,
       fst (load_data (fun _ => tt) (fun _ _ st => (0%Q, st)) (fun _ => 0%Q)
              (fun _ => Ok repeated_date_sheet) keep_timestamps "ez" tt) = Ok df
       /\ List.length (rows df) = 3%nat
       /\ ~ strictly_ascending_by_time df.
Proof.
  split; [simpl; auto |].
  eexists; split; [vm_compute; reflexivity |].
  split; [reflexivity |].
  intros [keys [Hcol Hsorted]].
  unfold column in Hcol; cbn in Hcol.
  injection Hcol as Hkeys.
  destruct keys as [| k1 [| k2 [| k3 keys]]]; try discriminate Hkeys.
  injection Hkeys as H1 H2 H3 _.
  destruct k2 as [t2 |]; [| discriminate H2].
  destruct k3 as [t3 |]; [| discriminate H3].
  injection H2 as <-; injection H3 as <-.
  inversion Hsorted as [| a l Hrest _]; subst.
  inversion Hrest as [| b l' _ Hall2]; subst.
  inversion Hall2 as [| c l'' [_ Hneq] _]; subst.
  apply Hneq; reflexivity.
Qed.

(** C9: the synthetic dataset generator does not depend on the state of the
    random generator it is started in: two invocations, in any two states,
    return the same table (the same dates, horizon columns and values) and
    leave the same state; the table has the 41 columns Time, pi_1q, ...,
    pi_40q and 145 rows. *)
Theorem load_sample_data_deterministic (rng_state : Type) (seed : Z -> rng_state)
    (normal : Q -> Q -> rng_state -> Q * rng_state) (sin : Q -> Q)
    (st1 st2 : rng_state) :
  load_sample_data seed normal sin st1 = load_sample_data seed normal sin st2
  /\ exists df,
       fst (load_sample_data seed normal sin st1) = Ok df
       /\ fst (load_sample_data seed normal sin st2) = Ok df
       /\ columns df = sample_columns
       /\ List.length (columns df) = 41%nat
       /\ List.length (rows df) = 145%nat.
Proof.
  split; [reflexivity |].
  destruct (load_sample_data_table rng_state seed normal sin st1)
    as [df [Hdf [_ [Hcols Hrows]]]].
  exists df; repeat split.
  - assumption.
  - exact Hdf.
  - assumption.
  - rewrite Hcols; reflexivity.
  - rewrite Hrows; reflexivity.
Qed.

(** * Further properties *)

(** ** Horizon labels *)

Lemma digits_value_acc (u : Decimal.uint) (acc : positive) :
  digits_value (Z.pos acc) (NilEmpty.string_of_uint u)
  = Some (Z.pos (Pos.of_uint_acc u acc)).
Proof.
  revert acc; induction u as [| u IH | u IH | u IH | u IH | u IH | u IH | u IH
                              | u IH | u IH | u IH]; intros acc;
    [reflexivity | ..];
    cbn [NilEmpty.string_of_uint digits_value Pos.of_uint_acc];
    match goal with
    | |- context [digit_value ?c] =>
        let v := eval vm_compute in (digit_value c) in
        change (digit_value c) with v
    end; cbv iota; rewrite <- IH; f_equal; lia.
Qed.

Lemma digits_value_uint (u : Decimal.uint) :
  digits_value 0 (NilEmpty.string_of_uint u) = Some (Z.of_N (Pos.of_uint u)).
Proof.
  induction u as [| u IH | u IH | u IH | u IH | u IH | u IH | u IH
                  | u IH | u IH | u IH];
    [reflexivity | exact IH | ..];
    cbn [NilEmpty.string_of_uint digits_value Pos.of_uint];
    match goal with
    | |- context [digit_value ?c] =>
        let v := eval vm_compute in (digit_value c) in
        change (digit_value c) with v
    end; cbv iota; cbn [Z.of_N]; rewrite <- digits_value_acc; reflexivity.
Qed.

Lemma string_of_uint_plain (u : Decimal.uint) :
  Forall plain (list_ascii_of_string (NilEmpty.string_of_uint u)).
Proof.
  induction u; simpl; constructor; try assumption;
    (split; [reflexivity | repeat split; discriminate]).
Qed.

Lemma split_plain (sep : ascii) (s : string) :
  Forall (fun c => c <> sep) (list_ascii_of_string s) -> split sep s = [s].
Proof.
  induction s as [| c s IH]; simpl; intros H; [reflexivity |].
  inversion H as [| c' l Hc Hrest]; subst.
  destruct (Ascii.eqb_spec c sep) as [-> | _]; [contradiction |].
  rewrite (IH Hrest); reflexivity.
Qed.

Lemma split_at_sep (sep : ascii) (s t : string) :
  Forall (fun c => c <> sep) (list_ascii_of_string s) ->
  split sep (s ++ String sep t) = s :: split sep t.
Proof.
  induction s as [| c s IH]; simpl; intros H.
  - rewrite Ascii.eqb_refl; reflexivity.
  - inversion H as [| c' l Hc Hrest]; subst.
    destruct (Ascii.eqb_spec c sep) as [-> | _]; [contradiction |].
    rewrite (IH Hrest); reflexivity.
Qed.

Lemma drop_last_app (s : string) (c : ascii) :
  drop_last (s ++ String c EmptyString) = s.
Proof.
  induction s as [| a s IH]; [reflexivity |].
  simpl; destruct s as [| b s]; [reflexivity |].
  simpl in *; rewrite IH; reflexivity.
Qed.

Lemma list_ascii_app (s t : string) :
  list_ascii_of_string (s ++ t) = (list_ascii_of_string s ++ list_ascii_of_string t)%list.
Proof.
  induction s as [| c s IH]; simpl; [reflexivity | rewrite IH; reflexivity].
Qed.

Lemma rstrip_plain (s : string) :
  Forall (fun c => is_space c = false) (list_ascii_of_string s) -> rstrip s = s.
Proof.
  induction s as [| c s IH]; simpl; intros H; [reflexivity |].
  inversion H as [| c' l Hc Hrest]; subst.
  rewrite (IH Hrest), Hc.
  destruct s; reflexivity.
Qed.

Lemma lstrip_plain (s : string) :
  Forall (fun c => is_space c = false) (list_ascii_of_string s) -> lstrip s = s.
Proof.
  destruct s as [| c s]; simpl; intros H; [reflexivity |].
  inversion H as [| c' l Hc Hrest]; subst.
  rewrite Hc; reflexivity.
Qed.

Lemma int_unsigned (u : Decimal.uint) :
  u <> Decimal.Nil ->
  int (NilEmpty.string_of_uint u) = Ok (Z.of_N (Pos.of_uint u))
  /\ int (String "-" (NilEmpty.string_of_uint u)) = Ok (- Z.of_N (Pos.of_uint u)).
Proof.
  intros Hnil.
  pose proof (string_of_uint_plain u) as Hplain.
  pose proof (digits_value_uint u) as Hvalue.
  assert (Hspace : Forall (fun c => is_space c = false)
                          (list_ascii_of_string (NilEmpty.string_of_uint u))).
  { eapply Forall_impl; [| exact Hplain]; intros c [Hc _]; exact Hc. }
  assert (Hunsigned : unsigned_value (NilEmpty.string_of_uint u)
                      = Ok (Z.of_N (Pos.of_uint u))).
  { unfold unsigned_value; rewrite Hvalue.
    destruct u; try reflexivity; contradiction. }
  split.
  - unfold int; rewrite (rstrip_plain _ Hspace), (lstrip_plain _ Hspace).
    destruct (NilEmpty.string_of_uint u) as [| c s] eqn:Hs; [exact Hunsigned |].
    inversion Hplain as [| c' l [_ [_ [Hplus Hminus]]] _]; subst.
    destruct (Ascii.eqb_spec c "+"%char) as [-> | _]; [contradiction |].
    destruct (Ascii.eqb_spec c "-"%char) as [-> | _]; [contradiction |].
    destruct c as [[] [] [] [] [] [] [] []]; try exact Hunsigned; contradiction.
  - unfold int.
    rewrite rstrip_plain by (simpl; constructor; [reflexivity | exact Hspace]).
    rewrite lstrip_plain by (simpl; constructor; [reflexivity | exact Hspace]).
    rewrite Hunsigned; reflexivity.
Qed.

Lemma int_str_of_int (n : Z) : int (str_of_int n) = Ok n.
Proof.
  unfold str_of_int; destruct n as [| p | p]; [reflexivity | |];
    cbn [Z.to_int NilZero.string_of_int];
    pose proof (DecimalPos.Unsigned.to_uint_nonnil p) as Hnil;
    pose proof (DecimalPos.Unsigned.of_to p) as Hof;
    destruct (int_unsigned (Pos.to_uint p) Hnil) as [Hpos Hneg];
    unfold NilZero.string_of_uint;
    destruct (Pos.to_uint p) eqn:Hu; try contradiction;
    rewrite Hof in *; first [exact Hpos | exact Hneg].
Qed.

Lemma str_of_int_no_separator (n : Z) :
  Forall (fun c => c <> "_"%char) (list_ascii_of_string (str_of_int n)).
Proof.
  assert (Hu : forall u, Forall (fun c => c <> "_"%char)
                           (list_ascii_of_string (NilZero.string_of_uint u))).
  { intros u; unfold NilZero.string_of_uint.
    pose proof (string_of_uint_plain u) as Hplain.
    destruct u; try (eapply Forall_impl; [| exact Hplain]; intros c [_ [Hc _]]; exact Hc).
    simpl; constructor; [discriminate | constructor]. }
  unfold str_of_int; destruct n as [| p | p]; cbn [Z.to_int NilZero.string_of_int].
  - apply Hu.
  - apply Hu.
  - simpl; constructor; [discriminate | apply Hu].
Qed.

(** X1: the label the synthetic generator gives to horizon n, pi_<n>q, is
    read back as horizon n by curve extraction; any one-character unit other
    than the separator does as well, since the unit is dropped unread. *)
Theorem horizon_label_round_trip (n : Z) (unit : ascii)
    (Hunit : unit <> "_"%char) :
  horizon_value ("pi_" ++ str_of_int n ++ String unit EmptyString) = Ok n.
Proof.
  unfold horizon_value.
  change ("pi_" ++ str_of_int n ++ String unit EmptyString)
    with ("pi" ++ String "_" (str_of_int n ++ String unit EmptyString)).
  rewrite split_at_sep by (repeat constructor; discriminate).
  rewrite split_plain.
  - cbn [getitem nth_error bind]; rewrite drop_last_app; apply int_str_of_int.
  - rewrite list_ascii_app; apply Forall_app; split.
    + apply str_of_int_no_separator.
    + simpl; constructor; [assumption | constructor].
Qed.

Lemma horizon_label_round_trip_witness :
  horizon_value ("pi_" ++ str_of_int 12 ++ String "q" EmptyString) = Ok 12.
Proof.
  apply (horizon_label_round_trip 12 "q"); discriminate.
Defined.






Lemma for_each_raises_only {A B : Type} (f : A -> result B) (xs : list A) (a : A)
    (e0 : exn) :
  In a xs -> f a = Raise e0 ->
  (forall x e, In x xs -> f x = Raise e -> e = e0) ->
  for_each f xs = Raise e0.
Proof.
  intros Hin Hraise; induction xs as [| a0 xs IH]; intros Honly; [destruct Hin |].
  simpl; destruct (f a0) as [b | e] eqn:Hb; simpl.
  - destruct Hin as [-> | Hin]; [rewrite Hraise in Hb; discriminate |].
    rewrite IH; [reflexivity | assumption |].
    intros x e Hx; apply Honly; right; assumption.
  - rewrite (Honly a0 e (or_introl eq_refl) Hb); reflexivity.
Qed.




(** ** Series of the comparison chart *)

Lemma select_rows_filter (df : DataFrame) (p : list cell -> bool) :
  rows (select_rows df (map p (rows df))) = filter p (rows df).
Proof.
  unfold select_rows; cbn [rows].
  induction (rows df) as [| row rest IH]; [reflexivity |].
  simpl; destruct (p row); simpl; rewrite IH; reflexivity.
Qed.

Lemma getitem_filter_find {A : Type} (p : A -> bool) (xs : list A) :
  getitem (filter p xs) 0 =
  match find p xs with
  | Some a => Ok a
  | None => Raise IndexError
  end.
Proof.
  induction xs as [| a xs IH]; [reflexivity |].
  simpl; destruct (p a); [reflexivity | exact IH].
Qed.

(** The row lookup of the comparison chart takes the first row carrying
    the date. *)
Lemma iloc0_first_row_dated (df : DataFrame) (t : Timestamp) :
  In "Time" (columns df) ->
  iloc0 (select_rows df (map (fun c => cell_eqb c (Stamp t)) (cells_of df "Time")))
  = match first_row_dated df t with
    | Some row => Ok row
    | None => Raise IndexError
    end.
Proof.
  intros Hin; unfold iloc0, first_row_dated, cells_of, row_get.
  destruct (index_of_In _ _ Hin) as [j ->].
  rewrite map_map.
  rewrite (select_rows_filter df (fun row => cell_eqb (nth j row NaN) (Stamp t))).
  apply getitem_filter_find.
Qed.

Lemma first_row_dated_present (df : DataFrame) (t : Timestamp) :
  (exists row, In row (rows df) /\ row_get (columns df) row "Time" = Ok (Stamp t)) ->
  exists row, first_row_dated df t = Some row /\ In row (rows df)
              /\ row_get (columns df) row "Time" = Ok (Stamp t).
Proof.
  intros [row [Hrow Hget]]; unfold first_row_dated.
  match goal with |- context [find ?p _] => set (p0 := p) end.
  destruct (find p0 (rows df)) as [r |] eqn:Hfind.
  - apply find_some in Hfind as [Hr Hp]; exists r; repeat split; try assumption.
    unfold p0 in Hp.
    destruct (row_get (columns df) r "Time") as [c |]; [| discriminate].
    apply cell_eqb_stamp in Hp; subst; reflexivity.
  - exfalso.
    pose proof (find_none _ _ Hfind row Hrow) as Hp; unfold p0 in Hp.
    rewrite Hget in Hp; simpl in Hp.
    rewrite !Z.eqb_refl in Hp; discriminate.
Qed.

Lemma for_each_indexed_nth {A B : Type} (f : nat -> A -> result B) (xs : list A)
    (ys : list B) (i : nat) :
  for_each_indexed f i xs = Ok ys ->
  List.length ys = List.length xs
  /\ forall k a, nth_error xs k = Some a ->
       exists b, nth_error ys k = Some b /\ f (i + k)%nat a = Ok b.
Proof.
  revert ys i; induction xs as [| a0 xs IH]; intros ys i; simpl.
  - intros H; injection H as <-; split; [reflexivity |].
    intros k a Hk; destruct k; discriminate.
  - destruct (f i a0) as [b0 |] eqn:Hb0; simpl; [| discriminate].
    destruct (for_each_indexed f (S i) xs) as [bs |] eqn:Hbs; simpl; [| discriminate].
    intros H; injection H as <-.
    destruct (IH bs (S i) Hbs) as [Hlen Hnth]; split; [simpl; rewrite Hlen; reflexivity |].
    intros k a Hk; destruct k as [| k]; simpl in *.
    + injection Hk as <-; rewrite Nat.add_0_r; eauto.
    + destruct (Hnth k a Hk) as [b [Hb Hf]].
      exists b; split; [assumption |].
      rewrite <- Nat.add_succ_comm; assumption.
Qed.

Lemma for_each_indexed_total {A B : Type} (f : nat -> A -> result B) (xs : list A) :
  (forall k a, In a xs -> exists b, f k a = Ok b) ->
  forall i, exists ys, for_each_indexed f i xs = Ok ys.
Proof.
  induction xs as [| a xs IH]; intros Hall i; simpl; [eauto |].
  destruct (Hall i a (or_introl eq_refl)) as [b ->]; simpl.
  destruct (IH (fun k x Hx => Hall k x (or_intror Hx)) (S i)) as [bs ->]; simpl.
  eauto.
Qed.

(** What the comparison chart holds when every selected date is the date of
    some row. *)
Lemma create_comparison_chart_series (colors : list string) (df : DataFrame)
    (dates : list Timestamp) (use_fixed_scale : bool) :
  observation_table df = true -> colors <> [] ->
  (forall t, In t dates ->
     exists row, In row (rows df) /\ row_get (columns df) row "Time" = Ok (Stamp t)) ->
  exists (hv : list Z) (fig : Figure),
    for_each horizon_value (horizon_columns df) = Ok hv
    /\ create_comparison_chart colors df (map Stamp dates) use_fixed_scale = Ok fig
    /\ List.length (data fig) = List.length dates
    /\ (forall k t, nth_error dates k = Some t ->
          exists trace row,
            nth_error (data fig) k = Some trace
            /\ first_row_dated df t = Some row
            /\ x trace = hv
            /\ Forall2 (fun col v => row_get (columns df) row col = Ok v)
                       (horizon_columns df) (y trace)
            /\ name trace = format_quarter t
            /\ nth_error colors (k mod List.length colors) = Some (line_color trace))
    /\ yaxis_range (layout fig)
       = (if use_fixed_scale
          then match get_global_y_range df with Ok r => Some r | Raise _ => None end
          else None).
Proof.
  intros Hobs Hcolors Hpresent.
  pose proof (observation_table_time df Hobs) as Htime.
  destruct (for_each_total horizon_value (horizon_columns df)) as [hv Hhv].
  { intros col Hcol; apply (observation_table_horizons df col Hobs Hcol). }
  exists hv; unfold create_comparison_chart; rewrite Hhv; cbn [bind].
  match goal with |- context [for_each_indexed ?f _ _] => set (step := f) end.
  assert (Hstep : forall k t, In t dates ->
            exists trace row,
              step k (Stamp t) = Ok trace
              /\ first_row_dated df t = Some row
              /\ x trace = hv
              /\ Forall2 (fun col v => row_get (columns df) row col = Ok v)
                         (horizon_columns df) (y trace)
              /\ name trace = format_quarter t
              /\ nth_error colors (k mod List.length colors) = Some (line_color trace)).
  { intros k t Ht; unfold step.
    rewrite (column_cells_of df "Time" Htime); cbn [bind].
    rewrite (iloc0_first_row_dated df t Htime).
    destruct (first_row_dated_present df t (Hpresent t Ht)) as [row [-> [Hrow _]]].
    cbn [bind].
    destruct (for_each_total (row_get (columns df) row) (horizon_columns df))
      as [vs Hvs].
    { intros col Hcol.
      destruct (observation_table_horizon_cell df row col Hobs Hrow Hcol)
        as [c [Hc _]]; eauto. }
    rewrite Hvs; cbn [bind format_quarter_cell].
    destruct (cycle_color_ok colors k Hcolors) as [color Hcolor].
    rewrite Hcolor; cbn [bind].
    eexists; exists row; repeat split.
    - apply for_each_Forall2; exact Hvs.
    - cbn [line_color].
      unfold cycle_color, getitem in Hcolor.
      destruct colors as [| c cs]; [contradiction |].
      destruct (nth_error (c :: cs) (k mod List.length (c :: cs))) as [color' |];
        [injection Hcolor as ->; reflexivity | discriminate]. }
  destruct (for_each_indexed_total step (map Stamp dates)) with (i := 0%nat)
    as [traces Htraces].
  { intros k c Hc; apply in_map_iff in Hc as [t [<- Ht]].
    destruct (Hstep k t Ht) as [trace [_ [Htr _]]]; eauto. }
  rewrite Htraces; cbn [bind].
  destruct (for_each_indexed_nth _ _ _ _ Htraces) as [Hlen Hnth].
  assert (Hseries : forall k t, nth_error dates k = Some t ->
            exists trace row,
              nth_error traces k = Some trace
              /\ first_row_dated df t = Some row
              /\ x trace = hv
              /\ Forall2 (fun col v => row_get (columns df) row col = Ok v)
                         (horizon_columns df) (y trace)
              /\ name trace = format_quarter t
              /\ nth_error colors (k mod List.length colors) = Some (line_color trace)).
  { intros k t Hk.
    destruct (Hnth k (Stamp t)) as [trace [Htr Hf]];
      [rewrite nth_error_map, Hk; reflexivity |].
    destruct (Hstep k t (nth_error_In _ _ Hk)) as [trace' [row [Hf' Hrest]]].
    simpl in Hf; rewrite Hf' in Hf; injection Hf as ->.
    exists trace, row; split; assumption. }
  rewrite length_map in Hlen.
  destruct use_fixed_scale.
  - destruct (get_global_y_range_ok df Hobs) as [range ->]; cbn [bind].
    eexists; repeat split; try eassumption.
  - eexists; repeat split; try eassumption.
Qed.

(** X3: for an Observation Table, a palette that is not empty and selected
    dates that all occur in the table, the comparison chart has one series
    per selected date, in selection order: its x values are the horizons of
    the table, its y values the horizon cells of the first row carrying the
    date, its name the quarter label of the date, and its colour the palette
    entry at the position of the date modulo the palette length.  The y axis
    is fixed to the global range exactly when the option is set. *)
Theorem comparison_chart_series (colors : list string) (df : DataFrame)
    (dates : list Timestamp) (use_fixed_scale : bool)
    (Hobs : observation_table df = true)
    (Hcolors : colors <> [])
    (Hpresent : forall t, In t dates ->
       exists row, In row (rows df) /\ row_get (columns df) row "Time" = Ok (Stamp t)) :
  exists (hv : list Z) (fig : Figure),
    for_each horizon_value (horizon_columns df) = Ok hv
    /\ create_comparison_chart colors df (map Stamp dates) use_fixed_scale = Ok fig
    /\ List.length (data fig) = List.length dates
    /\ (forall k t, nth_error dates k = Some t ->
          exists trace row,
            nth_error (data fig) k = Some trace
            /\ first_row_dated df t = Some row
            /\ x trace = hv
            /\ List.length (y trace) = List.length hv
            /\ Forall2 (fun col v => row_get (columns df) row col = Ok v)
                       (horizon_columns df) (y trace)
            /\ name trace = format_quarter t
            /\ nth_error colors (k mod List.length colors) = Some (line_color trace))
    /\ (use_fixed_scale = false -> yaxis_range (layout fig) = None)
    /\ (use_fixed_scale = true ->
        exists r, get_global_y_range df = Ok r /\ yaxis_range (layout fig) = Some r).
Proof.
  destruct (create_comparison_chart_series colors df dates use_fixed_scale
              Hobs Hcolors Hpresent)
    as [hv [fig [Hhv [Hfig [Hlen [Hseries Hrange]]]]]].
  exists hv, fig; repeat split; try assumption.
  - intros k t Hk.
    destruct (Hseries k t Hk) as [trace [row [Htr [Hrow [Hx [Hy [Hname Hcol]]]]]]].
    exists trace, row; repeat split; try assumption.
    apply for_each_Forall2 in Hhv.
    rewrite <- (Forall2_length Hy); apply (Forall2_length Hhv).
  - intros ->; exact Hrange.
  - intros ->.
    destruct (get_global_y_range_ok df Hobs) as [r Hr].
    rewrite Hr in Hrange; eauto.
Qed.

Lemma comparison_chart_series_witness :
  exists fig,
    create_comparison_chart ["red"] two_quarter_table
      (map Stamp [mkTimestamp 1999 6 30; mkTimestamp 1999 3 31; mkTimestamp 1999 6 30])
      false = Ok fig
    /\ List.length (data fig) = 3%nat.
Proof.
  destruct (comparison_chart_series ["red"] two_quarter_table
              [mkTimestamp 1999 6 30; mkTimestamp 1999 3 31; mkTimestamp 1999 6 30] false)
    as [hv [fig [_ [Hfig [Hlen _]]]]].
  - reflexivity.
  - discriminate.
  - intros t [<- | [<- | [<- | []]]];
      [exists [Stamp (mkTimestamp 1999 6 30); Num (18 # 10); Num (25 # 10); NaN]
      | exists [Stamp (mkTimestamp 1999 3 31); Num (21 # 10); Num (19 # 10); Num (2 # 1)]
      | exists [Stamp (mkTimestamp 1999 6 30); Num (18 # 10); Num (25 # 10); NaN]];
      (split; [simpl; auto | reflexivity]).
  - exists fig; split; assumption.
Defined.

Lemma quarter_options_of_table (df : DataFrame) :
  observation_table df = true ->
  exists ts : list Timestamp,
    for_each (fun row =>
                time <- row_get (columns df) row "Time" ;;
                label <- format_quarter_cell time ;;
                Ok (time, label)) (rows df)
    = Ok (map (fun t => (Stamp t, format_quarter t)) ts)
    /\ quarter_labels df = map format_quarter ts
    /\ forall t, In t ts ->
         exists row, In row (rows df) /\ row_get (columns df) row "Time" = Ok (Stamp t).
Proof.
  intros Hobs; unfold quarter_labels.
  assert (Hrows : forall row, In row (rows df) ->
            exists t, row_get (columns df) row "Time" = Ok (Stamp t))
    by (intros row Hrow; apply (observation_table_time_cell df row Hobs Hrow)).
  induction (rows df) as [| row rest IH].
  - exists []; repeat split; intros t [].
  - destruct (Hrows row (or_introl eq_refl)) as [t Ht].
    destruct IH as [ts [Hopts [Hlabels Hin]]];
      [intros r Hr; apply Hrows; right; assumption |].
    exists (t :: ts); repeat split.
    + cbn [for_each]; rewrite Ht; cbn [bind format_quarter_cell].
      rewrite Hopts; reflexivity.
    + cbn [flat_map]; rewrite Ht, Hlabels; reflexivity.
    + intros t' [<- | Ht'].
      * exists row; split; [left; reflexivity | assumption].
      * destruct (Hin t' Ht') as [r [Hr Hget]]; exists r; split; [right |]; assumption.
Qed.

Lemma selected_dates_of_labels (ts : list Timestamp) (labels : list string) :
  exists ds : list Timestamp,
    flat_map
      (fun label =>
         match find (fun opt : cell * string => String.eqb (snd opt) label)
                    (map (fun t => (Stamp t, format_quarter t)) ts) with
         | Some (date, _) => [date]
         | None => []
         end) labels
    = map Stamp ds
    /\ (forall t, In t ds -> In t ts)
    /\ map format_quarter ds
       = filter (fun l => existsb (String.eqb l) (map format_quarter ts)) labels.
Proof.
  induction labels as [| label labels [ds [Hds [Hin Hnames]]]].
  - exists []; repeat split; intros t [].
  - cbn [flat_map filter].
    set (opts := map (fun t => (Stamp t, format_quarter t)) ts) in *.
    destruct (find (fun opt : cell * string => String.eqb (snd opt) label) opts)
      as [[date l] |] eqn:Hfind.
    + apply find_some in Hfind as [Hopt Hl]; simpl in Hl.
      apply String.eqb_eq in Hl; subst l.
      apply in_map_iff in Hopt as [t [Heq Ht]]; injection Heq as <- Hlabel.
      replace (existsb (String.eqb label) (map format_quarter ts)) with true.
      * exists (t :: ds); repeat split.
        -- simpl; rewrite Hds; reflexivity.
        -- intros t' [<- | Ht']; [assumption | apply Hin; assumption].
        -- simpl; rewrite Hlabel, Hnames; reflexivity.
      * symmetry; apply existsb_exists; exists label; split;
          [rewrite <- Hlabel; apply in_map; assumption | apply String.eqb_refl].
    + replace (existsb (String.eqb label) (map format_quarter ts)) with false.
      * exists ds; repeat split; assumption.
      * symmetry; apply Bool.not_true_is_false; intros Hex.
        apply existsb_exists in Hex as [l [Hl Heq]].
        apply String.eqb_eq in Heq; subst l.
        apply in_map_iff in Hl as [t [Hlabel Ht]].
        pose proof (find_none _ _ Hfind (Stamp t, format_quarter t)
                      (in_map _ _ _ Ht)) as Hno.
        simpl in Hno; rewrite Hlabel, String.eqb_refl in Hno; discriminate.
Qed.

Lemma names_of_series {A B : Type} (f : A -> string) (g : B -> string)
    (xs : list A) (ys : list B) :
  List.length ys = List.length xs ->
  (forall k a, nth_error xs k = Some a ->
     exists b, nth_error ys k = Some b /\ g b = f a) ->
  map g ys = map f xs.
Proof.
  revert ys; induction xs as [| a xs IH]; intros [| b ys] Hlen Hnth;
    simpl in Hlen; try discriminate; [reflexivity |].
  destruct (Hnth 0%nat a eq_refl) as [b' [Hb' Hg]]; injection Hb' as <-.
  simpl; rewrite Hg; f_equal.
  apply IH; [lia |].
  intros k a' Hk; apply (Hnth (S k) a' Hk).
Qed.

(** X4: in the comparison tab, a selection of quarter labels that is not
    empty never raises for an Observation Table and a palette that is not
    empty: every selected label that some row carries gives one series named
    by the label, in selection order, and a selected label that no row
    carries is skipped. *)
Theorem comparison_tab_selection (colors : list string) (df : DataFrame)
    (selected_quarter_labels : list string) (use_fixed_y_axis : bool)
    (Hobs : observation_table df = true)
    (Hcolors : colors <> [])
    (Hselected : selected_quarter_labels <> []) :
  exists fig,
    comparison_tab colors df selected_quarter_labels use_fixed_y_axis = Ok (Some fig)
    /\ map name (data fig)
       = filter (fun l => existsb (String.eqb l) (quarter_labels df))
                selected_quarter_labels.
Proof.
  unfold comparison_tab.
  destruct (quarter_options_of_table df Hobs) as [ts [-> [Hlabels Hrows]]].
  cbn [bind].
  destruct selected_quarter_labels as [| label labels]; [contradiction |].
  destruct (selected_dates_of_labels ts (label :: labels)) as [ds [-> [Hin Hnames]]].
  destruct (create_comparison_chart_series colors df ds use_fixed_y_axis Hobs Hcolors)
    as [hv [fig [_ [-> [Hlen [Hseries _]]]]]].
  { intros t Ht; apply Hrows, Hin; assumption. }
  cbn [bind]; exists fig; split; [reflexivity |].
  rewrite Hlabels, <- Hnames.
  apply names_of_series; [assumption |].
  intros k t Hk.
  destruct (Hseries k t Hk) as [trace [row [Htr [_ [_ [_ [Hname _]]]]]]]; eauto.
Qed.

Lemma comparison_tab_selection_witness :
  exists fig,
    comparison_tab ["red"] two_quarter_table ["1999Q2"; "2031Q1"; "1999Q1"] true
    = Ok (Some fig)
    /\ map name (data fig)
       = filter (fun l => existsb (String.eqb l) (quarter_labels two_quarter_table))
                ["1999Q2"; "2031Q1"; "1999Q1"].
Proof.
  apply (comparison_tab_selection ["red"] two_quarter_table
           ["1999Q2"; "2031Q1"; "1999Q1"] true).
  - reflexivity.
  - discriminate.
  - discriminate.
Defined.

(** ** The global range is an interval *)



(** ** The synthetic table is an Observation Table *)

Lemma maximum_floor (a b : Q) : (b <= maximum a b)%Q.
Proof.
  unfold maximum; destruct (Qlt_le_dec a b); [apply Qle_refl | assumption].
Qed.

Lemma sample_labels_fit :
  Forall (fun l => String.eqb l "Time" = false /\ startswith "pi_" l = true)
         (map (fun q => "pi_" ++ str_of_int q ++ "q") (range 1 41)).
Proof.
  apply Forall_forall; intros l Hl.
  assert (H : forallb (fun l => negb (String.eqb l "Time") && startswith "pi_" l)
                (map (fun q => "pi_" ++ str_of_int q ++ "q") (range 1 41)) = true)
    by (vm_compute; reflexivity).
  rewrite forallb_forall in H; specialize (H l Hl).
  apply andb_true_iff in H as [Hne Hpre]; split; [| assumption].
  destruct (String.eqb l "Time"); [discriminate | reflexivity].
Qed.

Lemma sample_horizons_parsed :
  for_each horizon_value (filter (startswith "pi_") sample_columns) = Ok (range 1 41).
Proof. vm_compute; reflexivity. Qed.

Section SampleTable.

Variable rng_state : Type.
Variable seed : Z -> rng_state.
Variable normal : Q -> Q -> rng_state -> Q * rng_state.
Variable sin : Q -> Q.

Lemma horizon_series_floored (n : nat) (qs : list Z) (st : rng_state) :
  Forall (fun kv => Forall floored (snd kv)) (fst (horizon_series normal sin n qs st)).
Proof.
  revert st; induction qs as [| q qs IH]; intros st; simpl; [constructor |].
  destruct (normal_n normal 0 (2 # 10) n st) as [noise st1].
  specialize (IH st1).
  destruct (horizon_series normal sin n qs st1) as [rest st2].
  simpl in *; constructor; [| assumption].
  simpl; apply Forall_forall; intros c Hc.
  apply in_map_iff in Hc as [v [<- Hv]].
  apply in_map_iff in Hv as [w [<- _]].
  eexists; split; [reflexivity | apply maximum_floor].
Qed.

(** The rows of the synthetic table: a parsed date, then one floored float
    per horizon column. *)
Lemma load_sample_data_rows (st : rng_state) :
  exists df,
    fst (load_sample_data seed normal sin st) = Ok df
    /\ columns df = sample_columns
    /\ forall row, In row (rows df) ->
         exists (t : Timestamp) (cells : list cell),
           row = Stamp t :: cells
           /\ List.length cells = 40%nat
           /\ Forall floored cells.
Proof.
  unfold load_sample_data.
  destruct (horizon_series_shape rng_state normal sin
              (List.length sample_quarters) (range 1 41) (seed 42)) as [Hlen Hlab].
  pose proof (horizon_series_floored (List.length sample_quarters) (range 1 41) (seed 42))
    as Hfloor.
  destruct (horizon_series normal sin (List.length sample_quarters) (range 1 41) (seed 42))
    as [series st'].
  cbn [fst snd] in *.
  rewrite from_columns_ok
    by (eapply Forall_impl; [| exact Hlen]; intros kv ->; symmetry; apply length_map).
  cbn [bind].
  set (df0 := mkDataFrame _ _).
  assert (Htime : column df0 "Time" = Ok (map Str sample_quarters)).
  { unfold column, df0; cbn [columns rows index_of String.eqb Ascii.eqb Bool.eqb].
    rewrite map_map; cbn [nth].
    rewrite map_nth_seq; reflexivity. }
  rewrite Htime; cbn [bind].
  rewrite (for_each_to_datetime_dmY _ _ sample_dates_parsed); cbn [bind].
  pose proof (for_each_length _ _ _ sample_dates_parsed) as Hdates.
  unfold set_column.
  replace (index_of "Time" (columns df0)) with (Some 0%nat) by reflexivity.
  replace (List.length (map Stamp sample_dates) =? List.length (rows df0))%nat with true
    by (symmetry; apply Nat.eqb_eq; unfold df0; cbn [rows];
        rewrite !length_map, length_seq; exact Hdates).
  eexists; split; [reflexivity |]; cbn [columns rows]; split.
  - unfold df0, sample_columns; cbn [columns]; rewrite Hlab; reflexivity.
  - intros row Hrow.
    apply in_map_iff in Hrow as [[row0 v] [<- Hpair]]; cbn [fst snd].
    pose proof (in_combine_l _ _ _ _ Hpair) as Hrow0.
    pose proof (in_combine_r _ _ _ _ Hpair) as Hv.
    apply in_map_iff in Hv as [t [<- _]].
    unfold df0 in Hrow0; cbn [rows] in Hrow0.
    apply in_map_iff in Hrow0 as [i [<- Hi]].
    apply in_seq in Hi; rewrite length_map in Hi.
    exists t; eexists; split; [reflexivity |]; split.
    + rewrite length_map.
      assert (Hl : List.length (map fst series) = 40%nat)
        by (rewrite Hlab; reflexivity).
      rewrite length_map in Hl; exact Hl.
    + apply Forall_forall; intros c Hc.
      apply in_map_iff in Hc as [kv [<- Hkv]].
      rewrite Forall_forall in Hlen, Hfloor.
      specialize (Hlen kv Hkv); specialize (Hfloor kv Hkv).
      rewrite Forall_forall in Hfloor; apply Hfloor.
      apply nth_In; lia.
Qed.

End SampleTable.

(** X6: whatever the random generator and the sine are, the table of the
    synthetic generator is an Observation Table; its horizon columns read
    as the horizons 1 to 40 in ascending order; no horizon cell is missing
    and every one holds a value of at least 0.5; so the lower end of its
    global value range is at least 0.3. *)
Theorem sample_table_observation (rng_state : Type) (seed : Z -> rng_state)
    (normal : Q -> Q -> rng_state -> Q * rng_state) (sin : Q -> Q)
    (st : rng_state) :
  exists df,
    fst (load_sample_data seed normal sin st) = Ok df
    /\ observation_table df = true
    /\ for_each horizon_value (horizon_columns df) = Ok (range 1 41)
    /\ (forall row col, In row (rows df) -> In col (horizon_columns df) ->
          exists q, row_get (columns df) row col = Ok (Num q) /\ (5 # 10 <= q)%Q)
    /\ (exists lo hi, get_global_y_range df = Ok [lo; hi] /\ (3 # 10 <= lo)%Q).
Proof.
  destruct (load_sample_data_rows rng_state seed normal sin st)
    as [df [Hdf [Hcols Hrows]]].
  destruct (load_sample_data_table rng_state seed normal sin st)
    as [df' [Hdf' [_ [_ Hcount]]]].
  rewrite Hdf in Hdf'; injection Hdf' as <-.
  assert (Hcell : forall row col, In row (rows df) -> In col (horizon_columns df) ->
            exists q, row_get (columns df) row col = Ok (Num q) /\ (5 # 10 <= q)%Q).
  { intros row col Hrow Hcol.
    destruct (Hrows row Hrow) as [t [cells [-> [Hlen Hfloor]]]].
    apply horizon_columns_In in Hcol as [Hin Hpre].
    destruct (index_of_In _ _ Hin) as [k Hk].
    unfold row_get; rewrite Hk.
    pose proof (index_of_nth_error _ _ _ Hk) as Hnth.
    destruct k as [| j].
    - rewrite Hcols in Hnth; injection Hnth as <-; discriminate Hpre.
    - assert (Hj : (j < 40)%nat).
      { assert (Hsome : nth_error (columns df) (S j) <> None)
          by (rewrite Hnth; discriminate).
        apply nth_error_Some in Hsome; rewrite Hcols in Hsome.
        change (List.length sample_columns) with 41%nat in Hsome; lia. }
      cbn [nth].
      rewrite Forall_forall in Hfloor.
      destruct (Hfloor (nth j cells NaN)) as [q [Hq Hge]];
        [apply nth_In; lia |].
      exists q; rewrite Hq; split; [reflexivity | assumption]. }
  assert (Hobs : observation_table df = true).
  { unfold observation_table, horizon_columns; rewrite Hcols.
    rewrite !andb_true_iff; split; [split; [split |] |].
    - vm_compute; reflexivity.
    - vm_compute; reflexivity.
    - vm_compute; reflexivity.
    - apply forallb_forall; intros row Hrow.
      destruct (Hrows row Hrow) as [t [cells [-> [Hlen Hfloor]]]].
      apply andb_true_iff; split.
      + apply Nat.eqb_eq; cbn [List.length]; rewrite Hlen; reflexivity.
      + unfold sample_columns; cbn [combine forallb fst snd].
        apply andb_true_iff; split; [reflexivity |].
        apply forallb_forall; intros [l c] Hlc; cbn [fst snd].
        pose proof (in_combine_l _ _ _ _ Hlc) as Hl.
        pose proof (in_combine_r _ _ _ _ Hlc) as Hc.
        pose proof sample_labels_fit as Hfit.
        rewrite Forall_forall in Hfit, Hfloor.
        destruct (Hfit l Hl) as [Hne Hpre].
        destruct (Hfloor c Hc) as [q [-> _]].
        unfold cell_fits; rewrite Hne, Hpre; reflexivity. }
  exists df.
  split; [assumption |].
  split; [assumption |].
  split; [unfold horizon_columns; rewrite Hcols; apply sample_horizons_parsed |].
  split; [assumption |].
  destruct (all_values_floats df Hobs) as [qs [Hall Hin]].
  rewrite (get_global_y_range_floats df qs Hall).
  destruct qs as [| q qs'].
  - exfalso.
    destruct (rows df) as [| row rest] eqn:Hr; [discriminate Hcount |].
    assert (Hrow : In row (row :: rest)) by (left; reflexivity).
    assert (Hcol : In "pi_1q" (horizon_columns df))
      by (unfold horizon_columns; rewrite Hcols; vm_compute; auto).
    destruct (Hcell row "pi_1q" Hrow Hcol) as [v [Hv _]].
    apply (Hin v); exists "pi_1q", row; rewrite Hr; split; [| split]; assumption.
  - destruct (py_min_spec q qs') as [Hmin _].
    apply Hin in Hmin as [col [row [Hcol [Hrow Hget]]]].
    destruct (Hcell row col Hrow Hcol) as [v [Hv Hge]].
    rewrite Hget in Hv; injection Hv as Hv.
    eexists; eexists; split; [reflexivity |].
    rewrite Hv; lra.
Qed.

(** ** The loader: fallback and reading *)

Lemma not_In_existsb (label : string) (cols : list string) :
  ~ In label cols -> existsb (String.eqb label) cols = false.
Proof.
  intros Hnot; apply Bool.not_true_is_false; intros H.
  apply existsb_eqb_In in H; contradiction.
Qed.

Lemma not_In_index_of (label : string) (cols : list string) :
  ~ In label cols -> index_of label cols = None.
Proof.
  intros Hnot; destruct (index_of label cols) as [j |] eqn:Hj; [| reflexivity].
  exfalso; apply Hnot.
  apply index_of_nth_error in Hj; eapply nth_error_In; eassumption.
Qed.

Lemma round_numeric_columns (decimals : Z) (df : DataFrame) :
  columns (round_numeric decimals df) = columns df.
Proof. reflexivity. Qed.

(** X7: the loader answers with the synthetic table, and reseeds the random
    generator, when the reader raises (for a missing file or for any other
    reason), when the sheet has no column at all, and when the sheet has no
    Time column and its first column is pi_1q or pi_2q: a sheet of horizon
    columns without dates is replaced by synthetic data. *)
Theorem load_data_falls_back (rng_state : Type) (seed : Z -> rng_state)
    (normal : Q -> Q -> rng_state -> Q * rng_state) (sin : Q -> Q)
    (read_excel : string -> result DataFrame)
    (to_datetime : list cell -> result (list (option Timestamp)))
    (country_code : string) (st : rng_state)
    (Hcase :
       (exists e, read_excel (sheet_path country_code) = Raise e)
       \/ (exists raw,
             read_excel (sheet_path country_code) = Ok raw
             /\ ~ In "Time" (map remove_spaces (columns raw))
             /\ (columns raw = []
                 \/ exists first rest,
                      map remove_spaces (columns raw) = first :: rest
                      /\ (first = "pi_1q" \/ first = "pi_2q")))) :
  load_data seed normal sin read_excel to_datetime country_code st
  = load_sample_data seed normal sin st.
Proof.
  unfold load_data; fold (sheet_path country_code).
  destruct Hcase as [[e Hread] | [raw [Hread [Hnotime Hfirst]]]].
  - rewrite Hread; cbn [bind]; destruct e; reflexivity.
  - rewrite Hread; cbn [bind].
    rewrite !round_numeric_columns; cbn [columns].
    rewrite (not_In_existsb "Time" _ Hnotime).
    destruct Hfirst as [Hnil | [first [rest [Hcols Hname]]]].
    + rewrite Hnil; reflexivity.
    + assert (Hget : getitem (map remove_spaces (columns raw)) 0 = Ok first)
        by (rewrite Hcols; reflexivity).
      rewrite Hget; cbn [bind].
      replace (existsb (String.eqb first) ["pi_1q"; "pi_2q"]) with true
        by (destruct Hname as [-> | ->]; reflexivity).
      cbn [negb bind]; unfold sort_values.
      rewrite !round_numeric_columns; cbn [columns].
      rewrite (not_In_index_of "Time" _ Hnotime); reflexivity.
Qed.

Lemma load_data_falls_back_witness :
  load_data (fun _ => tt) (fun _ _ st => (0%Q, st)) (fun _ => 0%Q)
    (fun _ => Ok horizons_only_sheet) keep_timestamps "de" tt
  = load_sample_data (fun _ => tt) (fun _ _ st => (0%Q, st)) (fun _ => 0%Q) tt.
Proof.
  apply (load_data_falls_back unit (fun _ => tt) (fun _ _ st => (0%Q, st))
           (fun _ => 0%Q) (fun _ => Ok horizons_only_sheet) keep_timestamps "de" tt).
  right; exists horizons_only_sheet; split; [reflexivity |]; split.
  - simpl; intros [H | [H | []]]; discriminate H.
  - right; exists "pi_1q", ["pi_2q"]; split; [reflexivity | left; reflexivity].
Defined.




Section ParseAndSort.

Variable to_datetime : list cell -> result (list (option Timestamp)).

(** The date parser answers on every column, one date per cell. *)
Hypothesis to_datetime_total :
  forall cells, exists parsed,
    to_datetime cells = Ok parsed /\ List.length parsed = List.length cells.


End ParseAndSort.







Section ReadSheet.

Variable rng_state : Type.
Variable seed : Z -> rng_state.
Variable normal : Q -> Q -> rng_state -> Q * rng_state.
Variable sin : Q -> Q.
Variable read_excel : string -> result DataFrame.
Variable to_datetime : list cell -> result (list (option Timestamp)).

Hypothesis to_datetime_total :
  forall cells, exists parsed,
    to_datetime cells = Ok parsed /\ List.length parsed = List.length cells.


End ReadSheet.







(** ** The overview chart *)

Lemma existsb_horizon_columns (df : DataFrame) (col : string) :
  startswith "pi_" col = true ->
  existsb (String.eqb col) (horizon_columns df) = existsb (String.eqb col) (columns df).
Proof.
  intros Hpre; unfold horizon_columns.
  induction (columns df) as [| c cols IH]; [reflexivity |].
  simpl; destruct (startswith "pi_" c) eqn:Hc; simpl; rewrite IH; [reflexivity |].
  destruct (String.eqb_spec col c) as [<- | _]; [| reflexivity].
  rewrite Hpre in Hc; discriminate.
Qed.

Lemma selected_horizons_prefixed :
  Forall (fun h : string * string * string => startswith "pi_" (fst (fst h)) = true)
         selected_horizons.
Proof. repeat constructor. Qed.

(** The loop of the overview, once the global range has been computed. *)
Lemma overview_loop (df : DataFrame) (hs : list (string * string * string)) :
  Forall (fun h : string * string * string => startswith "pi_" (fst (fst h)) = true) hs ->
  (In "Time" (columns df)
   \/ forall h, In h hs -> ~ In (fst (fst h)) (columns df)) ->
  for_each
    (fun h : string * string * string =>
       let '(horizon_col, label, color) := h in
       if existsb (String.eqb horizon_col) (horizon_columns df) then
         x <- column df "Time" ;;
         y <- column df horizon_col ;;
         Ok [mkTimeSeries x y "lines" label color 2
               ("%{x}<br>" ++ label ++ ": %{y:.3f}%<extra></extra>")]
       else Ok [])
    hs
  = Ok (map (fun h => if existsb (String.eqb (fst (fst h))) (columns df)
                      then [overview_trace df h] else []) hs).
Proof.
  intros Hpre Htime; apply for_each_map_in.
  intros [[col label] color] Hh; cbn [fst snd].
  rewrite Forall_forall in Hpre.
  rewrite (existsb_horizon_columns df col (Hpre _ Hh)).
  destruct (existsb (String.eqb col) (columns df)) eqn:Hex; [| reflexivity].
  apply existsb_eqb_In in Hex.
  destruct Htime as [Htime | Hnone]; [| exfalso; apply (Hnone _ Hh); exact Hex].
  rewrite (column_cells_of df "Time" Htime), (column_cells_of df col Hex).
  reflexivity.
Qed.

Lemma concat_present {A B : Type} (p : A -> bool) (g : A -> B) (xs : list A) :
  List.concat (map (fun a => if p a then [g a] else []) xs) = map g (filter p xs).
Proof.
  induction xs as [| a xs IH]; [reflexivity |].
  simpl; destruct (p a); simpl; rewrite IH; reflexivity.
Qed.

(** X10: for an Observation Table the overview has exactly one line per
    curated horizon that is a column of the table, in the order of the
    curated list (not of the table); a horizon column outside the curated
    list is not drawn.  Every line has the Time column as x values and the
    horizon column as y values, one point per row, with the label and the
    colour of the curated entry. *)
Theorem overview_series (df : DataFrame)
    (Hobs : observation_table df = true) :
  exists traces,
    create_timeseries_overview_chart df = Ok traces
    /\ traces = map (overview_trace df) (curated_present df)
    /\ (List.length traces <= 11)%nat
    /\ Forall2
         (fun (h : string * string * string) trace =>
            In (fst (fst h)) (columns df)
            /\ column df "Time" = Ok (ts_x trace)
            /\ column df (fst (fst h)) = Ok (ts_y trace)
            /\ List.length (ts_x trace) = List.length (rows df)
            /\ List.length (ts_y trace) = List.length (rows df)
            /\ ts_name trace = snd (fst h)
            /\ ts_line_color trace = snd h)
         (curated_present df) traces.
Proof.
  pose proof (observation_table_time df Hobs) as Htime.
  unfold create_timeseries_overview_chart.
  destruct (get_global_y_range_ok df Hobs) as [range ->]; cbn [bind].
  rewrite (overview_loop df selected_horizons selected_horizons_prefixed
             (or_introl Htime)); cbn [bind].
  rewrite (concat_present
             (fun h : string * string * string =>
                existsb (String.eqb (fst (fst h))) (columns df))
             (overview_trace df)).
  fold (curated_present df).
  eexists; split; [reflexivity |]; split; [reflexivity |]; split.
  - rewrite length_map; unfold curated_present.
    eapply Nat.le_trans; [apply filter_length_le | apply Nat.le_refl].
  - assert (Hall : forall h, In h (curated_present df) -> In (fst (fst h)) (columns df)).
    { intros h Hh; unfold curated_present in Hh.
      apply filter_In in Hh as [_ Hex]; apply existsb_eqb_In; exact Hex. }
    induction (curated_present df) as [| h hs IH]; [constructor |].
    simpl; constructor.
    + pose proof (Hall h (or_introl eq_refl)) as Hin.
      unfold overview_trace; cbn [ts_x ts_y ts_name ts_line_color].
      repeat split; try assumption.
      * apply column_cells_of; assumption.
      * apply column_cells_of; assumption.
      * unfold cells_of; destruct (index_of_In _ _ Htime) as [j ->]; apply length_map.
      * unfold cells_of; destruct (index_of_In _ _ Hin) as [j ->]; apply length_map.
    + apply IH; intros h' Hh'; apply Hall; right; assumption.
Qed.

Lemma overview_series_witness :
  exists traces,
    create_timeseries_overview_chart uncurated_table = Ok traces
    /\ map ts_name traces = ["1 Quartal"; "2 Quartale"].
Proof.
  destruct (overview_series uncurated_table eq_refl) as [traces [Hrun [Heq _]]].
  exists traces; split; [exact Hrun | rewrite Heq; reflexivity].
Defined.

(** X11: the overview computes the global range without using it, so an
    exception of that computation ends the overview.  When the range is
    computed: a table with none of the curated horizon columns gives a figure
    without a line, whatever else it holds (a Time column is not needed), and
    a table with a curated horizon column and no Time column raises
    KeyError. *)
Theorem overview_edges (df : DataFrame) :
  (forall e, get_global_y_range df = Raise e ->
     create_timeseries_overview_chart df = Raise e)
  /\ (forall range, get_global_y_range df = Ok range ->
        curated_present df = [] ->
        create_timeseries_overview_chart df = Ok [])
  /\ (forall range, get_global_y_range df = Ok range ->
        curated_present df <> [] -> ~ In "Time" (columns df) ->
        create_timeseries_overview_chart df = Raise KeyError).
Proof.
  unfold create_timeseries_overview_chart; repeat split.
  - intros e ->; reflexivity.
  - intros range -> Hnone; cbn [bind].
    rewrite (overview_loop df selected_horizons selected_horizons_prefixed).
    + cbn [bind].
      rewrite (concat_present
                 (fun h : string * string * string =>
                    existsb (String.eqb (fst (fst h))) (columns df))
                 (overview_trace df)).
      fold (curated_present df); rewrite Hnone; reflexivity.
    + right; intros h Hh Hin.
      assert (Hp : In h (curated_present df)).
      { unfold curated_present; apply filter_In; split; [exact Hh |].
        apply existsb_eqb_In; exact Hin. }
      rewrite Hnone in Hp; destruct Hp.
  - intros range -> Hsome Hnotime; cbn [bind].
    destruct (curated_present df) as [| h hs] eqn:Hp; [contradiction |].
    assert (Hh : In h (curated_present df)) by (rewrite Hp; left; reflexivity).
    unfold curated_present in Hh; apply filter_In in Hh as [Hh Hex].
    match goal with |- context [for_each ?f _] => set (step := f) end.
    rewrite (for_each_raises_only step selected_horizons h KeyError Hh);
      [reflexivity | |].
    + unfold step; destruct h as [[col label] color]; cbn [fst snd] in *.
      pose proof selected_horizons_prefixed as Hpre.
      rewrite Forall_forall in Hpre.
      rewrite (existsb_horizon_columns df col (Hpre _ Hh)), Hex.
      unfold column; rewrite (not_In_index_of "Time" _ Hnotime); reflexivity.
    + intros [[col label] color] e _; unfold step.
      destruct (existsb (String.eqb col) (horizon_columns df)); [| discriminate].
      unfold column at 1; rewrite (not_In_index_of "Time" _ Hnotime).
      intros H; injection H as <-; reflexivity.
Qed.

Lemma overview_edges_witness :
  create_timeseries_overview_chart (mkDataFrame ["pi_5q"] [[Num 1]]) = Ok []
  /\ create_timeseries_overview_chart (mkDataFrame ["pi_1q"] [[Num 1]])
     = Raise KeyError.
Proof.
  split.
  - apply (proj1 (proj2 (overview_edges (mkDataFrame ["pi_5q"] [[Num 1]])))
             [8 # 10; 12 # 10]%Q); reflexivity.
  - apply (proj2 (proj2 (overview_edges (mkDataFrame ["pi_1q"] [[Num 1]])))
             [8 # 10; 12 # 10]%Q).
    + reflexivity.
    + discriminate.
    + simpl; intros [H | []]; discriminate H.
Defined.

(** ** The evolution chart and its tab *)

Lemma py_getitem_nth {A : Type} (xs : list A) (i : nat) (a : A) :
  nth_error xs i = Some a ->
  py_getitem xs (Z.of_nat i) = Ok a
  /\ py_getitem xs (Z.of_nat i - Z.of_nat (List.length xs)) = Ok a.
Proof.
  intros Hnth.
  assert (Hlt : (i < List.length xs)%nat)
    by (apply nth_error_Some; rewrite Hnth; discriminate).
  assert (H1 : (Z.of_nat i <? 0) = false) by (apply Z.ltb_ge; lia).
  assert (H2 : (Z.of_nat (List.length xs) <=? Z.of_nat i) = false)
    by (apply Z.leb_gt; lia).
  assert (H3 : (Z.of_nat i - Z.of_nat (List.length xs) <? 0) = true)
    by (apply Z.ltb_lt; lia).
  unfold py_getitem, getitem; split.
  - rewrite H1; cbv iota; rewrite H1, H2; cbn [orb].
    rewrite Nat2Z.id, Hnth; reflexivity.
  - rewrite H3; cbv iota.
    replace (Z.of_nat i - Z.of_nat (List.length xs) + Z.of_nat (List.length xs))
      with (Z.of_nat i) by lia.
    rewrite H1, H2; cbn [orb].
    rewrite Nat2Z.id, Hnth; reflexivity.
Qed.

Lemma py_getitem_out_of_range {A : Type} (xs : list A) (i : Z) :
  i < - Z.of_nat (List.length xs) \/ Z.of_nat (List.length xs) <= i ->
  py_getitem xs i = Raise IndexError.
Proof.
  intros Hout; unfold py_getitem.
  destruct (i <? 0) eqn:Hneg; cbv iota.
  - apply Z.ltb_lt in Hneg.
    replace (i + Z.of_nat (List.length xs) <? 0) with true
      by (symmetry; apply Z.ltb_lt; lia).
    reflexivity.
  - rewrite Hneg; apply Z.ltb_ge in Hneg.
    replace (Z.of_nat (List.length xs) <=? i) with true
      by (symmetry; apply Z.leb_le; lia).
    reflexivity.
Qed.

Lemma py_getitem_in_range {A : Type} (xs : list A) (i : Z) :
  - Z.of_nat (List.length xs) <= i < Z.of_nat (List.length xs) ->
  exists a, py_getitem xs i = Ok a.
Proof.
  intros Hin.
  destruct (Z_lt_ge_dec i 0) as [Hneg | Hpos].
  - destruct (nth_error xs (Z.to_nat (i + Z.of_nat (List.length xs)))) as [a |] eqn:Hnth.
    + exists a; destruct (py_getitem_nth xs _ a Hnth) as [_ H].
      rewrite Z2Nat.id in H by lia.
      replace (i + Z.of_nat (List.length xs) - Z.of_nat (List.length xs)) with i in H by lia.
      exact H.
    + apply nth_error_None in Hnth; lia.
  - destruct (nth_error xs (Z.to_nat i)) as [a |] eqn:Hnth.
    + exists a; destruct (py_getitem_nth xs _ a Hnth) as [H _].
      rewrite Z2Nat.id in H by lia; exact H.
    + apply nth_error_None in Hnth; lia.
Qed.

(** The comprehension over [range(len(curves_data))] reads the labels of
    all records, in order. *)
Lemma quarter_labels_dropdown_eq (curves_data : list CurveRecord) :
  for_each (fun i => curve <- py_getitem curves_data i ;; Ok (quarter_label curve))
           (range 0 (Z.of_nat (List.length curves_data)))
  = Ok (map quarter_label curves_data).
Proof.
  unfold range; rewrite Z.sub_0_r, Nat2Z.id.
  assert (H : forall (g : CurveRecord -> string) (d : CurveRecord),
            for_each (fun i => curve <- py_getitem curves_data i ;; Ok (g curve))
                     (map (fun i => 0 + Z.of_nat i) (seq 0 (List.length curves_data)))
            = Ok (map (fun i => g (nth i curves_data d))
                      (seq 0 (List.length curves_data)))).
  { intros g d.
    rewrite (for_each_map_in _ (fun z => g (nth (Z.to_nat z) curves_data d))).
    - rewrite map_map; f_equal; apply map_ext; intros i.
      rewrite Z.add_0_l, Nat2Z.id; reflexivity.
    - intros z Hz; apply in_map_iff in Hz as [i [<- Hi]].
      apply in_seq in Hi; rewrite Z.add_0_l.
      destruct (nth_error curves_data i) as [a |] eqn:Hnth.
      + destruct (py_getitem_nth curves_data i a Hnth) as [-> _]; cbn [bind].
        rewrite Nat2Z.id, (nth_error_nth _ _ d Hnth); reflexivity.
      + apply nth_error_None in Hnth; lia. }
  destruct curves_data as [| c cs]; [reflexivity |].
  rewrite (H quarter_label c).
  rewrite <- (map_map (fun i => nth i (c :: cs) c) quarter_label), map_nth_seq.
  reflexivity.
Qed.

Lemma list_index_first (xs : list string) (v : string) (i : nat) :
  nth_error xs i = Some v ->
  (forall j, (j < i)%nat -> nth_error xs j <> Some v) ->
  list_index xs v = Ok (Z.of_nat i).
Proof.
  revert i; induction xs as [| a xs IH]; intros i Hnth Hfirst;
    [destruct i; discriminate |].
  simpl; destruct (String.eqb_spec a v) as [-> | Hne].
  - destruct i as [| i]; [reflexivity |].
    exfalso; apply (Hfirst 0%nat); [lia | reflexivity].
  - destruct i as [| i]; simpl in Hnth; [injection Hnth as ->; contradiction |].
    rewrite (IH i Hnth); [cbn [bind]; f_equal; lia |].
    intros j Hj; apply (Hfirst (S j)); lia.
Qed.

Lemma list_index_absent (xs : list string) (v : string) :
  ~ In v xs -> list_index xs v = Raise ValueError.
Proof.
  induction xs as [| a xs IH]; intros Hnot; [reflexivity |].
  simpl; destruct (String.eqb_spec a v) as [-> | _];
    [exfalso; apply Hnot; left; reflexivity |].
  rewrite IH; [reflexivity | intros H; apply Hnot; right; assumption].
Qed.

(** X12: for an Observation Table and its curve records, the evolution
    chart at the position of a row holds one series: the horizons of the
    table against the horizon cells of that row, named and titled with the
    quarter label of the row; the same chart is obtained with the position
    counted from the end as a negative index.  The y axis is fixed to the
    global range exactly when the option is set. *)
Theorem evolution_chart_curve (df : DataFrame) (curves_data : list CurveRecord)
    (i : nat) (row : list cell) (use_fixed_scale : bool)
    (Hobs : observation_table df = true)
    (Hcurves : prepare_curve_data df = Ok curves_data)
    (Hrow : nth_error (rows df) i = Some row) :
  exists (fig : EvolutionFigure) (trace : EvolutionTrace) (t : Timestamp) (hv : list Z),
    create_evolution_chart curves_data (Z.of_nat i) df use_fixed_scale = Ok fig
    /\ create_evolution_chart curves_data
         (Z.of_nat i - Z.of_nat (List.length (rows df))) df use_fixed_scale = Ok fig
    /\ ev_data fig = [trace]
    /\ row_get (columns df) row "Time" = Ok (Stamp t)
    /\ ev_name trace = "Strukturkurve " ++ format_quarter t
    /\ title (ev_layout fig) = "Strukturkurve - " ++ format_quarter t
    /\ for_each horizon_value (horizon_columns df) = Ok hv
    /\ ev_x trace = hv
    /\ Forall2 (fun col v => row_get (columns df) row col = Ok v)
               (horizon_columns df) (ev_y trace)
    /\ (use_fixed_scale = false -> yaxis_range (ev_layout fig) = None)
    /\ (use_fixed_scale = true ->
        exists r, get_global_y_range df = Ok r
                  /\ yaxis_range (ev_layout fig) = Some r).
Proof.
  destruct (prepare_curve_data_rows df Hobs) as [hv [recs [Hhv [Hrecs Hall]]]].
  rewrite Hcurves in Hrecs; injection Hrecs as <-.
  destruct (Forall2_nth_error_l _ _ _ Hall i row Hrow)
    as [rec [Hrec [Hdate [Hlabel [Hhor Hvals]]]]].
  destruct (observation_table_time_cell df row Hobs (nth_error_In _ _ Hrow)) as [t Ht].
  rewrite Ht in Hdate; injection Hdate as Hdate.
  rewrite <- Hdate in Hlabel; simpl in Hlabel; injection Hlabel as Hlabel.
  destruct (py_getitem_nth curves_data i rec Hrec) as [Hpos Hneg].
  rewrite <- (Forall2_length Hall) in Hneg.
  destruct (get_global_y_range_ok df Hobs) as [r Hr].
  unfold create_evolution_chart; rewrite Hpos, Hneg; cbn [bind].
  apply for_each_Forall2 in Hhv.
  destruct use_fixed_scale.
  - rewrite Hr; cbn [bind].
    eexists; eexists; exists t, hv; repeat split; cbn; try assumption;
      try (rewrite <- Hlabel; reflexivity).
    + discriminate.
    + intros _; exists r; split; reflexivity.
  - eexists; eexists; exists t, hv; repeat split; cbn; try assumption;
      try (rewrite <- Hlabel; reflexivity).
    discriminate.
Qed.

Lemma evolution_chart_curve_witness :
  exists fig,
    create_evolution_chart
      [mkCurveRecord (Stamp (mkTimestamp 1999 4 30)) "1999Q2" [1] [Num (21 # 10)];
       mkCurveRecord (Stamp (mkTimestamp 1999 6 30)) "1999Q2" [1] [Num (18 # 10)]]
      1 same_quarter_table true = Ok fig
    /\ create_evolution_chart
      [mkCurveRecord (Stamp (mkTimestamp 1999 4 30)) "1999Q2" [1] [Num (21 # 10)];
       mkCurveRecord (Stamp (mkTimestamp 1999 6 30)) "1999Q2" [1] [Num (18 # 10)]]
      (-1) same_quarter_table true = Ok fig.
Proof.
  destruct (evolution_chart_curve same_quarter_table
              [mkCurveRecord (Stamp (mkTimestamp 1999 4 30)) "1999Q2" [1] [Num (21 # 10)];
               mkCurveRecord (Stamp (mkTimestamp 1999 6 30)) "1999Q2" [1] [Num (18 # 10)]]
              1 [Stamp (mkTimestamp 1999 6 30); Num (18 # 10)] true
              eq_refl eq_refl eq_refl)
    as [fig [_ [_ [_ [Hpos [Hneg _]]]]]].
  exists fig; split; [exact Hpos | exact Hneg].
Defined.

(** X13: the evolution chart raises IndexError when the selected index is
    outside the records, counting negative indices from the end: below minus
    the number of records, or at or above that number; so it raises for every
    index when there is no record, and it does so before the global range is
    looked at.  Inside these bounds, and with the free scale, it returns a
    chart. *)
Theorem evolution_chart_bounds (curves_data : list CurveRecord) (selected_idx : Z)
    (df : DataFrame) :
  (selected_idx < - Z.of_nat (List.length curves_data)
   \/ Z.of_nat (List.length curves_data) <= selected_idx ->
   forall use_fixed_scale,
     create_evolution_chart curves_data selected_idx df use_fixed_scale
     = Raise IndexError)
  /\ (- Z.of_nat (List.length curves_data) <= selected_idx
        < Z.of_nat (List.length curves_data) ->
      exists fig, create_evolution_chart curves_data selected_idx df false = Ok fig).
Proof.
  unfold create_evolution_chart; split.
  - intros Hout fixed.
    rewrite (py_getitem_out_of_range curves_data selected_idx Hout); reflexivity.
  - intros Hin.
    destruct (py_getitem_in_range curves_data selected_idx Hin) as [rec ->].
    cbn [bind]; eauto.
Qed.

Lemma evolution_chart_bounds_witness :
  create_evolution_chart [] 0 two_quarter_table true = Raise IndexError
  /\ exists fig,
       create_evolution_chart [mkCurveRecord NaT "nanQ4" [] []] (-1)
         two_quarter_table false = Ok fig.
Proof.
  split.
  - apply (proj1 (evolution_chart_bounds [] 0 two_quarter_table)); simpl; lia.
  - apply (proj2 (evolution_chart_bounds [mkCurveRecord NaT "nanQ4" [] []] (-1)
                    two_quarter_table)); simpl; lia.
Defined.

(** X14: the evolution tab raises IndexError when there is no curve record
    (a table without rows): the default of the slider is the last label of an
    empty list.  With records, a label that none of them carries raises
    ValueError. *)
Theorem evolution_tab_raises (curves_data : list CurveRecord) (df : DataFrame)
    (selected_quarter_label : string) (use_fixed_y_axis_evolution : bool) :
  (curves_data = [] ->
   evolution_tab curves_data df selected_quarter_label use_fixed_y_axis_evolution
   = Raise IndexError)
  /\ (curves_data <> [] ->
      ~ In selected_quarter_label (map quarter_label curves_data) ->
      evolution_tab curves_data df selected_quarter_label use_fixed_y_axis_evolution
      = Raise ValueError).
Proof.
  unfold evolution_tab; rewrite quarter_labels_dropdown_eq; cbn [bind]; split.
  - intros ->; reflexivity.
  - intros Hne Hnot.
    destruct (py_getitem_in_range (map quarter_label curves_data) (-1)) as [d ->].
    + rewrite length_map; destruct curves_data; [contradiction | simpl; lia].
    + cbn [bind]; rewrite (list_index_absent _ _ Hnot); reflexivity.
Qed.

Lemma evolution_tab_raises_witness :
  evolution_tab [] missing_horizon_table "1999Q1" false = Raise IndexError
  /\ evolution_tab [mkCurveRecord (Stamp (mkTimestamp 1999 3 31)) "1999Q1" [1] [NaN]]
       missing_horizon_table "2031Q1" false = Raise ValueError.
Proof.
  split.
  - apply (proj1 (evolution_tab_raises [] missing_horizon_table "1999Q1" false)).
    reflexivity.
  - apply (proj2 (evolution_tab_raises
                    [mkCurveRecord (Stamp (mkTimestamp 1999 3 31)) "1999Q1" [1] [NaN]]
                    missing_horizon_table "2031Q1" false)).
    + discriminate.
    + simpl; intros [H | []]; discriminate H.
Defined.

Lemma nth_error_map_Some {A B : Type} (f : A -> B) (xs : list A) (i : nat) (a : A) :
  nth_error xs i = Some a -> nth_error (map f xs) i = Some (f a).
Proof. intros H; rewrite nth_error_map, H; reflexivity. Qed.

Lemma metric_cell (vs : list cell) (k : nat) :
  vs <> [] ->
  exists c,
    (if (k <? List.length vs)%nat then py_getitem vs (Z.of_nat k)
     else py_getitem vs (-1)) = Ok c
    /\ nth_error vs (if (k <? List.length vs)%nat then k else (List.length vs - 1)%nat)
       = Some c.
Proof.
  intros Hne.
  destruct (k <? List.length vs)%nat eqn:Hk.
  - apply Nat.ltb_lt in Hk.
    destruct (nth_error vs k) as [c |] eqn:Hnth;
      [| apply nth_error_None in Hnth; lia].
    exists c; split; [apply (py_getitem_nth vs k c Hnth) | reflexivity].
  - assert (Hpos : (0 < List.length vs)%nat) by (destruct vs; [contradiction | simpl; lia]).
    destruct (nth_error vs (List.length vs - 1)) as [c |] eqn:Hnth;
      [| apply nth_error_None in Hnth; lia].
    exists c; split; [| reflexivity].
    destruct (py_getitem_nth vs _ c Hnth) as [_ H].
    replace (Z.of_nat (List.length vs - 1) - Z.of_nat (List.length vs)) with (-1) in H
      by lia.
    exact H.
Qed.

(** X15: in the evolution tab the selected label is resolved to the first
    record that carries it, so of several rows of one quarter only the first
    is ever shown.  The chart is the evolution chart of that record; the
    short-term metric is the first value of the record, the medium-term
    metric the eighth value and the long-term metric the twentieth value, by
    position among the horizon columns, each replaced by the last value when
    the record has no value at that position. *)
Theorem evolution_tab_first_match (curves_data : list CurveRecord) (df : DataFrame)
    (selected_quarter_label : string) (use_fixed_y_axis_evolution : bool)
    (i : nat) (rec : CurveRecord)
    (Hrec : nth_error curves_data i = Some rec)
    (Hlabel : quarter_label rec = selected_quarter_label)
    (Hfirst : forall j rec', (j < i)%nat -> nth_error curves_data j = Some rec' ->
        quarter_label rec' <> selected_quarter_label)
    (Hvalues : values rec <> [])
    (Hrange : use_fixed_y_axis_evolution = false
              \/ exists r, get_global_y_range df = Ok r) :
  exists fig short medium long,
    evolution_tab curves_data df selected_quarter_label use_fixed_y_axis_evolution
    = Ok (fig, (short, medium, long))
    /\ create_evolution_chart curves_data (Z.of_nat i) df use_fixed_y_axis_evolution
       = Ok fig
    /\ map ev_y (ev_data fig) = [values rec]
    /\ map ev_name (ev_data fig) = ["Strukturkurve " ++ selected_quarter_label]
    /\ nth_error (values rec) 0 = Some short
    /\ nth_error (values rec)
         (if (7 <? List.length (values rec))%nat then 7
          else (List.length (values rec) - 1))%nat = Some medium
    /\ nth_error (values rec)
         (if (19 <? List.length (values rec))%nat then 19
          else (List.length (values rec) - 1))%nat = Some long.
Proof.
  unfold evolution_tab; rewrite quarter_labels_dropdown_eq; cbn [bind].
  destruct (py_getitem_in_range (map quarter_label curves_data) (-1)) as [d ->].
  { rewrite length_map.
    assert (Hlt : (i < List.length curves_data)%nat)
      by (apply nth_error_Some; rewrite Hrec; discriminate).
    lia. }
  cbn [bind].
  rewrite (list_index_first (map quarter_label curves_data) selected_quarter_label i).
  2:{ rewrite (nth_error_map_Some quarter_label _ _ _ Hrec), Hlabel; reflexivity. }
  2:{ intros j Hj Hnth; rewrite nth_error_map in Hnth.
      destruct (nth_error curves_data j) as [rec' |] eqn:Hrec'; [| discriminate].
      injection Hnth as Hnth; apply (Hfirst j rec' Hj Hrec' Hnth). }
  cbn [bind].
  destruct (py_getitem_nth curves_data i rec Hrec) as [Hget _].
  assert (Hfig : exists fig,
            create_evolution_chart curves_data (Z.of_nat i) df use_fixed_y_axis_evolution
            = Ok fig
            /\ map ev_y (ev_data fig) = [values rec]
            /\ map ev_name (ev_data fig) = ["Strukturkurve " ++ selected_quarter_label]).
  { unfold create_evolution_chart; rewrite Hget; cbn [bind]; rewrite Hlabel.
    destruct Hrange as [-> | [r Hr]]; [eexists; repeat split |].
    rewrite Hr; destruct use_fixed_y_axis_evolution; cbn [bind];
      eexists; repeat split. }
  destruct Hfig as [fig [Hfig [Hy Hname]]].
  rewrite Hfig, Hget; cbn [bind].
  destruct (metric_cell (values rec) 0 Hvalues) as [short [Hshort Hshort']].
  destruct (metric_cell (values rec) 7 Hvalues) as [medium [Hmedium Hmedium']].
  destruct (metric_cell (values rec) 19 Hvalues) as [long [Hlong Hlong']].
  assert (H0 : (0 <? List.length (values rec))%nat = true)
    by (apply Nat.ltb_lt; destruct (values rec); [contradiction | simpl; lia]).
  rewrite H0 in Hshort, Hshort'.
  change (Z.of_nat 0) with 0 in Hshort.
  change (Z.of_nat 7) with 7 in Hmedium.
  change (Z.of_nat 19) with 19 in Hlong.
  rewrite Hshort; cbn [bind]; rewrite Hmedium; cbn [bind]; rewrite Hlong; cbn [bind].
  exists fig, short, medium, long; repeat split; assumption.
Qed.

Lemma evolution_tab_first_match_witness :
  exists fig short medium long,
    evolution_tab
      [mkCurveRecord (Stamp (mkTimestamp 1999 4 30)) "1999Q2" [1] [Num (21 # 10)];
       mkCurveRecord (Stamp (mkTimestamp 1999 6 30)) "1999Q2" [1] [Num (18 # 10)]]
      same_quarter_table "1999Q2" true
    = Ok (fig, (short, medium, long))
    /\ map ev_y (ev_data fig) = [[Num (21 # 10)]]
    /\ medium = Num (21 # 10).
Proof.
  destruct (evolution_tab_first_match
              [mkCurveRecord (Stamp (mkTimestamp 1999 4 30)) "1999Q2" [1] [Num (21 # 10)];
               mkCurveRecord (Stamp (mkTimestamp 1999 6 30)) "1999Q2" [1] [Num (18 # 10)]]
              same_quarter_table "1999Q2" true 0
              (mkCurveRecord (Stamp (mkTimestamp 1999 4 30)) "1999Q2" [1] [Num (21 # 10)]))
    as [fig [short [medium [long [Hrun [_ [Hy [_ [_ [Hmedium _]]]]]]]]]].
  - reflexivity.
  - reflexivity.
  - intros j rec' Hj; lia.
  - discriminate.
  - right; eexists; reflexivity.
  - exists fig, short, medium, long; repeat split; try assumption.
    simpl in Hmedium; injection Hmedium as <-; reflexivity.
Defined.

(** ** Download links *)

Lemma char_sextet_char (b5 b4 b3 b2 b1 b0 : bool) :
  char_sextet (sextet_char b5 b4 b3 b2 b1 b0) = Some (b5, b4, b3, b2, b1, b0).
Proof. destruct b5, b4, b3, b2, b1, b0; vm_compute; reflexivity. Qed.

Lemma sextet_char_not_pad (b5 b4 b3 b2 b1 b0 : bool) :
  Ascii.eqb (sextet_char b5 b4 b3 b2 b1 b0) "=" = false.
Proof. destruct b5, b4, b3, b2, b1, b0; vm_compute; reflexivity. Qed.

Lemma sextet_char_not_quote (b5 b4 b3 b2 b1 b0 : bool) :
  Ascii.eqb (sextet_char b5 b4 b3 b2 b1 b0) dquote = false.
Proof. destruct b5, b4, b3, b2, b1, b0; vm_compute; reflexivity. Qed.

Lemma b64_round_trip_steps (s : string) :
  b64decode (b64encode s) = Some s
  /\ (forall a, b64decode (b64encode (String a s)) = Some (String a s))
  /\ (forall a b,
        b64decode (b64encode (String a (String b s))) = Some (String a (String b s))).
Proof.
  induction s as [| c s [IH0 [IH1 IH2]]].
  - split; [reflexivity | split].
    + intros [a0 a1 a2 a3 a4 a5 a6 a7].
      cbn [b64encode b64decode]; rewrite !char_sextet_char; reflexivity.
    + intros [a0 a1 a2 a3 a4 a5 a6 a7] [b0 b1 b2 b3 b4 b5 b6 b7].
      cbn [b64encode b64decode].
      rewrite !char_sextet_char, sextet_char_not_pad; reflexivity.
  - split; [apply IH1 | split; [intros a; apply IH2 |]].
    intros [a0 a1 a2 a3 a4 a5 a6 a7] [b0 b1 b2 b3 b4 b5 b6 b7].
    destruct c as [c0 c1 c2 c3 c4 c5 c6 c7].
    cbn [b64encode b64decode].
    rewrite !char_sextet_char, !sextet_char_not_pad, IH0; reflexivity.
Qed.

Lemma b64encode_no_quote_steps (s : string) :
  Forall (fun k => Ascii.eqb k dquote = false) (list_ascii_of_string (b64encode s))
  /\ (forall a, Forall (fun k => Ascii.eqb k dquote = false)
                       (list_ascii_of_string (b64encode (String a s))))
  /\ (forall a b, Forall (fun k => Ascii.eqb k dquote = false)
                         (list_ascii_of_string (b64encode (String a (String b s))))).
Proof.
  induction s as [| c s [IH0 [IH1 IH2]]].
  - split; [constructor | split].
    + intros [a0 a1 a2 a3 a4 a5 a6 a7]; cbn [b64encode list_ascii_of_string].
      repeat (constructor; [first [apply sextet_char_not_quote | reflexivity] |]).
      constructor.
    + intros [a0 a1 a2 a3 a4 a5 a6 a7] [b0 b1 b2 b3 b4 b5 b6 b7].
      cbn [b64encode list_ascii_of_string].
      repeat (constructor; [first [apply sextet_char_not_quote | reflexivity] |]).
      constructor.
  - split; [apply IH1 | split; [intros a; apply IH2 |]].
    intros [a0 a1 a2 a3 a4 a5 a6 a7] [b0 b1 b2 b3 b4 b5 b6 b7].
    destruct c as [c0 c1 c2 c3 c4 c5 c6 c7].
    cbn [b64encode list_ascii_of_string].
    repeat (constructor; [apply sextet_char_not_quote |]).
    exact IH0.
Qed.

Lemma take_until_app (stop : ascii) (s t : string) :
  Forall (fun k => Ascii.eqb k stop = false) (list_ascii_of_string s) ->
  take_until stop (s ++ String stop t) = s.
Proof.
  induction s as [| c s IH]; simpl; intros H.
  - rewrite Ascii.eqb_refl; reflexivity.
  - inversion H as [| k l Hc Hrest]; subst.
    rewrite Hc, (IH Hrest); reflexivity.
Qed.

Lemma b64encode_length_steps (s : string) :
  (String.length (b64encode s) = 4 * ((String.length s + 2) / 3))%nat
  /\ (forall a, String.length (b64encode (String a s))
                = 4 * ((String.length (String a s) + 2) / 3))%nat
  /\ (forall a b, String.length (b64encode (String a (String b s)))
                  = 4 * ((String.length (String a (String b s)) + 2) / 3))%nat.
Proof.
  induction s as [| c s [IH0 [IH1 IH2]]].
  - split; [reflexivity | split].
    + intros [a0 a1 a2 a3 a4 a5 a6 a7]; reflexivity.
    + intros [a0 a1 a2 a3 a4 a5 a6 a7] [b0 b1 b2 b3 b4 b5 b6 b7]; reflexivity.
  - split; [apply IH1 | split; [intros a; apply IH2 |]].
    intros [a0 a1 a2 a3 a4 a5 a6 a7] [b0 b1 b2 b3 b4 b5 b6 b7].
    destruct c as [c0 c1 c2 c3 c4 c5 c6 c7].
    cbn [b64encode String.length]; rewrite IH0.
    replace (S (S (S (String.length s))) + 2)%nat
      with (String.length s + 2 + 1 * 3)%nat by lia.
    rewrite Nat.div_add by discriminate; lia.
Qed.

Lemma prefix_append (p t : string) : String.prefix p (p ++ t) = true.
Proof.
  induction p as [| a p IH]; simpl; [destruct t; reflexivity |].
  destruct (ascii_dec a a) as [_ | Hne]; [exact IH | contradiction].
Qed.

Lemma string_drop_append (p t : string) : string_drop (String.length p) (p ++ t) = t.
Proof. induction p as [| a p IH]; simpl; [reflexivity | exact IH]. Qed.

Lemma href_payload_encoded (csv tail : string) :
  href_payload (href_prefix ++ b64encode csv ++ String dquote tail) = b64encode csv.
Proof.
  unfold href_payload; rewrite string_drop_append.
  apply take_until_app, b64encode_no_quote_steps.
Qed.

Lemma download_link_payload (to_csv : DataFrame -> string) (df : DataFrame) :
  exists tail,
    download_data_as_csv to_csv df
    = href_prefix ++ b64encode (to_csv df) ++ String dquote tail.
Proof. eexists; reflexivity. Qed.

(** X16: the link of the full download carries the CSV text without loss,
    and the table cannot break the link: the anchor starts with the data
    prefix, what stands between the prefix and the next double quote is the
    base64 encoding of the CSV text, of four characters per three bytes, and
    decoding it gives back the CSV text, byte for byte. *)
Theorem download_link_round_trip (to_csv : DataFrame -> string) (df : DataFrame) :
  String.prefix href_prefix (download_data_as_csv to_csv df) = true
  /\ href_payload (download_data_as_csv to_csv df) = b64encode (to_csv df)
  /\ String.length (href_payload (download_data_as_csv to_csv df))
     = (4 * ((String.length (to_csv df) + 2) / 3))%nat
  /\ b64decode (href_payload (download_data_as_csv to_csv df)) = Some (to_csv df).
Proof.
  assert (Hshape : exists tail,
            download_data_as_csv to_csv df
            = href_prefix ++ b64encode (to_csv df) ++ String dquote tail)
    by (eexists; reflexivity).
  destruct Hshape as [tail ->].
  rewrite href_payload_encoded.
  split; [apply prefix_append |].
  split; [reflexivity |].
  split; [apply b64encode_length_steps | apply b64_round_trip_steps].
Qed.

Lemma select_rows_dated (df : DataFrame) (selected_dates : list cell) :
  In "Time" (columns df) ->
  select_rows df (map (fun c => cell_isin c selected_dates) (cells_of df "Time"))
  = mkDataFrame (columns df) (rows_dated df selected_dates).
Proof.
  intros Hin; unfold rows_dated, cells_of, row_get.
  destruct (index_of_In _ _ Hin) as [j ->].
  rewrite map_map.
  pose proof (select_rows_filter df
                (fun row => cell_isin (nth j row NaN) selected_dates)) as Hrows.
  unfold select_rows in *; cbn [rows] in Hrows; rewrite Hrows; reflexivity.
Qed.

Lemma cell_isin_members (c : cell) (s1 s2 : list cell) :
  (forall d, In d s1 -> In d s2) ->
  cell_isin c s1 = true -> cell_isin c s2 = true.
Proof.
  unfold cell_isin; intros Hsub H.
  apply existsb_exists in H as [v [Hv Hc]].
  apply existsb_exists; exists v; split; [apply Hsub; assumption | assumption].
Qed.

Lemma cell_isin_same_members (c : cell) (s1 s2 : list cell) :
  (forall d, In d s1 <-> In d s2) -> cell_isin c s1 = cell_isin c s2.
Proof.
  intros Hsame.
  destruct (cell_isin c s1) eqn:H1, (cell_isin c s2) eqn:H2; try reflexivity.
  - rewrite (cell_isin_members c s1 s2) in H2; [discriminate | apply Hsame | exact H1].
  - rewrite (cell_isin_members c s2 s1) in H1; [discriminate | apply Hsame | exact H2].
Qed.

Lemma filter_all {A : Type} (p : A -> bool) (xs : list A) :
  (forall a, In a xs -> p a = true) -> filter p xs = xs.
Proof.
  induction xs as [| a xs IH]; intros Hall; [reflexivity |].
  simpl; rewrite (Hall a (or_introl eq_refl)), IH; [reflexivity |].
  intros b Hb; apply Hall; right; assumption.
Qed.



(** X18: the link of the selected download depends on the selected dates
    only through the dates that are listed, not through their order or their
    repetitions; and for an Observation Table a selection that lists every
    date of the table gives the payload of the full download. *)
Theorem download_selected_selection (to_csv : DataFrame -> string) (df : DataFrame)
    (s1 s2 : list cell)
    (Hsame : forall d, In d s1 <-> In d s2) :
  download_selected_data_as_csv to_csv df s1
  = download_selected_data_as_csv to_csv df s2
  /\ (observation_table df = true ->
      (forall row t, In row (rows df) ->
         row_get (columns df) row "Time" = Ok (Stamp t) -> In (Stamp t) s1) ->
      exists href,
        download_selected_data_as_csv to_csv df s1 = Ok href
        /\ href_payload href = href_payload (download_data_as_csv to_csv df)).
Proof.
  split.
  - unfold download_selected_data_as_csv.
    destruct (column df "Time") as [time |]; [| reflexivity].
    cbn [bind].
    replace (map (fun c => cell_isin c s1) time) with (map (fun c => cell_isin c s2) time);
      [reflexivity |].
    apply map_ext; intros c; symmetry; apply cell_isin_same_members; exact Hsame.
  - intros Hobs Hall.
    pose proof (observation_table_time df Hobs) as Hin.
    unfold download_selected_data_as_csv.
    rewrite (column_cells_of df "Time" Hin); cbn [bind].
    rewrite (select_rows_dated df s1 Hin).
    assert (Hrows : rows_dated df s1 = rows df).
    { unfold rows_dated; apply filter_all; intros row Hrow.
      destruct (observation_table_time_cell df row Hobs Hrow) as [t Ht].
      rewrite Ht; unfold cell_isin.
      apply existsb_exists; exists (Stamp t); split; [apply (Hall row t Hrow Ht) |].
      simpl; rewrite !Z.eqb_refl; reflexivity. }
    rewrite Hrows.
    replace (mkDataFrame (columns df) (rows df)) with df by (destruct df; reflexivity).
    eexists; split; [reflexivity |].
    destruct (download_link_payload to_csv df) as [tail ->].
    match goal with |- href_payload ?h = _ =>
      assert (Hshape : exists tail', h = href_prefix ++ b64encode (to_csv df)
                                         ++ String dquote tail')
        by (eexists; reflexivity)
    end.
    destruct Hshape as [tail' ->].
    rewrite !href_payload_encoded; reflexivity.
Qed.

Lemma download_selected_selection_witness :
  download_selected_data_as_csv (fun _ => "Time,pi_1q") two_quarter_table
    [Stamp (mkTimestamp 1999 6 30); Stamp (mkTimestamp 1999 3 31)]
  = download_selected_data_as_csv (fun _ => "Time,pi_1q") two_quarter_table
      [Stamp (mkTimestamp 1999 3 31); Stamp (mkTimestamp 1999 6 30);
       Stamp (mkTimestamp 1999 3 31)].
Proof.
  apply (proj1 (download_selected_selection (fun _ => "Time,pi_1q") two_quarter_table
                  [Stamp (mkTimestamp 1999 6 30); Stamp (mkTimestamp 1999 3 31)]
                  [Stamp (mkTimestamp 1999 3 31); Stamp (mkTimestamp 1999 6 30);
                   Stamp (mkTimestamp 1999 3 31)]
                  ltac:(intros d; simpl; tauto))).
Defined.

(** ** Quarter labels as keys *)

Lemma str_of_int_chars (n : Z) :
  Forall (fun c => In c (list_ascii_of_string "-0123456789"))
         (list_ascii_of_string (str_of_int n)).
Proof.
  assert (Hu : forall u, Forall (fun c => In c (list_ascii_of_string "-0123456789"))
                           (list_ascii_of_string (NilEmpty.string_of_uint u))).
  { induction u; simpl; constructor; try assumption; simpl; tauto. }
  assert (Hz : forall u, Forall (fun c => In c (list_ascii_of_string "-0123456789"))
                           (list_ascii_of_string (NilZero.string_of_uint u))).
  { intros u; unfold NilZero.string_of_uint; destruct u; try apply Hu.
    simpl; constructor; [simpl; tauto | constructor]. }
  unfold str_of_int; destruct n as [| p | p]; cbn [Z.to_int NilZero.string_of_int];
    try apply Hz.
  simpl; constructor; [simpl; tauto | apply Hz].
Qed.

Lemma str_of_int_no_Q (n : Z) :
  Forall (fun c => c <> "Q"%char) (list_ascii_of_string (str_of_int n)).
Proof.
  eapply Forall_impl; [| apply str_of_int_chars].
  intros c Hc ->; simpl in Hc.
  repeat (destruct Hc as [Hc | Hc]; [discriminate Hc |]); exact Hc.
Qed.

Lemma str_of_int_inj (a b : Z) : str_of_int a = str_of_int b -> a = b.
Proof.
  intros H; pose proof (int_str_of_int a) as Ha.
  rewrite H, int_str_of_int in Ha; injection Ha as ->; reflexivity.
Qed.

Lemma calendar_quarter_index (m : Z) :
  1 <= m <= 12 -> calendar_quarter m = str_of_int ((m - 1) / 3 + 1).
Proof.
  intros Hm.
  assert (Hc : m = 1 \/ m = 2 \/ m = 3 \/ m = 4 \/ m = 5 \/ m = 6 \/ m = 7 \/
               m = 8 \/ m = 9 \/ m = 10 \/ m = 11 \/ m = 12) by lia.
  repeat (destruct Hc as [-> | Hc]; [reflexivity |]).
  subst m; reflexivity.
Qed.

(** X19: two dates have the same quarter label exactly when they lie in the
    same year and the same calendar quarter; so a label stands for one
    quarter of one year, and all dates of that quarter share it. *)
Theorem quarter_label_key (d1 d2 : Timestamp)
    (H1 : 1 <= month d1 <= 12) (H2 : 1 <= month d2 <= 12) :
  format_quarter d1 = format_quarter d2
  <-> year d1 = year d2 /\ (month d1 - 1) / 3 = (month d2 - 1) / 3.
Proof.
  destruct d1 as [y1 m1 dd1], d2 as [y2 m2 dd2]; cbn [year month] in *.
  rewrite (format_quarter_month y1 m1 dd1 H1), (format_quarter_month y2 m2 dd2 H2).
  rewrite (calendar_quarter_index m1 H1), (calendar_quarter_index m2 H2).
  split.
  - intros Heq.
    apply (f_equal (split "Q")) in Heq.
    change (str_of_int y1 ++ "Q" ++ str_of_int ((m1 - 1) / 3 + 1))
      with (str_of_int y1 ++ String "Q" (str_of_int ((m1 - 1) / 3 + 1))) in Heq.
    change (str_of_int y2 ++ "Q" ++ str_of_int ((m2 - 1) / 3 + 1))
      with (str_of_int y2 ++ String "Q" (str_of_int ((m2 - 1) / 3 + 1))) in Heq.
    rewrite !split_at_sep in Heq by apply str_of_int_no_Q.
    rewrite !split_plain in Heq by apply str_of_int_no_Q.
    injection Heq as Hy Hq.
    apply str_of_int_inj in Hy, Hq; split; [exact Hy | lia].
  - intros [-> ->]; reflexivity.
Qed.

Lemma quarter_label_key_witness :
  format_quarter (mkTimestamp 1999 4 30) = format_quarter (mkTimestamp 1999 6 30).
Proof.
  apply (quarter_label_key (mkTimestamp 1999 4 30) (mkTimestamp 1999 6 30)).
  - cbn; lia.
  - cbn; lia.
  - split; reflexivity.
Defined.

(** ** Rows without a date *)

Lemma format_quarter_not_nan (t : Timestamp) : format_quarter t <> "nanQ4".
Proof.
  unfold format_quarter.
  pose proof (str_of_int_chars (year t)) as Hchars.
  destruct (str_of_int (year t)) as [| c s]; [discriminate |].
  inversion Hchars as [| c' l Hc _]; subst.
  intros H; injection H as -> _; simpl in Hc.
  repeat (destruct Hc as [Hc | Hc]; [discriminate Hc |]); exact Hc.
Qed.

Lemma cell_eqb_NaT (c : cell) : cell_eqb c NaT = false.
Proof. destruct c; reflexivity. Qed.

Lemma row_get_present (cols : list string) (row : list cell) (col : string) :
  In col cols -> exists c, row_get cols row col = Ok c.
Proof.
  intros Hin; unfold row_get; destruct (index_of_In _ _ Hin) as [j ->]; eauto.
Qed.

(** X20: when the horizon labels of a table parse and its Time cells are
    dates or missing dates, a row with a missing date takes part in curve
    extraction under the label nanQ4; selecting that label in the comparison
    tab raises an exception and gives no chart, because a missing date equals
    no cell of the Time column. *)
Theorem missing_date_label (colors : list string) (df : DataFrame)
    (selected_quarter_labels : list string) (use_fixed_y_axis : bool)
    (Hhorizons : exists hv, for_each horizon_value (horizon_columns df) = Ok hv)
    (Htimes : forall row, In row (rows df) ->
        row_get (columns df) row "Time" = Ok NaT
        \/ exists t, row_get (columns df) row "Time" = Ok (Stamp t))
    (Hmissing : exists row, In row (rows df)
                            /\ row_get (columns df) row "Time" = Ok NaT)
    (Hselected : In "nanQ4" selected_quarter_labels) :
  (exists curves_data,
     prepare_curve_data df = Ok curves_data
     /\ List.length curves_data = List.length (rows df)
     /\ In "nanQ4" (map quarter_label curves_data))
  /\ (exists e,
        comparison_tab colors df selected_quarter_labels use_fixed_y_axis = Raise e).
Proof.
  destruct Hhorizons as [hv Hhv].
  split.
  - unfold prepare_curve_data; rewrite Hhv; cbn [bind].
    match goal with |- context [for_each ?f (rows df)] => set (body := f) end.
    assert (Hbody : forall row, In row (rows df) ->
              exists rec, body row = Ok rec
                /\ (row_get (columns df) row "Time" = Ok NaT ->
                    quarter_label rec = "nanQ4")).
    { intros row Hrow; unfold body.
      destruct (for_each_total (row_get (columns df) row) (horizon_columns df))
        as [vs Hvs].
      { intros col Hcol; apply row_get_present.
        apply horizon_columns_In in Hcol as [Hin _]; exact Hin. }
      destruct (Htimes row Hrow) as [Ht | [t Ht]]; rewrite Ht; cbn [bind format_quarter_cell];
        rewrite Hvs; cbn [bind]; eexists; (split; [reflexivity |]).
      - intros _; reflexivity.
      - discriminate. }
    destruct (for_each_total body (rows df)) as [recs Hrecs].
    { intros row Hrow; destruct (Hbody row Hrow) as [rec [Hrec _]]; eauto. }
    exists recs; split; [exact Hrecs |].
    pose proof Hrecs as Hall; apply for_each_Forall2 in Hall.
    split; [symmetry; apply (Forall2_length Hall) |].
    destruct Hmissing as [row [Hrow Hnat]].
    destruct (In_nth_error _ _ Hrow) as [i Hi].
    destruct (Forall2_nth_error_l _ _ _ Hall i row Hi) as [rec [Hrec Hrun]].
    destruct (Hbody row Hrow) as [rec' [Hrec' Hlabel]].
    rewrite Hrun in Hrec'; injection Hrec' as <-.
    apply in_map_iff; exists rec; split; [apply Hlabel; exact Hnat |].
    eapply nth_error_In; eassumption.
  - unfold comparison_tab.
    match goal with |- context [for_each ?f (rows df)] => set (opt := f) end.
    destruct (for_each opt (rows df)) as [opts | e] eqn:Hopts; cbn [bind]; [| eauto].
    destruct selected_quarter_labels as [| l ls] eqn:Hls; [destruct Hselected |].
    rewrite <- Hls in *; clear Hls l ls.
    assert (Hshape : forall o, In o opts ->
              (fst o = NaT /\ snd o = "nanQ4")
              \/ exists t, fst o = Stamp t /\ snd o = format_quarter t).
    { apply for_each_Forall2 in Hopts.
      intros o Ho; destruct (In_nth_error _ _ Ho) as [i Hi].
      destruct (Forall2_nth_error_r _ _ _ Hopts i o Hi) as [row [Hrow Hrun]].
      unfold opt in Hrun.
      destruct (Htimes row (nth_error_In _ _ Hrow)) as [Ht | [t Ht]];
        rewrite Ht in Hrun; cbn [bind format_quarter_cell] in Hrun;
        injection Hrun as <-; [left | right; exists t]; split; reflexivity. }
    assert (Hsome : exists o, In o opts /\ snd o = "nanQ4").
    { apply for_each_Forall2 in Hopts.
      destruct Hmissing as [row [Hrow Hnat]].
      destruct (In_nth_error _ _ Hrow) as [i Hi].
      destruct (Forall2_nth_error_l _ _ _ Hopts i row Hi) as [o [Ho Hrun]].
      unfold opt in Hrun; rewrite Hnat in Hrun; cbn [bind format_quarter_cell] in Hrun.
      injection Hrun as <-; exists (NaT, "nanQ4"); split;
        [eapply nth_error_In; eassumption | reflexivity]. }
    match goal with |- context [flat_map ?f selected_quarter_labels] =>
      set (pick := f) end.
    assert (Hdate : In NaT (flat_map pick selected_quarter_labels)).
    { apply in_flat_map; exists "nanQ4"; split; [exact Hselected |].
      unfold pick.
      destruct (find (fun o : cell * string => String.eqb (snd o) "nanQ4") opts)
        as [[date label] |] eqn:Hfind.
      - apply find_some in Hfind as [Ho Hl]; simpl in Hl; apply String.eqb_eq in Hl.
        destruct (Hshape _ Ho) as [[Hd _] | [t [_ Hlab]]]; simpl in *.
        + left; exact Hd.
        + exfalso; apply (format_quarter_not_nan t); rewrite <- Hlab; exact Hl.
      - destruct Hsome as [o [Ho Hl]].
        pose proof (find_none _ _ Hfind o Ho) as Hno; simpl in Hno.
        rewrite Hl in Hno; discriminate Hno. }
    assert (Hraise : exists e,
              create_comparison_chart colors df (flat_map pick selected_quarter_labels)
                use_fixed_y_axis = Raise e).
    { unfold create_comparison_chart; rewrite Hhv; cbn [bind].
      match goal with |- context [for_each_indexed ?f _ _] => set (step := f) end.
      destruct (for_each_indexed_raises step _ NaT Hdate) with (i := 0%nat) as [e He].
      - intros i; unfold step.
        destruct (column df "Time") as [time |]; cbn [bind]; [| eauto].
        unfold iloc0, select_rows; cbn [rows].
        rewrite filter_fst_none; [cbn; eauto |].
        apply Forall_forall; intros b Hb.
        apply in_map_iff in Hb as [c [<- _]]; apply cell_eqb_NaT.
      - rewrite He; cbn [bind]; eauto. }
    destruct Hraise as [e He].
    destruct selected_quarter_labels; [destruct Hselected |].
    fold pick; rewrite He; cbn [bind]; eauto.
Qed.

Lemma missing_date_label_witness :
  (exists curves_data,
     prepare_curve_data missing_date_table = Ok curves_data
     /\ List.length curves_data = List.length (rows missing_date_table)
     /\ In "nanQ4" (map quarter_label curves_data))
  /\ (exists e,
        comparison_tab ["red"] missing_date_table ["1999Q1"; "nanQ4"] false = Raise e).
Proof.
  apply (missing_date_label ["red"] missing_date_table ["1999Q1"; "nanQ4"] false).
  - eexists; reflexivity.
  - intros row [<- | [<- | []]]; [right; eexists; reflexivity | left; reflexivity].
  - exists [NaT; Num (18 # 10)]; split; [simpl; auto | reflexivity].
  - simpl; auto.
Defined.
